(** * EthFI-Bot: a shallow embedding of [bot.py]

    The bot polls four public market-data sources, derives a heuristic
    signal and an ETA estimate, renders a report and pushes it to a set of
    subscribers kept in a flat JSON file.

    Modelling conventions.
    - Python values decoded from JSON are the inductive [pyval]; a dict is
      an association list (lookup takes the first binding of a key).
    - The control flow of the whole program is embedded with Python [int]
      and [float] both read as exact rationals ([Q], kept in lowest terms by
      [Qred]); the properties proved on this layer are about which branch
      runs, what is raised and what is caught, and do not depend on how a
      float rounds.
    - The two arithmetic blocks whose result depends on rounding, the ETA
      estimate and the open-interest change, are embedded a second time in
      the module [Binary64], on IEEE 754 binary64 floats and unbounded
      integers; the properties of their numeric results are proved there.
    - Exceptions are the error monad [result]; [try ... except Exception]
      is [try_except].
    - The outside world (HTTP replies, the clock, the subscriber file, the
      message transport) is passed in explicitly. *)

From Stdlib Require Import QArith Qabs Qround Qcanon Lqa ZArith String Ascii List Bool Lia.
From Stdlib Require Import Floats.
From stdpp Require Import base option list strings countable numbers gmap sets pretty.

Open Scope string_scope.
Set Warnings "-register-all,-clear-no-such-hyp,-inexact-float".

(** ** Exceptions and the error monad *)

Inductive exn :=
| ConnectionError
| HTTPError
| JSONDecodeError
| OSError
| KeyError
| IndexError
| TypeError
| AttributeError
| ValueError
| ZeroDivisionError
| OverflowError.

Inductive result (A : Type) :=
| Ok (a : A)
| Raise (e : exn).
Arguments Ok {A} a.
Arguments Raise {A} e.

Definition bind {A B} (r : result A) (f : A -> result B) : result B :=
  match r with
  | Ok a => f a
  | Raise e => Raise e
  end.

Notation "'let*' x ':=' e 'in' k" := (bind e (fun x => k))
  (at level 10, x name, e at level 200, k at level 200).
Notation "'let*' ' p ':=' e 'in' k" := (bind e (fun x => let 'p := x in k))
  (at level 10, p pattern, e at level 200, k at level 200).

(** [try: body except Exception: handler] *)
Definition try_except {A} (body : result A) (handler : exn -> result A) : result A :=
  match body with
  | Ok a => Ok a
  | Raise e => handler e
  end.


(** ** Python values *)

Inductive pyval :=
| VNone
| VBool (b : bool)
| VNum (q : Q)
| VStr (s : string)
| VList (l : list pyval)
| VDict (d : list (string * pyval)).

Definition num_lt (a b : Q) : bool := negb (Qle_bool b a).
Definition num_le (a b : Q) : bool := Qle_bool a b.
Definition num_is_zero (a : Q) : bool := Qeq_bool a 0.

Definition fadd (a b : Q) : Q := Qred (a + b).
Definition fsub (a b : Q) : Q := Qred (a - b).
Definition fmul (a b : Q) : Q := Qred (a * b).
Definition fabs (a : Q) : Q := Qred (Qabs a).

(** [a / b]; Python raises on a zero divisor. *)
Definition fdiv (a b : Q) : result Q :=
  if num_is_zero b then Raise ZeroDivisionError else Ok (Qred (a / b)).

(** [max(a, b)] and [min(a, b)] keep the first argument on a tie. *)
Definition py_max (a b : Q) : Q := if num_lt a b then b else a.
Definition py_min (a b : Q) : Q := if num_lt b a then b else a.

(** [int(x)] of a number truncates towards zero. *)
Definition trunc (x : Q) : Z :=
  if num_lt x 0 then (- Qfloor (- x))%Z else Qfloor x.

(** Truth value of an object. *)
Definition truthy (v : pyval) : bool :=
  match v with
  | VNone => false
  | VBool b => b
  | VNum q => negb (num_is_zero q)
  | VStr s => negb (String.eqb s "")
  | VList l => match l with [] => false | _ => true end
  | VDict d => match d with [] => false | _ => true end
  end.

(** [a or b] *)
Definition py_or (a b : pyval) : pyval := if truthy a then a else b.

Definition is_none (v : pyval) : bool :=
  match v with VNone => true | _ => false end.

(** Numeric view of a value: [bool] is a subclass of [int]. *)
Definition as_num (v : pyval) : option Q :=
  match v with
  | VNum q => Some q
  | VBool b => Some (if b then 1 else 0)%Q
  | _ => None
  end.

(** [isinstance(v, (int, float))] *)
Definition is_number (v : pyval) : bool :=
  match as_num v with Some _ => true | None => false end.

(** Ordering comparisons against a numeric literal raise [TypeError] on
    anything that is not a number. *)
Definition py_cmp (op : Q -> Q -> bool) (v : pyval) (k : Q) : result bool :=
  match as_num v with
  | Some q => Ok (op q k)
  | None => Raise TypeError
  end.
Definition py_gt v k := py_cmp (fun a b => num_lt b a) v k.
Definition py_ge v k := py_cmp (fun a b => num_le b a) v k.
Definition py_lt v k := py_cmp num_lt v k.
Definition py_le v k := py_cmp num_le v k.

(** [v / k] with a numeric literal [k]. *)
Definition py_div (v : pyval) (k : Q) : result Q :=
  match as_num v with
  | Some q => fdiv q k
  | None => Raise TypeError
  end.

(** [abs(v)] *)
Definition py_abs (v : pyval) : result Q :=
  match as_num v with
  | Some q => Ok (fabs q)
  | None => Raise TypeError
  end.

(** *** Dictionaries, subscripts *)

Fixpoint assoc (d : list (string * pyval)) (k : string) : option pyval :=
  match d with
  | [] => None
  | (k', v) :: d' => if String.eqb k' k then Some v else assoc d' k
  end.

(** [d.get(k, default)] on a value known to be a dict built by the program. *)
Definition dict_get (d : list (string * pyval)) (k : string) (default : pyval) : pyval :=
  match assoc d k with
  | Some v => v
  | None => default
  end.

(** [v.get(k, default)]: only dicts have the method. *)
Definition py_get (v : pyval) (k : string) (default : pyval) : result pyval :=
  match v with
  | VDict d => Ok (dict_get d k default)
  | _ => Raise AttributeError
  end.

(** [v[0]] *)
Definition py_first (v : pyval) : result pyval :=
  match v with
  | VList (x :: _) => Ok x
  | VList [] => Raise IndexError
  | VStr (String c _) => Ok (VStr (String c EmptyString))
  | VStr EmptyString => Raise IndexError
  | VDict _ => Raise KeyError
  | _ => Raise TypeError
  end.

(** [v[k]] for a string key [k] *)
Definition py_item (v : pyval) (k : string) : result pyval :=
  match v with
  | VDict d => match assoc d k with Some x => Ok x | None => Raise KeyError end
  | _ => Raise TypeError
  end.

(** [len(v)] of a list *)
Definition is_list (v : pyval) : bool :=
  match v with VList _ => true | _ => false end.
Definition is_dict (v : pyval) : bool :=
  match v with VDict _ => true | _ => false end.
Definition list_len (v : pyval) : nat :=
  match v with VList l => length l | _ => 0 end.

(** ** Conversions: [float(v)], [int(v)] *)

Definition digit_of (c : ascii) : option Z :=
  let n := Z.of_N (N_of_ascii c) in
  if ((48 <=? n) && (n <=? 57))%Z then Some (n - 48)%Z else None.

(** Reads a maximal run of decimal digits: its value (on top of [acc]),
    how many digits were read, and the rest of the input. *)
Fixpoint read_digits (cs : list ascii) (acc : Z) (cnt : nat) : Z * nat * list ascii :=
  match cs with
  | c :: cs' =>
      match digit_of c with
      | Some d => read_digits cs' (10 * acc + d)%Z (S cnt)
      | None => (acc, cnt, cs)
      end
  | [] => (acc, cnt, [])
  end.

Definition is_space (c : ascii) : bool :=
  let n := N_of_ascii c in
  ((n =? 32) || ((9 <=? n) && (n <=? 13)))%N.

Fixpoint lstrip (cs : list ascii) : list ascii :=
  match cs with
  | c :: cs' => if is_space c then lstrip cs' else cs
  | [] => []
  end.

Definition strip (cs : list ascii) : list ascii :=
  rev (lstrip (rev (lstrip cs))).

(** An optional sign: [true] when negative. *)
Definition read_sign (cs : list ascii) : bool * list ascii :=
  match cs with
  | "-"%char :: cs' => (true, cs')
  | "+"%char :: cs' => (false, cs')
  | _ => (false, cs)
  end.

Definition pow10 (e : Z) : Q :=
  if (0 <=? e)%Z then inject_Z (10 ^ e) else / inject_Z (10 ^ (- e)).

(** Optional exponent part [e[+-]digits]. *)
Definition read_exponent (cs : list ascii) : option Z :=
  match cs with
  | [] => Some 0%Z
  | c :: cs' =>
      if (Ascii.eqb c "e" || Ascii.eqb c "E")%bool then
        let '(neg, cs1) := read_sign cs' in
        match read_digits cs1 0 0 with
        | (_, O, _) => None
        | (e, _, []) => Some (if neg then (- e)%Z else e)
        | _ => None
        end
      else None
  end.

(** [float(s)] for a string: surrounding blanks, a sign, a decimal
    mantissa with at least one digit, an optional exponent. The spellings
    of infinity and NaN have no rational value and are rejected here, as
    are digit-group underscores. *)
Definition float_of_string (s : string) : option Q :=
  let '(neg, cs) := read_sign (strip (list_ascii_of_string s)) in
  let '(ip, ni, cs1) := read_digits cs 0 0 in
  let '(m, nf, cs2) :=
    match cs1 with
    | "."%char :: cs1' => read_digits cs1' ip 0
    | _ => (ip, O, cs1)
    end in
  match (ni + nf)%nat with
  | O => None
  | _ =>
      match read_exponent cs2 with
      | Some e =>
          let v := Qred (inject_Z m * pow10 (e - Z.of_nat nf)) in
          Some (if neg then Qred (- v) else v)
      | None => None
      end
  end.

(** [int(s)] for a string: surrounding blanks, a sign, decimal digits. *)
Definition int_of_string (s : string) : option Z :=
  let '(neg, cs) := read_sign (strip (list_ascii_of_string s)) in
  match read_digits cs 0 0 with
  | (_, O, _) => None
  | (n, _, []) => Some (if neg then (- n)%Z else n)
  | _ => None
  end.

(** [float(v)] *)
Definition py_float (v : pyval) : result Q :=
  match v with
  | VNum q => Ok q
  | VBool b => Ok (if b then 1 else 0)%Q
  | VStr s =>
      match float_of_string s with
      | Some q => Ok q
      | None => Raise ValueError
      end
  | _ => Raise TypeError
  end.

(** [int(v)] *)
Definition py_int (v : pyval) : result Z :=
  match v with
  | VNum q => Ok (trunc q)
  | VBool b => Ok (if b then 1 else 0)%Z
  | VStr s =>
      match int_of_string s with
      | Some n => Ok n
      | None => Raise ValueError
      end
  | _ => Raise TypeError
  end.

(** ** Number formatting *)

(** Nearest integer of a non-negative number, ties to even: the rounding
    of the [f] and [%] presentation types. *)
Definition round_half_even (x : Q) : Z :=
  let f := Qfloor x in
  match Qcompare (x - inject_Z f)%Q (1 # 2)%Q with
  | Lt => f
  | Gt => (f + 1)%Z
  | Eq => if Z.even f then f else (f + 1)%Z
  end.

Fixpoint zeros (n : nat) : string :=
  match n with
  | O => ""
  | S n' => String "0" (zeros n')
  end.

Definition zero_pad (width : nat) (s : string) : string :=
  zeros (width - String.length s) ++ s.

(** Thousands separators, on the reversed digits. *)
Fixpoint commas_rev (cs : list ascii) : list ascii :=
  match cs with
  | a :: b :: c :: ((_ :: _) as rest) => a :: b :: c :: ","%char :: commas_rev rest
  | _ => cs
  end.

Definition group_thousands (s : string) : string :=
  string_of_list_ascii (rev (commas_rev (rev (list_ascii_of_string s)))).

(** [format(q, "[+][,].<prec>f")] *)
Definition fmt_fixed (plus comma : bool) (prec : nat) (q : Q) : string :=
  let scale := (10 ^ Z.of_nat prec)%Z in
  let n := round_half_even (Qabs q * inject_Z scale)%Q in
  let ip := pretty (n `div` scale)%Z in
  let fp := pretty (n `mod` scale)%Z in
  (if num_lt q 0 then "-" else if plus then "+" else "") ++
  (if comma then group_thousands ip else ip) ++
  match prec with
  | O => ""
  | _ => "." ++ zero_pad prec fp
  end.

(** [format(q, "+.<prec>%")] *)
Definition fmt_percent (plus : bool) (prec : nat) (q : Q) : string :=
  fmt_fixed plus false prec (q * 100)%Q ++ "%".

(** An f-string field [{v:spec}] with a float presentation type: numbers
    (and bools) format, strings raise [ValueError], everything else
    [TypeError]. A number is formatted as the float it stands for; the
    [int]s that are too large to be converted, on which the field raises
    [OverflowError] instead, lie outside [fits_float] below and are kept
    out of the formatted fields by [formattable]. *)
Definition py_format (fmt : Q -> string) (v : pyval) : result string :=
  match v with
  | VNum q => Ok (fmt q)
  | VBool b => Ok (fmt (if b then 1 else 0)%Q)
  | VStr _ => Raise ValueError
  | _ => Raise TypeError
  end.

(** ** CONFIG *)

Definition DATA_FILE : string := "subscribers.json".
Definition INTERVAL_SECONDS : Z := 10 * 60.
Definition SYMBOL : string := "ETHFI".
Definition BINANCE_PERP : string := "ETHFIUSDT".

(** ** STORAGE HELPERS *)

(** Members of a Python set, up to the equality sets use: [True == 1 == 1.0],
    so every number is one canonical rational. *)
Inductive hkey :=
| KNone
| KNum (q : Qc)
| KStr (s : string).

Global Instance hkey_eq_dec : EqDecision hkey.
Proof. solve_decision. Defined.

Global Instance hkey_countable : Countable hkey.
Proof.
  refine (inj_countable'
    (fun k => match k with
              | KNone => inl tt
              | KNum q => inr (inl q)
              | KStr s => inr (inr s)
              end)
    (fun x => match x with
              | inl _ => KNone
              | inr (inl q) => KNum q
              | inr (inr s) => KStr s
              end) _).
  by intros [].
Defined.

(** [hash(v)]: lists and dicts are unhashable. *)
Definition py_hash (v : pyval) : result hkey :=
  match v with
  | VNone => Ok KNone
  | VBool b => Ok (KNum (Q2Qc (if b then 1 else 0)))
  | VNum q => Ok (KNum (Q2Qc q))
  | VStr s => Ok (KStr s)
  | _ => Raise TypeError
  end.

Definition key_val (k : hkey) : pyval :=
  match k with
  | KNone => VNone
  | KNum q => VNum q
  | KStr s => VStr s
  end.

Fixpoint hash_all (vs : list pyval) : result (list hkey) :=
  match vs with
  | [] => Ok []
  | v :: vs' =>
      let* k := py_hash v in
      let* ks := hash_all vs' in
      Ok (k :: ks)
  end.

(** [set(ids)]: the elements of a list, the characters of a string (its
    bytes, in this encoding of strings), the keys of a dict; anything else
    is not iterable. *)
Definition py_set (ids : pyval) : result (gset hkey) :=
  match ids with
  | VList l => let* ks := hash_all l in Ok (list_to_set ks)
  | VStr s => Ok (list_to_set ((fun c => KStr (String c "")) <$> list_ascii_of_string s))
  | VDict d => Ok (list_to_set ((fun kv => KStr (fst kv)) <$> d))
  | _ => Raise TypeError
  end.

(** What sits at [DATA_FILE]: a file that cannot be opened, one whose
    content is not JSON, or a JSON document. *)
Inductive file :=
| Unreadable
| Garbled
| Doc (v : pyval).

Record disk := {
  data_file : option file;
  writable : bool
}.

(** [json.load(open(DATA_FILE))] *)
Definition json_load (f : file) : result pyval :=
  match f with
  | Unreadable => Raise OSError
  | Garbled => Raise JSONDecodeError
  | Doc v => Ok v
  end.

Definition load_subscribers (d : disk) : result (gset hkey) :=
  match data_file d with
  | None => Ok ∅
  | Some f =>
      try_except
        (let* ids := json_load f in py_set ids)
        (fun _ => Ok ∅)
  end.

(** [json.dump(list(subs), f)]; opening for writing may fail. *)
Definition save_subscribers (subs : gset hkey) (d : disk) : result disk :=
  if writable d then
    Ok {| data_file := Some (Doc (VList (key_val <$> elements subs)));
          writable := true |}
  else Raise OSError.

(** The program state: the global [SUBSCRIBERS] and the file system. *)
Record bot := {
  SUBSCRIBERS : gset hkey;
  fs : disk
}.

(** [SUBSCRIBERS = load_subscribers()] at import time. *)
Definition boot (d : disk) : result bot :=
  let* subs := load_subscribers d in
  Ok {| SUBSCRIBERS := subs; fs := d |}.

(** A chat id of the transport, as a set member. *)
Definition chat_key (chat_id : Z) : hkey := KNum (Q2Qc (inject_Z chat_id)).

(** ** The outside world *)

(** What [requests.get] hands back: whether the status is a success, and
    the body decoded as JSON ([None] when it is not JSON). *)
Record reply := {
  status_ok : bool;
  body : option pyval
}.

Definition raise_for_status (r : reply) : result unit :=
  if status_ok r then Ok tt else Raise HTTPError.

Definition json (r : reply) : result pyval :=
  match body r with
  | Some v => Ok v
  | None => Raise JSONDecodeError
  end.

(** [requests.get(...).json()] *)
Definition get_json (r : result reply) : result pyval :=
  let* x := r in json x.

(** One outcome of [requests.get] per endpoint the bot calls (a [Raise] is
    a network failure or a timeout), and the local time already formatted
    by [strftime]. *)
Record world := {
  coingecko_markets : result reply;
  binance_fundingRate : result reply;
  binance_premiumIndex : result reply;
  binance_openInterest : result reply;
  binance_openInterestHist : result reply;
  llama_protocol : result reply;
  clock : string
}.

(** ** DATA SOURCES *)

Definition get_coingecko_ethfi (w : world) : result pyval :=
  let* r := coingecko_markets w in
  let* _ := raise_for_status r in
  let* arr := json r in
  if negb (truthy arr) then Ok (VDict []) else
  let* x := py_first arr in
  let* price := py_get x "current_price" VNone in
  let* mcap := py_get x "market_cap" VNone in
  let* vol24 := py_get x "total_volume" VNone in
  let* chg1h := py_get x "price_change_percentage_1h_in_currency" VNone in
  let* chg24h := py_get x "price_change_percentage_24h_in_currency" VNone in
  let* chg7d := py_get x "price_change_percentage_7d_in_currency" VNone in
  Ok (VDict [("price", price); ("mcap", mcap); ("vol24", vol24);
             ("chg1h", chg1h); ("chg24h", chg24h); ("chg7d", chg7d)]).

(** [None] or a float, as a value. *)
Definition opt_num (o : option Q) : pyval :=
  match o with
  | Some q => VNum q
  | None => VNone
  end.

(** The settled funding record: the two assignments sit in one [try], so a
    failure of the second keeps the first. *)
Definition last_settled (hist : pyval) : option Q * option Z :=
  if is_list hist && truthy hist then
    match (let* h0 := py_first hist in let* v := py_item h0 "fundingRate" in py_float v) with
    | Ok f =>
        match (let* h0 := py_first hist in let* v := py_item h0 "fundingTime" in py_int v) with
        | Ok t => (Some f, Some t)
        | Raise _ => (Some f, None)
        end
    | Raise _ => (None, None)
    end
  else (None, None).

Definition has_key (v : pyval) (k : string) : bool :=
  match v with
  | VDict d => match assoc d k with Some _ => true | None => false end
  | _ => false
  end.

Definition predicted_funding (prem : pyval) : option Q :=
  if is_dict prem && has_key prem "lastFundingRate" then
    match (let* v := py_item prem "lastFundingRate" in py_float v) with
    | Ok f => Some f
    | Raise _ => None
    end
  else None.

Definition get_binance_funding_latest (w : world) : result pyval :=
  let* hist := get_json (binance_fundingRate w) in
  let '(last_funding, last_time) := last_settled hist in
  let* prem := get_json (binance_premiumIndex w) in
  let predicted := predicted_funding prem in
  Ok (VDict [("last_funding", opt_num last_funding);
             ("last_time", opt_num (inject_Z <$> last_time));
             ("predicted", opt_num predicted)]).

(** [curr_oi]: 0.0 unless the field converts. *)
Definition current_oi (oi_latest : pyval) : Q :=
  match (let* v := py_get oi_latest "openInterest" (VNum 0) in py_float v) with
  | Ok f => f
  | Raise _ => 0
  end.

(** [float(hist[0]["sumOpenInterest"])] *)
Definition oldest_point (hist : pyval) : result Q :=
  let* h0 := py_first hist in
  let* v := py_item h0 "sumOpenInterest" in
  py_float v.

(** [past_oi]: the oldest point of the hourly history, when the history is
    a list of at least 24 points and the field converts. *)
Definition oldest_oi (hist : pyval) : option Q :=
  if is_list hist && (24 <=? list_len hist)%nat then
    match oldest_point hist with
    | Ok f => Some f
    | Raise _ => None
    end
  else None.

(** [past_oi and past_oi > 0] *)
Definition usable (past_oi : option Q) : bool :=
  match past_oi with
  | Some p => negb (num_is_zero p) && num_lt 0 p
  | None => false
  end.

(** [delta, pct] *)
Definition oi_delta_pct (curr_oi : Q) (past_oi : option Q) : result (option Q * option Q) :=
  match past_oi with
  | Some p =>
      if usable past_oi then
        let delta := fsub curr_oi p in
        let* r := fdiv delta p in
        Ok (Some delta, Some (fmul r 100))
      else Ok (None, None)
  | None => Ok (None, None)
  end.

Definition get_binance_oi_change (w : world) : result pyval :=
  let* oi_latest := get_json (binance_openInterest w) in
  let curr_oi := current_oi oi_latest in
  let* hist := get_json (binance_openInterestHist w) in
  let past_oi := oldest_oi hist in
  let* '(delta, pct) := oi_delta_pct curr_oi past_oi in
  Ok (VDict [("oi", VNum curr_oi);
             ("oi_24h_delta", opt_num delta);
             ("oi_24h_pct", opt_num pct)]).

(** [d.values()]: a decoded object holds one value per key, the one
    [assoc] finds; later bindings of a key already seen are skipped. *)
Fixpoint values_from (seen : list string) (d : list (string * pyval)) : list pyval :=
  match d with
  | [] => []
  | (k, v) :: d' =>
      if existsb (String.eqb k) seen then values_from seen d'
      else v :: values_from (k :: seen) d'
  end.

Definition dict_values (d : list (string * pyval)) : list pyval := values_from [] d.

(** [sum(vs)]: starts from 0 and adds; adding a non-number raises. *)
Fixpoint py_sum (acc : Q) (vs : list pyval) : result Q :=
  match vs with
  | [] => Ok acc
  | v :: vs' =>
      match as_num v with
      | Some q => py_sum (fadd acc q) vs'
      | None => Raise TypeError
      end
  end.

Definition get_llama_tvl (w : world) : result pyval :=
  let* r := llama_protocol w in
  let* _ := raise_for_status r in
  let* data := json r in
  let* tvl := py_get data "tvl" (VNum 0) in
  if is_number tvl then Ok tvl else
  let* cur := py_get data "currentChainTvls" (VDict []) in
  match cur with
  | VDict d => let* s := py_sum 0 (dict_values d) in Ok (VNum s)
  | _ => Ok (VNum 0)
  end.

(** ** FORMATTING *)

Definition nl : string := String (ascii_of_nat 10) "".

Section Report.

(** The builtin [repr], which [str] falls back to on anything that is not
    a string. *)
Variable py_repr : pyval -> string.

(** [str(v)] *)
Definition py_str (v : pyval) : string :=
  match v with
  | VStr s => s
  | _ => py_repr v
  end.

Definition pretty_usd (x : pyval) : string :=
  if is_none x then "—" else
  let body : result string :=
    let* b := py_ge x 1000000000 in
    if b then (let* y := py_div x 1000000000 in Ok ("$" ++ fmt_fixed false false 2 y ++ "B")) else
    let* m := py_ge x 1000000 in
    if m then (let* y := py_div x 1000000 in Ok ("$" ++ fmt_fixed false false 2 y ++ "M")) else
    let* k := py_ge x 1000 in
    if k then (let* y := py_div x 1000 in Ok ("$" ++ fmt_fixed false false 2 y ++ "K")) else
    let* t := py_format (fmt_fixed false true 2) x in
    Ok ("$" ++ t) in
  match body with
  | Ok s => s
  | Raise _ => py_str x
  end.

(** [a and b], with [b] only looked at when [a] holds. *)
Definition and_then (a b : result bool) : result bool :=
  let* x := a in if x then b else Ok false.

Definition not_none (v : pyval) : result bool := Ok (negb (is_none v)).

(** "Tín hiệu nhanh": the signal label and the reasons, from
    [fund.get("predicted")] and [oi.get("oi_24h_pct")]. *)
Definition quick_signal (predicted oi_24h_pct : pyval) : result (string * list string) :=
  let* r1 := and_then (not_none predicted) (py_le predicted 0) in
  let reasons := if r1 then ["Funding ≤ 0 (Short đông hơn)"] else [] in
  let* reasons := (if negb (is_none oi_24h_pct) then
               let* up := py_gt oi_24h_pct 0 in
               if up then Ok (reasons ++ ["OI ↑ (mở thêm vị thế)"])%list else
               let* down := py_lt oi_24h_pct 0 in
               if down then Ok (reasons ++ ["OI ↓ (đóng vị thế)"])%list else
               Ok reasons
             else Ok reasons) in
  let oi_or_0 := py_or oi_24h_pct (VNum 0) in
  let* bull := and_then (and_then (not_none predicted) (py_lt predicted 0)) (py_ge oi_or_0 0) in
  if bull then Ok ("Bullish ⚡ (nguy cơ Short squeeze)", reasons) else
  let* caut := and_then (and_then (not_none predicted) (py_gt predicted 0)) (py_gt oi_or_0 3) in
  if caut then Ok ("Caution ⚠ (Long crowded)", reasons) else
  let* pull := and_then (and_then (not_none predicted) (py_gt predicted 0)) (py_lt oi_or_0 0) in
  if pull then Ok ("Pullback risk ⚠", reasons) else
  Ok ("Neutral", reasons).

Definition hours_text (days : Q) : string :=
  "≈ " ++ pretty (trunc (fmul days 24)) ++ "–" ++ pretty (trunc (fmul days 24) + 6)%Z
       ++ " giờ (ước tính)".

Definition days_text (days : Q) : string :=
  "≈ " ++ pretty (trunc days) ++ "–" ++ pretty (trunc days + 4)%Z ++ " ngày (ước tính)".

(** "ETA tới $1.8": the whole block sits in a [try] whose handler passes,
    and [eta_text] is only assigned at its end. *)
Definition eta_to_target (price vol24 chg24h : pyval) : string :=
  let body : result string :=
    let* go := and_then (Ok (truthy price)) (py_gt price 0) in
    if go then
      let* p := py_float price in
      let gap := fsub (18 # 10) p in
      if num_le gap 0 then Ok "Đã ≥ $1.8" else
      let* vol_factor := py_div (py_or vol24 (VNum 0)) 70000000 in
      let vol_factor := py_max (3 # 10) (py_min vol_factor 2) in
      let* a := py_abs (py_or chg24h (VNum 0)) in
      let daily_pct := if num_is_zero a then 3%Q else a in
      let* daily_move := fdiv (py_max (3 # 2) (py_min daily_pct 8)) 100 in
      let* p := py_float price in
      let* r := fdiv gap p in
      let* days := fdiv r daily_move in
      let* days := fdiv days vol_factor in
      Ok (if num_lt days 1 then hours_text days else days_text days)
    else Ok "—" in
  match body with
  | Ok s => s
  | Raise _ => "—"
  end.

(** The message: every f-string field in the order it is evaluated. *)
Definition render (dt : string) (price vol24 mcap tvl chg1h chg24h : pyval)
    (fund oi : pyval) (signal : string) (reasons : list string) (eta_text : string)
    : result string :=
  let zero := VNum 0 in
  let* f_price := py_format (fmt_fixed false false 4) (py_or price zero) in
  let f_vol24 := pretty_usd vol24 in
  let f_mcap := pretty_usd mcap in
  let f_tvl := pretty_usd tvl in
  let* f_chg1h := py_format (fmt_fixed true false 2) (py_or chg1h zero) in
  let* f_chg24h := py_format (fmt_fixed true false 2) (py_or chg24h zero) in
  let* predicted := py_get fund "predicted" VNone in
  let* f_pred := py_format (fmt_percent true 4) (py_or predicted zero) in
  let* oi_now := py_get oi "oi" zero in
  let* f_oi := py_format (fmt_fixed false true 2) oi_now in
  let* delta := py_get oi "oi_24h_delta" VNone in
  let* f_delta := py_format (fmt_fixed true false 2) (py_or delta zero) in
  let* pct := py_get oi "oi_24h_pct" VNone in
  let* f_pct := py_format (fmt_fixed true false 2) (py_or pct zero) in
  let f_reasons :=
    match reasons with
    | [] => "Đang tích lũy, chưa lệch phe."
    | _ => String.concat ", " reasons
    end in
  Ok ("📊 <b>ETHFI Cập nhập giá và Phân tích</b> — " ++ dt ++ nl ++
      "• Giá: <b>$" ++ f_price ++ "</b>  |  24h vol: <b>" ++ f_vol24 ++ "</b>" ++ nl ++
      "• MCap: " ++ f_mcap ++ "  |  TVL: " ++ f_tvl ++ nl ++
      "• 1h Δ%: " ++ f_chg1h ++ "%  | 24h Δ%: " ++ f_chg24h ++ "%" ++ nl ++
      "• Funding (pred): <b>" ++ f_pred ++ "</b>" ++ nl ++
      "• OI: <b>" ++ f_oi ++ "</b>  |  OI 24h: " ++
      f_delta ++ " (" ++ f_pct ++ "%)" ++ nl ++
      nl ++
      "🔎 Nhận định: <b>" ++ signal ++ "</b>" ++ nl ++
      "• " ++ f_reasons ++ nl ++
      "🎯 ETA về $1.8: <b>" ++ eta_text ++ "</b>" ++ nl ++
      nl ++
      "ℹ️ Nguồn: CoinGecko, Binance Futures, DeFiLlama" ++
      nl ++
      "🧑‍💻Người lập trình: <span style='color:green;'><b>Thanos Huang</b></span>").

(** Everything [format_report] does once the four sources have answered. *)
Definition compose_report (dt : string) (cg fund oi tvl : pyval) : result string :=
  let* price := py_get cg "price" VNone in
  let* mcap := py_get cg "mcap" VNone in
  let* vol24 := py_get cg "vol24" VNone in
  let* chg1h := py_get cg "chg1h" VNone in
  let* chg24h := py_get cg "chg24h" VNone in
  let* predicted := py_get fund "predicted" VNone in
  let* oi_24h_pct := py_get oi "oi_24h_pct" VNone in
  let* '(signal, reasons) := quick_signal predicted oi_24h_pct in
  let eta_text := eta_to_target price vol24 chg24h in
  render dt price vol24 mcap tvl chg1h chg24h fund oi signal reasons eta_text.

Definition format_report (w : world) : result string :=
  let* cg := get_coingecko_ethfi w in
  let cg := py_or cg (VDict []) in
  let* fund := get_binance_funding_latest w in
  let* oi := get_binance_oi_change w in
  let tvl :=
    match get_llama_tvl w with
    | Ok v => v
    | Raise _ => VNone
    end in
  compose_report (clock w) cg fund oi tvl.

(** ** TELEGRAM HANDLERS *)

(** What a handler or a job does to the outside, in order. Replies to the
    caller are taken to go through; a handler whose [save_subscribers]
    raised ends with that exception, the set already mutated. *)
Inductive event :=
| Compile
| ReplyHtml (text : string)
| ReplyText (text : string)
| SendMessage (chat_id : hkey) (text : string) (outcome : result unit)
| Sleep
| LogWarning (chat_id : hkey) (e : exn)
| LogException (e : exn).

Definition start (chat_id : Z) (first_name : option string) (st : bot)
    : bot * result (list event) :=
  let subs := {[chat_key chat_id]} ∪ SUBSCRIBERS st in
  match save_subscribers subs (fs st) with
  | Ok d =>
      ({| SUBSCRIBERS := subs; fs := d |},
       Ok [ReplyHtml ("Chào <b>" ++ default "" first_name ++ "</b>! 👍" ++ nl ++
                      "Bạn đã đăng ký nhận <b>ETHFI 4h Update</b> ở đây." ++ nl ++
                      "Dùng /now để nhận báo cáo ngay.")])
  | Raise e => ({| SUBSCRIBERS := subs; fs := fs st |}, Raise e)
  end.

Definition stop (chat_id : Z) (st : bot) : bot * result (list event) :=
  if bool_decide (chat_key chat_id ∈ SUBSCRIBERS st) then
    let subs := SUBSCRIBERS st ∖ {[chat_key chat_id]} in
    match save_subscribers subs (fs st) with
    | Ok d => ({| SUBSCRIBERS := subs; fs := d |}, Ok [ReplyText "Đã hủy đăng ký cập nhật 4h."])
    | Raise e => ({| SUBSCRIBERS := subs; fs := fs st |}, Raise e)
    end
  else (st, Ok [ReplyText "Bạn chưa đăng ký."]).


(** ** JOBQUEUE *)

(** One recipient of the broadcast loop: the send, then the pause, or the
    warning when the send raised. *)
Definition send_one (deliver : hkey -> string -> result unit) (msg : string)
    (chat_id : hkey) : list event :=
  match deliver chat_id msg with
  | Ok tt => [SendMessage chat_id msg (Ok tt); Sleep]
  | Raise e => [SendMessage chat_id msg (Raise e); LogWarning chat_id e]
  end.

Definition send_broadcast (deliver : hkey -> string -> result unit) (w : world)
    (st : bot) : list event :=
  if bool_decide (SUBSCRIBERS st = ∅) then [] else
  Compile ::
  match format_report w with
  | Ok msg => elements (SUBSCRIBERS st) ≫= send_one deliver msg
  | Raise e => [LogException e]
  end.

End Report.

(** * The specification's reading *)

(** ** Signal *)

Inductive Signal :=
| Neutral
| Bullish
| Caution
| PullbackRisk.

Definition signal_label (s : Signal) : string :=
  match s with
  | Neutral => "Neutral"
  | Bullish => "Bullish ⚡ (nguy cơ Short squeeze)"
  | Caution => "Caution ⚠ (Long crowded)"
  | PullbackRisk => "Pullback risk ⚠"
  end.

(** "present and satisfies [p]" *)
Definition present_and (p : Q -> bool) (o : option Q) : bool :=
  match o with
  | Some x => p x
  | None => false
  end.

(** The ordered first-match chain, as the specification words it, the
    open-interest percent taken as 0 when absent. *)
Definition classify (predicted oi_pct : option Q) : Signal :=
  let pct := default 0%Q oi_pct in
  if present_and (fun f => num_lt f 0) predicted && num_le 0 pct then Bullish
  else if present_and (fun f => num_lt 0 f) predicted && num_lt 3 pct then Caution
  else if present_and (fun f => num_lt 0 f) predicted && num_lt pct 0 then PullbackRisk
  else Neutral.

(** Steps 2 and 3 of the derivation: the reasons, in order. *)
Definition reasons_of (predicted oi_pct : option Q) : list string :=
  (if present_and (fun f => num_le f 0) predicted
   then ["Funding ≤ 0 (Short đông hơn)"] else [])
  ++ (if present_and (fun p => num_lt 0 p) oi_pct then ["OI ↑ (mở thêm vị thế)"]
      else if present_and (fun p => num_lt p 0) oi_pct then ["OI ↓ (đóng vị thế)"]
      else [])%list.

(** ** ETA *)

Definition target : Q := 18 # 10.

(** ** Open interest *)

(** The 24h delta and percent-change from the current value and the oldest
    history point, when that point is there and strictly positive. *)
Definition oi_fields (curr : Q) (past : option Q) : option Q * option Q :=
  match past with
  | Some p =>
      if num_lt 0 p
      then (Some (fsub curr p), Some (fmul (Qred (fsub curr p / p)) 100))
      else (None, None)
  | None => (None, None)
  end.

Definition oi_record (curr : Q) (delta pct : option Q) : pyval :=
  VDict [("oi", VNum curr); ("oi_24h_delta", opt_num delta); ("oi_24h_pct", opt_num pct)].

(** ** Degenerate spot answers *)







(** [format_report] with the TVL given instead of fetched. *)
Definition format_report_with_tvl (py_repr : pyval -> string) (w : world) (tvl : pyval)
    : result string :=
  let* cg := get_coingecko_ethfi w in
  let* fund := get_binance_funding_latest w in
  let* oi := get_binance_oi_change w in
  compose_report py_repr (clock w) (py_or cg (VDict [])) fund oi tvl.

(** What reaches [get_coingecko_ethfi] as [arr]. *)
Definition spot_answer (w : world) : result pyval :=
  let* r := coingecko_markets w in
  let* _ := raise_for_status r in
  json r.

(** ** Traces *)

Definition is_compile (ev : event) : bool :=
  match ev with
  | Compile => true
  | _ => false
  end.

(** How many times the report compiler ran. *)
Definition compilations (evs : list event) : nat :=
  length (List.filter is_compile evs).

(** The sends that were attempted: recipient and text, in order. *)
Definition sends (evs : list event) : list (hkey * string) :=
  omap (fun ev => match ev with
                  | SendMessage chat_id text _ => Some (chat_id, text)
                  | _ => None
                  end) evs.

(** * Sample inputs *)

Definition disk0 : disk := {| data_file := None; writable := true |}.

Definition bot0 : bot := {| SUBSCRIBERS := ∅; fs := disk0 |}.

Definition ok_json (v : pyval) : result reply :=
  Ok {| status_ok := true; body := Some v |}.

(** An hourly history of 24 points whose oldest point holds [first]. *)
Definition hist24 (first : pyval) : pyval :=
  VList (VDict [("sumOpenInterest", first)]
         :: repeat (VDict [("sumOpenInterest", VStr "5")]) 23).

Definition world0 : world := {|
  coingecko_markets :=
    ok_json (VList [VDict [("current_price", VNum (15 # 10));
                           ("market_cap", VNum 1234567);
                           ("total_volume", VNum 70000000);
                           ("price_change_percentage_24h_in_currency", VNum 3)]]);
  binance_fundingRate :=
    ok_json (VList [VDict [("fundingRate", VStr "0.00010000");
                           ("fundingTime", VNum 1700000000000)]]);
  binance_premiumIndex := ok_json (VDict [("lastFundingRate", VStr "-0.00100000")]);
  binance_openInterest := ok_json (VDict [("openInterest", VStr "1050.5")]);
  binance_openInterestHist := ok_json (hist24 (VStr "1000"));
  llama_protocol :=
    ok_json (VDict [("tvl", VList []);
                    ("currentChainTvls",
                     VDict [("Ethereum", VNum 5000000000);
                            ("Arbitrum", VNum 250000000)])]);
  clock := "03/11 10:24"
|}.

Definition repr0 (v : pyval) : string := "".

(** Every source answers with a degenerate document and the TVL source is
    unreachable. *)
Definition world_degenerate : world := {|
  coingecko_markets := ok_json (VList []);
  binance_fundingRate := ok_json (VList []);
  binance_premiumIndex := ok_json (VDict []);
  binance_openInterest := ok_json (VDict []);
  binance_openInterestHist := ok_json (VList []);
  llama_protocol := Raise ConnectionError;
  clock := "03/11 10:24"
|}.

(** A spot record that lacks every key but the price. *)
Definition world_missing_keys : world := {|
  coingecko_markets := ok_json (VList [VDict [("current_price", VNum (15 # 10))]]);
  binance_fundingRate := binance_fundingRate world0;
  binance_premiumIndex := binance_premiumIndex world0;
  binance_openInterest := binance_openInterest world0;
  binance_openInterestHist := binance_openInterestHist world0;
  llama_protocol := ok_json (VDict []);
  clock := clock world0
|}.

Definition bot2 : bot :=
  {| SUBSCRIBERS := {[chat_key 1001]} ∪ {[chat_key 1002]}; fs := disk0 |}.

(** A transport on which the delivery to chat 1001 fails. *)
Definition deliver_1001_down (chat_id : hkey) (text : string) : result unit :=
  match chat_id with
  | KNum q => if Qeq_bool q 1001 then Raise ConnectionError else Ok tt
  | _ => Ok tt
  end.

Definition deliver_all (chat_id : hkey) (text : string) : result unit := Ok tt.

(** The report rendered in [world0]. *)
Definition report0 : string :=
  Eval vm_compute in
    match format_report repr0 world0 with
    | Ok msg => msg
    | Raise _ => ""
    end.

(** The same world with an open-interest history whose oldest point is 0
    and a current open interest of 100. *)
Definition world_zero_oldest : world := {|
  coingecko_markets := coingecko_markets world0;
  binance_fundingRate := binance_fundingRate world0;
  binance_premiumIndex := binance_premiumIndex world0;
  binance_openInterest := ok_json (VDict [("openInterest", VStr "100")]);
  binance_openInterestHist := ok_json (hist24 (VStr "0.00000000"));
  llama_protocol := llama_protocol world0;
  clock := clock world0
|}.

(** The same world with the spot source unreachable. *)
Definition world_spot_down : world := {|
  coingecko_markets := Raise ConnectionError;
  binance_fundingRate := binance_fundingRate world0;
  binance_premiumIndex := binance_premiumIndex world0;
  binance_openInterest := binance_openInterest world0;
  binance_openInterestHist := binance_openInterestHist world0;
  llama_protocol := llama_protocol world0;
  clock := clock world0
|}.




(** * Runs of the handlers *)

(** The commands the dispatcher binds to the registry. *)
Inductive command :=
| CmdStart (chat_id : Z) (first_name : option string)
| CmdStop (chat_id : Z).

Definition command_id (c : command) : Z :=
  match c with
  | CmdStart chat_id _ => chat_id
  | CmdStop chat_id => chat_id
  end.

(** The state a handler leaves behind, whether it ended normally or not. *)
Definition step (st : bot) (c : command) : bot :=
  match c with
  | CmdStart chat_id first_name => (start chat_id first_name st).1
  | CmdStop chat_id => (stop chat_id st).1
  end.

Definition run (cmds : list command) (st : bot) : bot := fold_left step cmds st.

(** Memory and file agree, and the file can be written. *)
Definition synced (st : bot) : Prop :=
  load_subscribers (fs st) = Ok (SUBSCRIBERS st) /\ writable (fs st) = true.

Definition unhashable (v : pyval) : bool := is_list v || is_dict v.



(** ** The adapters after their fetches *)

(** What [get_coingecko_ethfi] makes of the decoded answer [arr]. *)
Definition spot_record (arr : pyval) : result pyval :=
  if negb (truthy arr) then Ok (VDict []) else
  let* x := py_first arr in
  let* price := py_get x "current_price" VNone in
  let* mcap := py_get x "market_cap" VNone in
  let* vol24 := py_get x "total_volume" VNone in
  let* chg1h := py_get x "price_change_percentage_1h_in_currency" VNone in
  let* chg24h := py_get x "price_change_percentage_24h_in_currency" VNone in
  let* chg7d := py_get x "price_change_percentage_7d_in_currency" VNone in
  Ok (VDict [("price", price); ("mcap", mcap); ("vol24", vol24);
             ("chg1h", chg1h); ("chg24h", chg24h); ("chg7d", chg7d)]).

(** What [get_llama_tvl] makes of the decoded answer [data]. *)
Definition tvl_of (data : pyval) : result pyval :=
  let* tvl := py_get data "tvl" (VNum 0) in
  if is_number tvl then Ok tvl else
  let* cur := py_get data "currentChainTvls" (VDict []) in
  match cur with
  | VDict d => let* s := py_sum 0 (dict_values d) in Ok (VNum s)
  | _ => Ok (VNum 0)
  end.

(** What reaches [get_llama_tvl] as [data]. *)
Definition tvl_answer (w : world) : result pyval :=
  let* r := llama_protocol w in
  let* _ := raise_for_status r in
  json r.

Definition funding_record (last_funding : option Q) (last_time : option Z)
    (predicted : option Q) : pyval :=
  VDict [("last_funding", opt_num last_funding);
         ("last_time", opt_num (inject_Z <$> last_time));
         ("predicted", opt_num predicted)].

(** ** More traces *)

Definition is_sleep (ev : event) : bool :=
  match ev with
  | Sleep => true
  | _ => false
  end.

Definition is_warning (ev : event) : bool :=
  match ev with
  | LogWarning _ _ => true
  | _ => false
  end.

Definition delivered (deliver : hkey -> string -> result unit) (msg : string)
    (chat_id : hkey) : bool :=
  match deliver chat_id msg with
  | Ok _ => true
  | Raise _ => false
  end.

(** ** More sample inputs *)

(** The spot source answers 200 with an error object. *)
Definition world_spot_error_object : world := {|
  coingecko_markets := ok_json (VDict [("error", VStr "rate limited")]);
  binance_fundingRate := binance_fundingRate world0;
  binance_premiumIndex := binance_premiumIndex world0;
  binance_openInterest := binance_openInterest world0;
  binance_openInterestHist := binance_openInterestHist world0;
  llama_protocol := llama_protocol world0;
  clock := clock world0
|}.

(** The error object of the futures API, served with a failing status. *)
Definition binance_error : result reply :=
  Ok {| status_ok := false;
        body := Some (VDict [("code", VNum (-1121)); ("msg", VStr "Invalid symbol.")]) |}.

Definition world_binance_error : world := {|
  coingecko_markets := coingecko_markets world0;
  binance_fundingRate := binance_error;
  binance_premiumIndex := binance_error;
  binance_openInterest := binance_error;
  binance_openInterestHist := binance_error;
  llama_protocol := llama_protocol world0;
  clock := clock world0
|}.

(** A perfect spot and TVL body served with a failing status. *)
Definition world_bad_status : world := {|
  coingecko_markets :=
    Ok {| status_ok := false; body := Some (VList [VDict [("current_price", VNum 1)]]) |};
  binance_fundingRate := binance_fundingRate world0;
  binance_premiumIndex := binance_premiumIndex world0;
  binance_openInterest := binance_openInterest world0;
  binance_openInterestHist := binance_openInterestHist world0;
  llama_protocol := Ok {| status_ok := false; body := Some (VDict [("tvl", VNum 5)]) |};
  clock := clock world0
|}.

(** The TVL answer has per-chain values but no total. *)
Definition world_tvl_no_total : world := {|
  coingecko_markets := coingecko_markets world0;
  binance_fundingRate := binance_fundingRate world0;
  binance_premiumIndex := binance_premiumIndex world0;
  binance_openInterest := binance_openInterest world0;
  binance_openInterestHist := binance_openInterestHist world0;
  llama_protocol :=
    ok_json (VDict [("currentChainTvls", VDict [("Ethereum", VNum 5000000000)])]);
  clock := clock world0
|}.

(** The spot answer of [world_missing_keys] followed by a second record. *)
Definition world_two_records : world := {|
  coingecko_markets :=
    ok_json (VList [VDict [("current_price", VNum (15 # 10))];
                    VDict [("current_price", VNum 99)]]);
  binance_fundingRate := binance_fundingRate world0;
  binance_premiumIndex := binance_premiumIndex world0;
  binance_openInterest := binance_openInterest world0;
  binance_openInterestHist := binance_openInterestHist world0;
  llama_protocol := ok_json (VDict []);
  clock := clock world0
|}.

(** The spot price arrives as a string. *)
Definition world_string_price : world := {|
  coingecko_markets := ok_json (VList [VDict [("current_price", VStr "1.5")]]);
  binance_fundingRate := binance_fundingRate world0;
  binance_premiumIndex := binance_premiumIndex world0;
  binance_openInterest := binance_openInterest world0;
  binance_openInterestHist := binance_openInterestHist world0;
  llama_protocol := llama_protocol world0;
  clock := clock world0
|}.

(** The recipients of a trace. *)
Definition recipients (evs : list event) : list hkey := fst <$> sends evs.

(** * The arithmetic blocks in binary64

    The ETA estimate and the open-interest change are floating-point
    computations: what they return depends on how every operation rounds.
    This module embeds the two blocks again with Python's numbers as they
    are, an [int] being an integer of any size and a [float] an IEEE 754
    binary64 number (Rocq's primitive [float], with its infinities, NaN and
    signed zeros). Strings hold ASCII characters. *)

Module Binary64.

Inductive pyval :=
| VNone
| VBool (b : bool)
| VInt (z : Z)
| VFloat (f : float)
| VStr (s : string)
| VList (l : list pyval)
| VDict (d : list (string * pyval)).

(** Truth value of an object; a NaN counts as true, both zeros as false. *)
Definition truthy (v : pyval) : bool :=
  match v with
  | VNone => false
  | VBool b => b
  | VInt z => negb (z =? 0)%Z
  | VFloat f => negb (f =? 0)%float
  | VStr s => negb (String.eqb s "")
  | VList l => match l with [] => false | _ => true end
  | VDict d => match d with [] => false | _ => true end
  end.

(** [a or b] *)
Definition py_or (a b : pyval) : pyval := if truthy a then a else b.

(** [a and b], with [b] only looked at when [a] holds. *)
Definition and_then (a b : result bool) : result bool :=
  let* x := a in if x then b else Ok false.

(** ** Numbers *)

(** Numeric view of a value: [bool] is a subclass of [int]. *)
Inductive num :=
| NInt (z : Z)
| NFloat (f : float).

Definition as_num (v : pyval) : option num :=
  match v with
  | VInt z => Some (NInt z)
  | VBool b => Some (NInt (if b then 1 else 0))
  | VFloat f => Some (NFloat f)
  | _ => None
  end.

(** A number or nothing, as a value. *)
Definition val (o : option num) : pyval :=
  match o with
  | Some (NInt z) => VInt z
  | Some (NFloat f) => VFloat f
  | None => VNone
  end.

(** The float nearest to an integer, ties to even; an integer too large
    rounds to infinity. *)
Definition float_of_Z (z : Z) : float :=
  SF2Prim (binary_normalize prec emax z 0 false).

(** [float(n)] of an [int]: raises when the nearest float is not finite,
    that is from [2^1024 - 2^970] on. *)
Definition float_of_int (z : Z) : result float :=
  let f := float_of_Z z in
  if is_infinity f then Raise OverflowError else Ok f.

(** An integer as an unrounded mantissa at exponent 0. *)
Definition Z2SF (z : Z) : spec_float :=
  match z with
  | Z0 => S754_zero false
  | Zpos m => S754_finite false m 0
  | Zneg m => S754_finite true m 0
  end.

(** [a / b] of two [int]s: the float nearest to the exact quotient. *)
Definition int_true_div (a b : Z) : result float :=
  if (b =? 0)%Z then Raise ZeroDivisionError else
  let f := SF2Prim (SFdiv prec emax (Z2SF a) (Z2SF b)) in
  if is_infinity f then Raise OverflowError else Ok f.

(** [a / b] of two [float]s; Python raises on a zero divisor, of either
    sign, and otherwise divides as IEEE 754 does. *)
Definition fdiv (a b : float) : result float :=
  if (b =? 0)%float then Raise ZeroDivisionError else Ok (a / b)%float.

Definition num_float (n : num) : result float :=
  match n with
  | NInt z => float_of_int z
  | NFloat f => Ok f
  end.

(** [a / b]: two [int]s divide exactly and round once; with a [float] on
    either side both operands are converted first, the left one before the
    right one. *)
Definition py_div (a b : pyval) : result float :=
  match as_num a, as_num b with
  | Some (NInt x), Some (NInt y) => int_true_div x y
  | Some x, Some y =>
      let* fx := num_float x in
      let* fy := num_float y in
      fdiv fx fy
  | _, _ => Raise TypeError
  end.

(** [abs(v)] keeps the type of a number. *)
Definition py_abs (v : pyval) : result pyval :=
  match as_num v with
  | Some (NInt z) => Ok (VInt (Z.abs z))
  | Some (NFloat f) => Ok (VFloat (abs f))
  | None => Raise TypeError
  end.

(** The exact order between a float and an integer: unordered for NaN. *)
Definition float_cmp_int (f : float) (z : Z) : option comparison :=
  match Prim2SF f with
  | S754_nan => None
  | S754_infinity s => Some (if s then Lt else Gt)
  | S754_zero _ => Some (0 ?= z)%Z
  | S754_finite s m e =>
      let v := cond_Zopp s (Zpos m) in
      Some (if (0 <=? e)%Z then (v * 2 ^ e ?= z)%Z else (v ?= z * 2 ^ (- e))%Z)
  end.

(** [a < b] on numbers: exact between an [int] and a [float], false as
    soon as a NaN is involved. *)
Definition num_lt (a b : num) : bool :=
  match a, b with
  | NInt x, NInt y => (x <? y)%Z
  | NFloat x, NFloat y => (x <? y)%float
  | NFloat x, NInt y => match float_cmp_int x y with Some Lt => true | _ => false end
  | NInt x, NFloat y => match float_cmp_int y x with Some Gt => true | _ => false end
  end.

(** [a <= b] on numbers. *)
Definition num_le (a b : num) : bool :=
  match a, b with
  | NInt x, NInt y => (x <=? y)%Z
  | NFloat x, NFloat y => (x <=? y)%float
  | NFloat x, NInt y => match float_cmp_int x y with Some (Lt | Eq) => true | _ => false end
  | NInt x, NFloat y => match float_cmp_int y x with Some (Gt | Eq) => true | _ => false end
  end.

(** Ordering comparisons raise [TypeError] unless both sides are numbers
    (the blocks below always have a number on one side). *)
Definition py_lt (a b : pyval) : result bool :=
  match as_num a, as_num b with
  | Some x, Some y => Ok (num_lt x y)
  | _, _ => Raise TypeError
  end.

Definition py_gt (a b : pyval) : result bool := py_lt b a.

(** [min(a, b)] and [max(a, b)]: the second argument replaces the first
    when it compares strictly below, respectively above, it. *)
Definition py_min (a b : pyval) : result pyval :=
  let* lt := py_lt b a in Ok (if lt then b else a).

Definition py_max (a b : pyval) : result pyval :=
  let* gt := py_gt b a in Ok (if gt then b else a).

(** [int(x)] of a [float] truncates towards zero and raises on an infinity
    and on NaN. *)
Definition int_of_float (f : float) : result Z :=
  match Prim2SF f with
  | S754_nan => Raise ValueError
  | S754_infinity _ => Raise OverflowError
  | S754_zero _ => Ok 0%Z
  | S754_finite s m e => Ok (cond_Zopp s (Z.shiftl (Zpos m) e))
  end.

(** ** Dictionaries, subscripts *)

Fixpoint assoc (d : list (string * pyval)) (k : string) : option pyval :=
  match d with
  | [] => None
  | (k', v) :: d' => if String.eqb k' k then Some v else assoc d' k
  end.

Definition dict_get (d : list (string * pyval)) (k : string) (default : pyval) : pyval :=
  match assoc d k with
  | Some v => v
  | None => default
  end.

(** [v.get(k, default)] *)
Definition py_get (v : pyval) (k : string) (default : pyval) : result pyval :=
  match v with
  | VDict d => Ok (dict_get d k default)
  | _ => Raise AttributeError
  end.

(** [v[0]] *)
Definition py_first (v : pyval) : result pyval :=
  match v with
  | VList (x :: _) => Ok x
  | VList [] => Raise IndexError
  | VStr (String c _) => Ok (VStr (String c EmptyString))
  | VStr EmptyString => Raise IndexError
  | VDict _ => Raise KeyError
  | _ => Raise TypeError
  end.

(** [v[k]] for a string key [k] *)
Definition py_item (v : pyval) (k : string) : result pyval :=
  match v with
  | VDict d => match assoc d k with Some x => Ok x | None => Raise KeyError end
  | _ => Raise TypeError
  end.

Definition is_list (v : pyval) : bool :=
  match v with VList _ => true | _ => false end.
Definition list_len (v : pyval) : nat :=
  match v with VList l => length l | _ => 0 end.

(** ** [float(s)] of a string *)

Definition is_digit (c : ascii) : bool :=
  match digit_of c with Some _ => true | None => false end.

(** An underscore may only sit between two digits. *)
Fixpoint underscores_ok (prev_digit : bool) (cs : list ascii) : bool :=
  match cs with
  | [] => true
  | c :: cs' =>
      if Ascii.eqb c "_" then
        prev_digit && match cs' with d :: _ => is_digit d | [] => false end
        && underscores_ok false cs'
      else underscores_ok (is_digit c) cs'
  end.

Definition drop_underscores (cs : list ascii) : list ascii :=
  List.filter (fun c => negb (Ascii.eqb c "_")) cs.

Definition lower (c : ascii) : ascii :=
  let n := N_of_ascii c in
  if ((65 <=? n) && (n <=? 90))%N then ascii_of_N (n + 32) else c.

(** The float nearest to [m * 10^e] for a natural mantissa [m], with the
    sign given apart: one exact integer or one exact quotient, rounded
    once; too large a value rounds to infinity and too small a one to a
    zero. *)
Definition float_of_decimal (neg : bool) (m e : Z) : float :=
  let s := cond_Zopp neg m in
  if (m =? 0)%Z then (if neg then (-0)%float else 0%float)
  else if (0 <=? e)%Z
  then SF2Prim (binary_normalize prec emax (s * 10 ^ e) 0 false)
  else SF2Prim (SFdiv prec emax (Z2SF s) (Z2SF (10 ^ (- e)))).

(** [float(s)]: surrounding blanks, a sign, then "inf", "infinity" or
    "nan" in any case, or a decimal mantissa with at least one digit and an
    optional exponent, digits possibly grouped by single underscores. *)
Definition float_of_string (s : string) : option float :=
  let cs := strip (list_ascii_of_string s) in
  if negb (underscores_ok false cs) then None else
  let '(neg, cs) := read_sign (drop_underscores cs) in
  let word := string_of_list_ascii (lower <$> cs) in
  if String.eqb word "inf" || String.eqb word "infinity"
  then Some (if neg then neg_infinity else infinity)
  else if String.eqb word "nan" then Some nan
  else
    let '(ip, ni, cs1) := read_digits cs 0 0 in
    let '(m, nf, cs2) :=
      match cs1 with
      | "."%char :: cs1' => read_digits cs1' ip 0
      | _ => (ip, O, cs1)
      end in
    match (ni + nf)%nat with
    | O => None
    | _ =>
        match read_exponent cs2 with
        | Some e => Some (float_of_decimal neg m (e - Z.of_nat nf))
        | None => None
        end
    end.

(** [float(v)] *)
Definition py_float (v : pyval) : result float :=
  match v with
  | VFloat f => Ok f
  | VInt z => float_of_int z
  | VBool b => Ok (if b then 1 else 0)%float
  | VStr s =>
      match float_of_string s with
      | Some f => Ok f
      | None => Raise ValueError
      end
  | _ => Raise TypeError
  end.

(** ** The open-interest adapter *)

Record reply := {
  status_ok : bool;
  body : option pyval
}.

Definition json (r : reply) : result pyval :=
  match body r with
  | Some v => Ok v
  | None => Raise JSONDecodeError
  end.

(** [requests.get(...).json()] *)
Definition get_json (r : result reply) : result pyval :=
  let* x := r in json x.

(** The two endpoints [get_binance_oi_change] calls. *)
Record world := {
  binance_openInterest : result reply;
  binance_openInterestHist : result reply
}.

(** [None] or a float, as a value. *)
Definition opt_float (o : option float) : pyval :=
  match o with
  | Some f => VFloat f
  | None => VNone
  end.

(** [curr_oi]: 0.0 unless the field converts. *)
Definition current_oi (oi_latest : pyval) : float :=
  match (let* v := py_get oi_latest "openInterest" (VFloat 0) in py_float v) with
  | Ok f => f
  | Raise _ => 0%float
  end.

(** [float(hist[0]["sumOpenInterest"])] *)
Definition oldest_point (hist : pyval) : result float :=
  let* h0 := py_first hist in
  let* v := py_item h0 "sumOpenInterest" in
  py_float v.

(** [past_oi]: the oldest point of the hourly history, when the history is
    a list of at least 24 points and the field converts. *)
Definition oldest_oi (hist : pyval) : option float :=
  if is_list hist && (24 <=? list_len hist)%nat then
    match oldest_point hist with
    | Ok f => Some f
    | Raise _ => None
    end
  else None.

(** [past_oi and past_oi > 0] *)
Definition usable (past_oi : option float) : bool :=
  match past_oi with
  | Some p => negb (p =? 0)%float && num_lt (NInt 0) (NFloat p)
  | None => false
  end.

(** [delta, pct] *)
Definition oi_delta_pct (curr_oi : float) (past_oi : option float)
    : result (option float * option float) :=
  match past_oi with
  | Some p =>
      if usable past_oi then
        let delta := (curr_oi - p)%float in
        let* r := fdiv delta p in
        Ok (Some delta, Some (r * 100)%float)
      else Ok (None, None)
  | None => Ok (None, None)
  end.

Definition get_binance_oi_change (w : world) : result pyval :=
  let* oi_latest := get_json (binance_openInterest w) in
  let curr_oi := current_oi oi_latest in
  let* hist := get_json (binance_openInterestHist w) in
  let past_oi := oldest_oi hist in
  let* '(delta, pct) := oi_delta_pct curr_oi past_oi in
  Ok (VDict [("oi", VFloat curr_oi);
             ("oi_24h_delta", opt_float delta);
             ("oi_24h_pct", opt_float pct)]).

(** ** The ETA block of [format_report] *)

Definition range_text (lo : Z) (width : Z) (unit : string) : string :=
  "≈ " ++ pretty lo ++ "–" ++ pretty (lo + width)%Z ++ " " ++ unit ++ " (ước tính)".

(** [f"≈ {int(days*24)}–{int(days*24)+6} giờ (ước tính)"] *)
Definition hours_text (days : float) : result string :=
  let* lo := int_of_float (days * 24)%float in
  let* lo' := int_of_float (days * 24)%float in
  Ok ("≈ " ++ pretty lo ++ "–" ++ pretty (lo' + 6)%Z ++ " giờ (ước tính)").

(** [f"≈ {int(days)}–{int(days)+4} ngày (ước tính)"] *)
Definition days_text (days : float) : result string :=
  let* lo := int_of_float days in
  let* lo' := int_of_float days in
  Ok ("≈ " ++ pretty lo ++ "–" ++ pretty (lo' + 4)%Z ++ " ngày (ước tính)").

(** "ETA tới $1.8": the whole block sits in a [try] whose handler passes,
    and [eta_text] is only assigned at its end. *)
Definition eta_to_target (price vol24 chg24h : pyval) : string :=
  let body : result string :=
    let* go := and_then (Ok (truthy price)) (py_gt price (VInt 0)) in
    if go then
      let* p := py_float price in
      let gap := (1.8 - p)%float in
      if (gap <=? 0)%float then Ok "Đã ≥ $1.8" else
      let* vol_factor := py_div (py_or vol24 (VInt 0)) (VInt 70000000) in
      let* m := py_min (VFloat vol_factor) (VFloat 2) in
      let* vol_factor := py_max (VFloat 0.3) m in
      let* a := py_abs (py_or chg24h (VInt 0)) in
      let daily_pct := py_or a (VFloat 3) in
      let* m := py_min daily_pct (VFloat 8) in
      let* c := py_max (VFloat 1.5) m in
      let* daily_move := py_div c (VFloat 100) in
      let* p := py_float price in
      let* r := fdiv gap p in
      let* days := fdiv r daily_move in
      let* days := py_div (VFloat days) vol_factor in
      if (days <? 1)%float then hours_text days else days_text days
    else Ok "—" in
  match body with
  | Ok s => s
  | Raise _ => "—"
  end.

(** ** The specification's reading *)

Definition target : float := 1.8.

(** [x] brought into [lo, hi]: the upper bound when [x] is above it, [x]
    itself when it is above the lower bound, and the lower bound otherwise
    (also for a NaN). *)
Definition clamp (x : num) (lo hi : float) : num :=
  if num_lt (NFloat hi) x then NFloat hi
  else if num_lt (NFloat lo) x then x
  else NFloat lo.

Definition num_abs (n : num) : num :=
  match n with
  | NInt z => NInt (Z.abs z)
  | NFloat f => NFloat (abs f)
  end.

Definition num_is_zero (n : num) : bool :=
  match n with
  | NInt z => (z =? 0)%Z
  | NFloat f => (f =? 0)%float
  end.

(** [|chg24h|], or 3.0 when that is absent or zero. *)
Definition daily_pct_of (chg24h : option num) : num :=
  let a := num_abs (default (NInt 0) chg24h) in
  if num_is_zero a then NFloat 3 else a.

(** A number as a float: the nearest one for an integer. *)
Definition num_val (n : num) : float :=
  match n with
  | NInt z => float_of_Z z
  | NFloat f => f
  end.

(** [float(x)] of a number: nothing for an integer too large for a float. *)
Definition to_float (n : num) : option float :=
  match num_float n with
  | Ok f => Some f
  | Raise _ => None
  end.

(** [vol24 / 70_000_000], an absent volume counting as 0: nothing when the
    quotient of an integer volume is too large for a float. *)
Definition volume_ratio (vol24 : option num) : option float :=
  match default (NInt 0) vol24 with
  | NInt z =>
      match int_true_div z 70000000 with
      | Ok f => Some f
      | Raise _ => None
      end
  | NFloat v => Some (v / 70000000)%float
  end.

(** The estimate in days, from the price as a float and the volume ratio. *)
Definition eta_days (p ratio : float) (chg24h : option num) : float :=
  ((target - p) / p
   / (num_val (clamp (daily_pct_of chg24h) 1.5 8) / 100)
   / num_val (clamp (NFloat ratio) 0.3 2))%float.

(** The integer part below a finite float. *)
Definition floor (f : float) : option Z :=
  match Prim2SF f with
  | S754_zero _ => Some 0%Z
  | S754_finite s m e => Some (Z.shiftl (cond_Zopp s (Zpos m)) e)
  | _ => None
  end.

(** The floored range from [x] to [x + width]; the placeholder when [x] is
    infinite or NaN. *)
Definition floored_range (x : float) (width : Z) (unit : string) : string :=
  match floor x with
  | Some lo => range_text lo width unit
  | None => "—"
  end.

Definition eta_spec (price vol24 chg24h : option num) : string :=
  match price with
  | None => "—"
  | Some price =>
      if num_le price (NInt 0) then "—"
      else
        match to_float price with
        | None => "—"
        | Some p =>
            if (target <=? p)%float then "Đã ≥ $1.8"
            else
              match volume_ratio vol24 with
              | None => "—"
              | Some ratio =>
                  let days := eta_days p ratio chg24h in
                  if (days <? 1)%float then floored_range (days * 24)%float 6 "giờ"
                  else floored_range days 4 "ngày"
              end
        end
  end.

(** The open-interest record. *)
Definition oi_record (curr : float) (delta pct : option float) : pyval :=
  VDict [("oi", VFloat curr); ("oi_24h_delta", opt_float delta);
         ("oi_24h_pct", opt_float pct)].

(** ** Classes of floats *)

(** Strictly positive, the infinity included. *)
Definition is_positive (x : float) : Prop :=
  match Prim2SF x with
  | S754_finite false _ _ | S754_infinity false => True
  | _ => False
  end.

(** Below zero: finite and non-zero, or minus infinity. *)
Definition is_negative (x : float) : Prop :=
  match Prim2SF x with
  | S754_finite true _ _ | S754_infinity true => True
  | _ => False
  end.

(** NaN, or a number whose sign bit is clear. *)
Definition nonneg (x : float) : Prop :=
  match Prim2SF x with
  | S754_nan => True
  | S754_zero s | S754_infinity s | S754_finite s _ _ => s = false
  end.

(** Infinite or NaN. *)
Definition not_finite (x : float) : Prop :=
  match Prim2SF x with
  | S754_nan | S754_infinity _ => True
  | _ => False
  end.

(** Non-zero (finite or infinite) with the sign [sx]. *)
Definition signed_nonzero (sx : bool) (x : spec_float) : Prop :=
  match x with
  | S754_finite s _ _ | S754_infinity s => s = sx
  | _ => False
  end.

(** ** Sample inputs *)

Definition ok_json (v : pyval) : result reply :=
  Ok {| status_ok := true; body := Some v |}.

(** An hourly history of 24 points whose oldest point holds [first]. *)
Definition hist24 (first : pyval) : pyval :=
  VList (VDict [("sumOpenInterest", first)]
         :: repeat (VDict [("sumOpenInterest", VStr "5")]) 23).

Definition world0 : world := {|
  binance_openInterest := ok_json (VDict [("openInterest", VStr "1050.5")]);
  binance_openInterestHist := ok_json (hist24 (VStr "1000"))
|}.

Definition world_zero_oldest : world := {|
  binance_openInterest := ok_json (VDict [("openInterest", VStr "100")]);
  binance_openInterestHist := ok_json (hist24 (VStr "0.00000000"))
|}.

Definition world_short_history : world := {|
  binance_openInterest := ok_json (VDict [("openInterest", VStr "100")]);
  binance_openInterestHist :=
    ok_json (VList (repeat (VDict [("sumOpenInterest", VStr "5")]) 23))
|}.

End Binary64.

(** * Properties *)

(** ** Basic facts *)


(** ** The model on sample values *)

Example float_of_string_samples :
  float_of_string "0.00010000" = Some (1 # 10000) /\
  float_of_string " -12.5e2 " = Some (-1250 # 1) /\
  float_of_string "7." = Some (7 # 1) /\
  float_of_string ".5" = Some (1 # 2) /\
  float_of_string "1e-2" = Some (1 # 100) /\
  float_of_string "abc" = None /\
  float_of_string "." = None /\
  float_of_string "1.5x" = None /\
  float_of_string "" = None.
Proof. repeat split; reflexivity. Qed.

Example fmt_fixed_samples :
  fmt_fixed false false 2 (1234567 # 1000000) = "1.23" /\
  fmt_fixed false true 2 1234567 = "1,234,567.00" /\
  fmt_fixed true false 2 (-6 # 1000) = "-0.01" /\
  fmt_fixed true false 2 (125 # 1000) = "+0.12" /\
  fmt_fixed false true 2 (-999999) = "-999,999.00" /\
  fmt_fixed false false 4 0 = "0.0000" /\
  fmt_percent true 4 (-1 # 1000) = "-0.1000%".
Proof. repeat split; reflexivity. Qed.

Example report0_text :
  Ok report0 = render repr0 "03/11 10:24"
              (VNum (15 # 10)) (VNum 70000000) (VNum 1234567) (VNum 5250000000)
              VNone (VNum 3)
              (VDict [("last_funding", VNum (1 # 10000));
                      ("last_time", VNum 1700000000000);
                      ("predicted", VNum (-1 # 1000))])
              (oi_record (2101 # 2) (Some (101 # 2)) (Some (101 # 20)))
              "Bullish ⚡ (nguy cơ Short squeeze)"
              ["Funding ≤ 0 (Short đông hơn)"; "OI ↑ (mở thêm vị thế)"]
              "≈ 6–10 ngày (ước tính)".
Proof. vm_compute. reflexivity. Qed.

(** ** The subscriber registry *)

Section Registry.

Implicit Types (k : hkey) (ks : list hkey) (X : gset hkey) (d : disk) (st : bot).

Lemma Q2Qc_this (q : Qc) : Q2Qc q = q.
Proof. apply Qc_is_canon. simpl. apply Qred_correct. Qed.

Lemma py_hash_key_val k : py_hash (key_val k) = Ok k.
Proof. destruct k; simpl; [done | by rewrite Q2Qc_this | done]. Qed.

Lemma hash_all_key_val ks : hash_all (key_val <$> ks) = Ok ks.
Proof.
  induction ks as [|k ks IH]; [done|].
  rewrite fmap_cons. cbn [hash_all]. rewrite py_hash_key_val. cbn [bind].
  by rewrite IH.
Qed.

Lemma load_doc_of_keys ks w :
  load_subscribers {| data_file := Some (Doc (VList (key_val <$> ks))); writable := w |}
  = Ok (list_to_set ks).
Proof.
  unfold load_subscribers. cbn [data_file json_load bind py_set].
  by rewrite hash_all_key_val.
Qed.

(** What [save_subscribers] wrote is read back as the very set saved. *)
Lemma load_after_save X d d' :
  save_subscribers X d = Ok d' -> load_subscribers d' = Ok X.
Proof.
  unfold save_subscribers. destruct (writable d); [|discriminate].
  intros [= <-]. rewrite load_doc_of_keys. by rewrite list_to_set_elements_L.
Qed.

(** At startup the in-memory set is what the file holds. *)
Lemma boot_synced d st : boot d = Ok st -> load_subscribers (fs st) = Ok (SUBSCRIBERS st).
Proof.
  unfold boot. destruct (load_subscribers d) as [X|e] eqn:E; [|discriminate].
  by intros [= <-].
Qed.



End Registry.





(** C5. After a subscribe or an unsubscribe of a present id that ran to
    completion, reading the file back gives exactly the in-memory set; an
    unsubscribe of an id that is not subscribed changes neither the set nor
    the file and answers "not subscribed". *)
Theorem registry_synced_after_mutation (chat_id : Z) (name : option string) (st : bot) :
  (forall st' evs,
      start chat_id name st = (st', Ok evs) ->
      SUBSCRIBERS st' = {[chat_key chat_id]} ∪ SUBSCRIBERS st /\
      load_subscribers (fs st') = Ok (SUBSCRIBERS st')) /\
  (forall st' evs,
      chat_key chat_id ∈ SUBSCRIBERS st ->
      stop chat_id st = (st', Ok evs) ->
      SUBSCRIBERS st' = SUBSCRIBERS st ∖ {[chat_key chat_id]} /\
      load_subscribers (fs st') = Ok (SUBSCRIBERS st')) /\
  (chat_key chat_id ∉ SUBSCRIBERS st ->
      stop chat_id st = (st, Ok [ReplyText "Bạn chưa đăng ký."])).
Proof.
  split; [|split].
  - intros st' evs H. unfold start in H.
    destruct (save_subscribers _ _) eqn:E; inversion H; subst; simpl.
    split; [done|]. by eapply load_after_save.
  - intros st' evs Hin H. unfold stop in H.
    rewrite bool_decide_eq_true_2 in H by done.
    destruct (save_subscribers _ _) eqn:E; inversion H; subst; simpl.
    split; [done|]. by eapply load_after_save.
  - intros Hnot. unfold stop. by rewrite bool_decide_eq_false_2.
Qed.


Lemma registry_synced_after_mutation_witness :
  let st1 := (start 42 None bot0).1 in
  let st2 := (stop 42 st1).1 in
  (exists evs, start 42 None bot0 = (st1, Ok evs)) /\
  chat_key 42 ∈ SUBSCRIBERS st1 /\
  (exists evs, stop 42 st1 = (st2, Ok evs)) /\
  (chat_key 42 ∉ SUBSCRIBERS bot0) /\
  load_subscribers (fs st1) = Ok (SUBSCRIBERS st1) /\
  load_subscribers (fs st2) = Ok (SUBSCRIBERS st2) /\
  stop 42 bot0 = (bot0, Ok [ReplyText "Bạn chưa đăng ký."]).
Proof.
  intros st1 st2.
  assert (chat_key 42 ∈ SUBSCRIBERS st1) as Hin.
  { simpl. apply elem_of_union_l, elem_of_singleton. reflexivity. }
  assert (chat_key 42 ∉ SUBSCRIBERS bot0) as Hout.
  { simpl. apply not_elem_of_empty. }
  assert (exists evs, start 42 None bot0 = (st1, Ok evs)) as [evs1 Hstart].
  { eexists. reflexivity. }
  assert (exists evs, stop 42 st1 = (st2, Ok evs)) as [evs2 Hstop].
  { eexists. unfold st2, stop. rewrite bool_decide_eq_true_2 by exact Hin. reflexivity. }
  split; [by exists evs1|]. split; [exact Hin|]. split; [by exists evs2|].
  split; [exact Hout|].
  split; [|split].
  - exact (proj2 (proj1 (registry_synced_after_mutation 42 None bot0) st1 evs1 Hstart)).
  - exact (proj2 (proj1 (proj2 (registry_synced_after_mutation 42 None st1))
                    st2 evs2 Hin Hstop)).
  - exact (proj2 (proj2 (registry_synced_after_mutation 42 None bot0)) Hout).
Defined.

(** C4, as the code has it. For an id that is not yet subscribed, a
    subscribe followed by an unsubscribe restores the original set; in
    general the pair leaves the original set without that id. *)
Theorem add_then_remove_restores (chat_id : Z) (name : option string) (st : bot) :
  SUBSCRIBERS (stop chat_id (start chat_id name st).1).1
    = SUBSCRIBERS st ∖ {[chat_key chat_id]} /\
  (chat_key chat_id ∉ SUBSCRIBERS st ->
   SUBSCRIBERS (stop chat_id (start chat_id name st).1).1 = SUBSCRIBERS st).
Proof.
  assert (SUBSCRIBERS (start chat_id name st).1 = {[chat_key chat_id]} ∪ SUBSCRIBERS st) as Hs.
  { unfold start. by destruct (save_subscribers _ _). }
  assert (SUBSCRIBERS (stop chat_id (start chat_id name st).1).1
          = SUBSCRIBERS st ∖ {[chat_key chat_id]}) as Hr.
  { unfold stop. rewrite bool_decide_eq_true_2 by (rewrite Hs; set_solver).
    destruct (save_subscribers _ _); simpl; rewrite Hs; set_solver. }
  split; [exact Hr|].
  intros Hnot. rewrite Hr. set_solver.
Qed.

Lemma add_then_remove_restores_witness :
  (chat_key 42 ∉ SUBSCRIBERS bot0) /\
  SUBSCRIBERS (stop 42 (start 42 None bot0).1).1 = SUBSCRIBERS bot0.
Proof.
  split.
  - simpl. apply not_elem_of_empty.
  - apply (proj2 (add_then_remove_restores 42 None bot0)).
    simpl. apply not_elem_of_empty.
Defined.

(** C4 as stated fails for an id that is already subscribed: the subscribe
    changes nothing and the unsubscribe then removes the id. *)
Lemma add_then_remove_present_counterexample :
  let st := {| SUBSCRIBERS := {[chat_key 1]}; fs := disk0 |} in
  SUBSCRIBERS (stop 1 (start 1 None st).1).1 = ∅ /\
  SUBSCRIBERS (stop 1 (start 1 None st).1).1 <> SUBSCRIBERS st.
Proof.
  intros st.
  assert (SUBSCRIBERS (stop 1 (start 1 None st).1).1 = ∅) as H.
  { unfold stop. rewrite bool_decide_eq_true_2 by (simpl; set_solver).
    simpl. set_solver. }
  split; [exact H|].
  rewrite H. simpl. intros Heq.
  assert (chat_key 1 ∈ (∅ : gset hkey)) as Hin by (rewrite Heq; set_solver).
  set_solver.
Qed.

(** ** Numbers *)

Lemma num_is_zero_iff q : num_is_zero q = true <-> q == 0.
Proof. apply Qeq_bool_iff. Qed.

Lemma num_le_iff a b : num_le a b = true <-> (a <= b)%Q.
Proof. apply Qle_bool_iff. Qed.

Lemma num_lt_iff a b : num_lt a b = true <-> (a < b)%Q.
Proof.
  unfold num_lt. rewrite negb_true_iff, <- not_true_iff_false, Qle_bool_iff.
  split; [apply Qnot_le_lt | apply Qlt_not_le].
Qed.

Lemma num_lt_false_iff a b : num_lt a b = false <-> (b <= a)%Q.
Proof.
  rewrite <- not_true_iff_false, num_lt_iff.
  split; [apply Qnot_lt_le | apply Qle_not_lt].
Qed.

Lemma num_le_false_iff a b : num_le a b = false <-> (b < a)%Q.
Proof.
  rewrite <- not_true_iff_false, num_le_iff.
  split; [apply Qnot_le_lt | apply Qlt_not_le].
Qed.

Global Instance num_lt_proper : Proper (Qeq ==> Qeq ==> eq) num_lt.
Proof. intros a a' Ha b b' Hb. unfold num_lt. by rewrite Ha, Hb. Qed.

Global Instance num_le_proper : Proper (Qeq ==> Qeq ==> eq) num_le.
Proof. intros a a' Ha b b' Hb. unfold num_le. by rewrite Ha, Hb. Qed.

Global Instance num_is_zero_proper : Proper (Qeq ==> eq) num_is_zero.
Proof. intros a a' Ha. unfold num_is_zero. by rewrite Ha. Qed.

(** ** The quick signal *)

(** A value that counts as false compares with the literals like 0. *)
Lemma falsy_number_compares_as_zero (p : Q) :
  num_is_zero p = true ->
  num_le 0 p = true /\ num_lt 3 p = false /\ num_lt p 0 = false.
Proof.
  intros H%num_is_zero_iff. rewrite H. done.
Qed.

Lemma quick_signal_classifies (predicted oi_pct : option Q) :
  quick_signal (opt_num predicted) (opt_num oi_pct)
  = Ok (signal_label (classify predicted oi_pct), reasons_of predicted oi_pct).
Proof.
  unfold quick_signal, classify, reasons_of, and_then, not_none, py_or,
    py_le, py_lt, py_gt, py_ge, py_cmp.
  destruct predicted as [f|], oi_pct as [p|]; simpl.
  - destruct (num_is_zero p) eqn:Hz; simpl.
    + destruct (falsy_number_compares_as_zero p Hz) as (H0 & H3 & Hn).
      rewrite H0, H3, Hn.
      destruct (num_le f 0), (num_lt 0 p), (num_lt f 0), (num_lt 0 f); reflexivity.
    + destruct (num_le f 0), (num_lt 0 p), (num_lt p 0), (num_lt f 0), (num_lt 0 f),
        (num_le 0 p), (num_lt 3 p); reflexivity.
  - destruct (num_le f 0), (num_lt f 0), (num_lt 0 f); reflexivity.
  - destruct (num_lt 0 p), (num_lt p 0); reflexivity.
  - reflexivity.
Qed.

(** C2. The signal is a function of the predicted funding rate and the
    24h open-interest percent only, and it is the ordered first-match
    chain Bullish, Caution, PullbackRisk, Neutral of the specification,
    with its four sample points. *)
Theorem signal_is_first_match_chain :
  (forall predicted oi_pct : option Q,
      quick_signal (opt_num predicted) (opt_num oi_pct)
      = Ok (signal_label (classify predicted oi_pct), reasons_of predicted oi_pct)) /\
  NoDup (signal_label <$> [Neutral; Bullish; Caution; PullbackRisk]) /\
  quick_signal (VNum (-1 # 1000)) (VNum 5)
    = Ok (signal_label Bullish, ["Funding ≤ 0 (Short đông hơn)"; "OI ↑ (mở thêm vị thế)"]) /\
  quick_signal (VNum (2 # 1000)) (VNum 4)
    = Ok (signal_label Caution, ["OI ↑ (mở thêm vị thế)"]) /\
  quick_signal (VNum (2 # 1000)) (VNum (-1))
    = Ok (signal_label PullbackRisk, ["OI ↓ (đóng vị thế)"]) /\
  quick_signal VNone VNone = Ok (signal_label Neutral, []).
Proof.
  split; [exact quick_signal_classifies|].
  split; [|repeat split; reflexivity].
  apply (bool_decide_unpack _). vm_compute. exact I.
Qed.

(** ** The ETA estimate *)

Lemma fdiv_nonzero (a b : Q) : ~ b == 0 -> fdiv a b = Ok (Qred (a / b)).
Proof.
  intros Hb. unfold fdiv.
  destruct (num_is_zero b) eqn:E; [|done].
  by apply num_is_zero_iff in E.
Qed.

Lemma py_or_opt_num (o : option Q) :
  exists q, py_or (opt_num o) (VNum 0) = VNum q /\ q == default 0%Q o.
Proof.
  destruct o as [v|]; unfold py_or; simpl.
  - destruct (num_is_zero v) eqn:E; simpl.
    + exists 0%Q. split; [done|]. apply num_is_zero_iff in E. by rewrite E.
    + by exists v.
  - by exists 0%Q.
Qed.

(** ** The open-interest adapter *)

Lemma usable_pos (p : Q) : usable (Some p) = num_lt 0 p.
Proof.
  simpl. destruct (num_lt 0 p) eqn:E; [|by rewrite andb_false_r].
  apply num_lt_iff in E. rewrite andb_true_r.
  apply negb_true_iff, not_true_iff_false. intros H%num_is_zero_iff. lra.
Qed.

(** The guarded division always goes through. *)
Lemma oi_delta_pct_total (curr : Q) (past : option Q) :
  oi_delta_pct curr past = Ok (oi_fields curr past).
Proof.
  unfold oi_delta_pct, oi_fields. destruct past as [p|]; [|done].
  rewrite usable_pos. destruct (num_lt 0 p) eqn:E; [|done].
  apply num_lt_iff in E. rewrite fdiv_nonzero by lra. done.
Qed.

Lemma get_binance_oi_change_shape (w : world) (oi_latest hist : pyval) :
  get_json (binance_openInterest w) = Ok oi_latest ->
  get_json (binance_openInterestHist w) = Ok hist ->
  get_binance_oi_change w
  = Ok (oi_record (current_oi oi_latest)
          (oi_fields (current_oi oi_latest) (oldest_oi hist)).1
          (oi_fields (current_oi oi_latest) (oldest_oi hist)).2).
Proof.
  intros H1 H2. unfold get_binance_oi_change. rewrite H1, H2. cbn [bind].
  rewrite oi_delta_pct_total. cbn [bind].
  by destruct (oi_fields _ _).
Qed.

Lemma oldest_oi_short (hist : pyval) :
  is_list hist = false \/ (list_len hist < 24)%nat -> oldest_oi hist = None.
Proof.
  intros H. unfold oldest_oi.
  destruct (is_list hist); [|done]. destruct H as [|H]; [done|].
  by apply Nat.leb_gt in H as ->.
Qed.

Lemma oldest_oi_long (hist : pyval) :
  is_list hist = true -> (24 <= list_len hist)%nat ->
  oldest_oi hist = match oldest_point hist with Ok p => Some p | Raise _ => None end.
Proof.
  intros Hl Hn. unfold oldest_oi. rewrite Hl.
  by apply Nat.leb_le in Hn as ->.
Qed.



(** ** The report compiler *)

Section Compiler.

Variable py_repr : pyval -> string.







Lemma get_binance_funding_latest_shape (w : world) (hist prem : pyval) :
  get_json (binance_fundingRate w) = Ok hist ->
  get_json (binance_premiumIndex w) = Ok prem ->
  exists lf lt,
    get_binance_funding_latest w
    = Ok (VDict [("last_funding", lf); ("last_time", lt);
                 ("predicted", opt_num (predicted_funding prem))]).
Proof.
  intros H1 H2. unfold get_binance_funding_latest. rewrite H1, H2. cbn [bind].
  destruct (last_settled hist) as [lf lt]. by eexists _, _.
Qed.

Lemma format_report_tvl :
  forall w, format_report py_repr w
  = format_report_with_tvl py_repr w
      (match get_llama_tvl w with Ok v => v | Raise _ => VNone end).
Proof.
  intros w. unfold format_report, format_report_with_tvl.
  by destruct (get_coingecko_ethfi w).
Qed.


End Compiler.




(** With every source degenerate the report is still rendered, every
    metric absent, the signal neutral and the ETA unknown. *)
Example format_report_degenerate :
  format_report repr0 world_degenerate
  = render repr0 "03/11 10:24" VNone VNone VNone VNone VNone VNone
      (VDict [("last_funding", VNone); ("last_time", VNone); ("predicted", VNone)])
      (oi_record 0 None None) "Neutral" [] "—".
Proof. reflexivity. Qed.

Example pretty_usd_samples :
  pretty_usd repr0 (VNum 1234567) = "$1.23M" /\
  pretty_usd repr0 (VNum 999) = "$999.00" /\
  pretty_usd repr0 VNone = "—".
Proof. repeat split; reflexivity. Qed.

(** ** The scheduled broadcast *)

Section Broadcast.

Variable py_repr : pyval -> string.
Variable deliver : hkey -> string -> result unit.

Lemma sends_send_one (msg : string) (chat_id : hkey) :
  sends (send_one deliver msg chat_id) = [(chat_id, msg)].
Proof. unfold send_one. by destruct (deliver chat_id msg) as [[]|e]. Qed.

Lemma sends_app (t1 t2 : list event) : sends (t1 ++ t2) = (sends t1 ++ sends t2)%list.
Proof. apply omap_app. Qed.

Lemma compilations_app (t1 t2 : list event) :
  compilations (t1 ++ t2)%list = (compilations t1 + compilations t2)%nat.
Proof. unfold compilations. by rewrite List.filter_app, length_app. Qed.

(** The loop sends to every recipient of the snapshot, in order, whatever
    the outcomes, and never compiles. *)
Lemma loop_sends (msg : string) (snapshot : list hkey) :
  sends (snapshot ≫= send_one deliver msg) = (fun chat_id => (chat_id, msg)) <$> snapshot.
Proof.
  induction snapshot as [|a l IH]; [done|].
  rewrite bind_cons, sends_app, sends_send_one, IH. done.
Qed.

Lemma loop_compilations (msg : string) (snapshot : list hkey) :
  compilations (snapshot ≫= send_one deliver msg) = 0%nat.
Proof.
  induction snapshot as [|a l IH]; [done|].
  rewrite bind_cons, compilations_app, IH.
  unfold send_one. by destruct (deliver a msg) as [[]|e].
Qed.

Lemma send_broadcast_empty (w : world) (st : bot) :
  SUBSCRIBERS st = ∅ -> send_broadcast py_repr deliver w st = [].
Proof. intros H. unfold send_broadcast. by rewrite bool_decide_eq_true_2. Qed.

Lemma send_broadcast_nonempty (w : world) (st : bot) :
  SUBSCRIBERS st <> ∅ ->
  send_broadcast py_repr deliver w st
  = Compile ::
    match format_report py_repr w with
    | Ok msg => elements (SUBSCRIBERS st) ≫= send_one deliver msg
    | Raise e => [LogException e]
    end.
Proof. intros H. unfold send_broadcast. by rewrite bool_decide_eq_false_2. Qed.

Lemma split_at_two {A} (l : list A) (i j : nat) (a b : A) :
  (i < j)%nat -> l !! i = Some a -> l !! j = Some b ->
  exists l1 l2 l3, l = (l1 ++ a :: l2 ++ b :: l3)%list.
Proof.
  intros Hij Ha Hb.
  pose proof (take_drop_middle l i a Ha) as Hl.
  assert (drop (S i) l !! (j - S i)%nat = Some b) as Hb'.
  { rewrite lookup_drop. by replace (S i + (j - S i))%nat with j by lia. }
  pose proof (take_drop_middle _ _ b Hb') as Hr.
  exists (take i l), (take (j - S i) (drop (S i) l)), (drop (S (j - S i)) (drop (S i) l)).
  by rewrite Hr.
Qed.

End Broadcast.

(** C6, as the code has it. On a tick with at least one subscriber the
    report compiler runs exactly once, and when it returns a report a send
    of that one string is attempted to every recipient of the snapshot, in
    order; when it raises, the exception is logged and nothing is sent. On
    a tick with no subscriber nothing is compiled and nothing is sent. *)
Theorem broadcast_compiles_once (py_repr : pyval -> string)
    (deliver : hkey -> string -> result unit) (w : world) (st : bot) :
  (SUBSCRIBERS st = ∅ -> send_broadcast py_repr deliver w st = []) /\
  (SUBSCRIBERS st <> ∅ -> compilations (send_broadcast py_repr deliver w st) = 1%nat) /\
  (forall msg, SUBSCRIBERS st <> ∅ -> format_report py_repr w = Ok msg ->
      sends (send_broadcast py_repr deliver w st)
      = (fun chat_id => (chat_id, msg)) <$> elements (SUBSCRIBERS st)) /\
  (forall e, SUBSCRIBERS st <> ∅ -> format_report py_repr w = Raise e ->
      send_broadcast py_repr deliver w st = [Compile; LogException e]).
Proof.
  split; [apply send_broadcast_empty|].
  split; [|split].
  - intros Hne. rewrite send_broadcast_nonempty by done.
    change (compilations (?a :: ?t)) with (compilations ([a] ++ t)).
    rewrite compilations_app.
    destruct (format_report py_repr w) as [msg|e]; [|done].
    by rewrite loop_compilations.
  - intros msg Hne Hmsg. rewrite send_broadcast_nonempty, Hmsg by done.
    cbn [sends omap]. apply loop_sends.
  - intros e Hne He. by rewrite send_broadcast_nonempty, He.
Qed.

Lemma broadcast_compiles_once_witness :
  SUBSCRIBERS bot0 = ∅ /\
  SUBSCRIBERS bot2 <> ∅ /\
  format_report repr0 world0 = Ok report0 /\
  format_report repr0 world_spot_down = Raise ConnectionError /\
  send_broadcast repr0 deliver_all world0 bot0 = [] /\
  compilations (send_broadcast repr0 deliver_all world0 bot2) = 1%nat /\
  sends (send_broadcast repr0 deliver_all world0 bot2)
    = [(chat_key 1001, report0); (chat_key 1002, report0)] /\
  send_broadcast repr0 deliver_all world_spot_down bot2
    = [Compile; LogException ConnectionError].
Proof.
  assert (elements (SUBSCRIBERS bot2) = [chat_key 1001; chat_key 1002]) as Hel
    by (vm_compute; reflexivity).
  assert (SUBSCRIBERS bot2 <> ∅) as Hne.
  { intros H. apply (f_equal elements) in H. rewrite Hel in H. vm_compute in H.
    discriminate. }
  assert (format_report repr0 world0 = Ok report0) as Hmsg
    by (vm_compute; reflexivity).
  assert (format_report repr0 world_spot_down = Raise ConnectionError) as Hdown
    by (vm_compute; reflexivity).
  split; [reflexivity|]. split; [exact Hne|]. split; [exact Hmsg|].
  split; [exact Hdown|].
  split; [|split; [|split]].
  - apply (proj1 (broadcast_compiles_once repr0 deliver_all world0 bot0)). reflexivity.
  - apply (proj1 (proj2 (broadcast_compiles_once repr0 deliver_all world0 bot2))).
    exact Hne.
  - rewrite (proj1 (proj2 (proj2 (broadcast_compiles_once repr0 deliver_all world0 bot2)))
               report0 Hne Hmsg).
    rewrite Hel. reflexivity.
  - apply (proj2 (proj2 (proj2 (broadcast_compiles_once repr0 deliver_all world_spot_down bot2)))).
    + exact Hne.
    + exact Hdown.
Defined.

(** C6 as stated fails on a tick with no subscriber: the compiler is not
    invoked at all. *)
Lemma broadcast_no_subscriber_counterexample :
  send_broadcast repr0 deliver_all world0 bot0 = [] /\
  compilations (send_broadcast repr0 deliver_all world0 bot0) = 0%nat /\
  compilations (send_broadcast repr0 deliver_all world0 bot0) <> 1%nat.
Proof.
  assert (send_broadcast repr0 deliver_all world0 bot0 = []) as H.
  { apply send_broadcast_empty. reflexivity. }
  rewrite H. repeat split. discriminate.
Qed.

(** C8. Within one tick a failed delivery is logged and skipped: a send is
    attempted to every recipient of the snapshot whatever the outcomes of
    the other sends, and for a recipient A listed before a recipient B, the
    failed send to A is followed by its warning and, later in the same
    tick, by the send to B. *)
Theorem delivery_failure_is_isolated (py_repr : pyval -> string)
    (deliver : hkey -> string -> result unit) (w : world) (st : bot) (msg : string) :
  SUBSCRIBERS st <> ∅ ->
  format_report py_repr w = Ok msg ->
  sends (send_broadcast py_repr deliver w st)
    = (fun chat_id => (chat_id, msg)) <$> elements (SUBSCRIBERS st) /\
  (forall (i j : nat) (A B : hkey) (e : exn),
      (i < j)%nat ->
      elements (SUBSCRIBERS st) !! i = Some A ->
      elements (SUBSCRIBERS st) !! j = Some B ->
      deliver A msg = Raise e ->
      exists t1 t2 t3,
        send_broadcast py_repr deliver w st
        = (t1 ++ [SendMessage A msg (Raise e); LogWarning A e]
              ++ t2 ++ SendMessage B msg (deliver B msg) :: t3)%list).
Proof.
  intros Hne Hmsg. rewrite send_broadcast_nonempty, Hmsg by done. split.
  - cbn [sends omap]. apply loop_sends.
  - intros i j A B e Hij HA HB HfailA.
    destruct (split_at_two _ i j A B Hij HA HB) as (l1 & l2 & l3 & ->).
    rewrite bind_app, bind_cons, bind_app, bind_cons.
    exists (Compile :: (l1 ≫= send_one deliver msg)),
           (l2 ≫= send_one deliver msg).
    unfold send_one at 2. rewrite HfailA.
    unfold send_one at 3.
    destruct (deliver B msg) as [[]|eB]; eexists; reflexivity.
Qed.

Lemma delivery_failure_is_isolated_witness :
  SUBSCRIBERS bot2 <> ∅ /\
  format_report repr0 world0 = Ok report0 /\
  elements (SUBSCRIBERS bot2) !! 0%nat = Some (chat_key 1001) /\
  elements (SUBSCRIBERS bot2) !! 1%nat = Some (chat_key 1002) /\
  deliver_1001_down (chat_key 1001) report0 = Raise ConnectionError /\
  sends (send_broadcast repr0 deliver_1001_down world0 bot2)
    = [(chat_key 1001, report0); (chat_key 1002, report0)] /\
  exists t1 t2 t3,
    send_broadcast repr0 deliver_1001_down world0 bot2
    = (t1 ++ [SendMessage (chat_key 1001) report0 (Raise ConnectionError);
              LogWarning (chat_key 1001) ConnectionError]
          ++ t2 ++ SendMessage (chat_key 1002) report0 (Ok tt) :: t3)%list.
Proof.
  assert (elements (SUBSCRIBERS bot2) = [chat_key 1001; chat_key 1002]) as Hel
    by (vm_compute; reflexivity).
  assert (SUBSCRIBERS bot2 <> ∅) as Hne.
  { intros H. apply (f_equal elements) in H. rewrite Hel in H. vm_compute in H.
    discriminate. }
  assert (format_report repr0 world0 = Ok report0) as Hmsg
    by (vm_compute; reflexivity).
  destruct (delivery_failure_is_isolated repr0 deliver_1001_down world0 bot2 report0
              Hne Hmsg) as [Hall Hpair].
  split; [exact Hne|]. split; [exact Hmsg|].
  split; [by rewrite Hel|]. split; [by rewrite Hel|]. split; [reflexivity|].
  split.
  - rewrite Hall, Hel. reflexivity.
  - apply (Hpair 0%nat 1%nat (chat_key 1001) (chat_key 1002) ConnectionError).
    + lia.
    + by rewrite Hel.
    + by rewrite Hel.
    + reflexivity.
Defined.

(** * Further properties *)

(** ** Registry: round trips and repeated commands *)

(** X1. Saving a set and loading the file gives the set back, the file
    stays writable, and saving the same set again rewrites the very same
    file. *)
Theorem save_load_roundtrip (X : gset hkey) (d d' : disk) :
  save_subscribers X d = Ok d' ->
  load_subscribers d' = Ok X /\
  writable d' = true /\
  save_subscribers X d' = Ok d'.
Proof.
  intros H. split; [by eapply load_after_save|].
  unfold save_subscribers in *. destruct (writable d); [|discriminate].
  injection H as <-. split; reflexivity.
Qed.

Lemma save_load_roundtrip_witness :
  save_subscribers {[chat_key 7]} disk0
    = Ok {| data_file := Some (Doc (VList (key_val <$> elements ({[chat_key 7]} : gset hkey))));
            writable := true |} /\
  load_subscribers
    {| data_file := Some (Doc (VList (key_val <$> elements ({[chat_key 7]} : gset hkey))));
       writable := true |} = Ok {[chat_key 7]}.
Proof.
  split; [reflexivity|].
  exact (proj1 (save_load_roundtrip {[chat_key 7]} disk0 _ eq_refl)).
Defined.

Lemma hash_all_unhashable (l : list pyval) :
  existsb unhashable l = true -> hash_all l = Raise TypeError.
Proof.
  induction l as [|v l IH]; [discriminate|].
  cbn [existsb hash_all]. intros H.
  destruct v; cbn [unhashable is_list is_dict orb] in H; cbn [py_hash bind];
    try reflexivity; by rewrite (IH H).
Qed.

(** X2. One unhashable entry (a nested array or object) in the stored array
    makes [load_subscribers] return the empty set: every stored id is
    dropped, not only the bad entry. *)
Theorem load_drops_all_on_one_bad_entry (l : list pyval) (w : bool) :
  existsb unhashable l = true ->
  load_subscribers {| data_file := Some (Doc (VList l)); writable := w |} = Ok ∅.
Proof.
  intros H. unfold load_subscribers. cbn [data_file json_load bind py_set].
  by rewrite (hash_all_unhashable l H).
Qed.

Lemma load_drops_all_on_one_bad_entry_witness :
  existsb unhashable [VNum 1001; VList []; VNum 1002] = true /\
  load_subscribers
    {| data_file := Some (Doc (VList [VNum 1001; VList []; VNum 1002])); writable := true |}
  = Ok ∅.
Proof.
  split; [reflexivity|].
  apply load_drops_all_on_one_bad_entry. reflexivity.
Defined.

Lemma start_state (chat_id : Z) (name : option string) (st : bot) :
  writable (fs st) = true ->
  (start chat_id name st).1
  = {| SUBSCRIBERS := {[chat_key chat_id]} ∪ SUBSCRIBERS st;
       fs := {| data_file :=
                  Some (Doc (VList (key_val <$>
                     elements ({[chat_key chat_id]} ∪ SUBSCRIBERS st))));
                writable := true |} |}.
Proof. intros Hw. unfold start, save_subscribers. by rewrite Hw. Qed.

(** X3. Subscribing twice is the same as subscribing once: the second
    [start] leaves the set and the file as the first one left them and
    sends the same confirmation. *)
Theorem start_is_idempotent (chat_id : Z) (name : option string) (st : bot) :
  writable (fs st) = true ->
  start chat_id name (start chat_id name st).1 = start chat_id name st.
Proof.
  intros Hw. rewrite (start_state chat_id name st Hw).
  unfold start, save_subscribers. rewrite Hw. cbn [SUBSCRIBERS fs writable].
  assert ({[chat_key chat_id]} ∪ ({[chat_key chat_id]} ∪ SUBSCRIBERS st)
          = {[chat_key chat_id]} ∪ SUBSCRIBERS st) as -> by set_solver.
  reflexivity.
Qed.

Lemma start_is_idempotent_witness :
  writable (fs bot0) = true /\
  start 42 None (start 42 None bot0).1 = start 42 None bot0.
Proof. split; [reflexivity|]. apply start_is_idempotent. reflexivity. Defined.

(** X4. A second unsubscribe never does anything: whatever the first [stop]
    did, the next one finds the id absent, leaves set and file alone and
    answers "not subscribed". *)
Theorem stop_twice_is_noop (chat_id : Z) (st : bot) :
  stop chat_id (stop chat_id st).1
  = ((stop chat_id st).1, Ok [ReplyText "Bạn chưa đăng ký."]).
Proof.
  assert (chat_key chat_id ∉ SUBSCRIBERS (stop chat_id st).1) as Hout.
  { unfold stop. destruct (bool_decide _) eqn:E.
    - destruct (save_subscribers _ _); simpl; set_solver.
    - by apply bool_decide_eq_false_1 in E. }
  unfold stop at 1. by rewrite bool_decide_eq_false_2.
Qed.

(** X5. When the file cannot be written, [start] raises the error of the
    write after it has already added the id to the in-memory set: the file
    is untouched, so memory and file no longer agree and the id is lost at
    the next restart. *)
Theorem start_unwritable_diverges (chat_id : Z) (name : option string) (st : bot) :
  writable (fs st) = false ->
  load_subscribers (fs st) = Ok (SUBSCRIBERS st) ->
  chat_key chat_id ∉ SUBSCRIBERS st ->
  (start chat_id name st).2 = Raise OSError /\
  chat_key chat_id ∈ SUBSCRIBERS (start chat_id name st).1 /\
  fs (start chat_id name st).1 = fs st /\
  load_subscribers (fs (start chat_id name st).1)
    <> Ok (SUBSCRIBERS (start chat_id name st).1).
Proof.
  intros Hw Hload Hout. unfold start, save_subscribers. rewrite Hw.
  cbn [fst snd SUBSCRIBERS fs].
  split; [done|]. split; [set_solver|]. split; [done|].
  rewrite Hload. intros [= Heq].
  apply Hout. rewrite Heq. set_solver.
Qed.

Lemma start_unwritable_diverges_witness :
  let st := {| SUBSCRIBERS := ∅; fs := {| data_file := None; writable := false |} |} in
  writable (fs st) = false /\
  load_subscribers (fs st) = Ok (SUBSCRIBERS st) /\
  (chat_key 42 ∉ SUBSCRIBERS st) /\
  (start 42 None st).2 = Raise OSError /\
  fs (start 42 None st).1 = fs st.
Proof.
  intros st.
  assert (chat_key 42 ∉ SUBSCRIBERS st) as Hout by (simpl; apply not_elem_of_empty).
  destruct (start_unwritable_diverges 42 None st eq_refl eq_refl Hout)
    as (Hr & _ & Hfs & _).
  by repeat split.
Defined.

(** ** Registry: runs of commands *)

Lemma stop_state (chat_id : Z) (st : bot) :
  writable (fs st) = true ->
  chat_key chat_id ∈ SUBSCRIBERS st ->
  (stop chat_id st).1
  = {| SUBSCRIBERS := SUBSCRIBERS st ∖ {[chat_key chat_id]};
       fs := {| data_file :=
                  Some (Doc (VList (key_val <$>
                     elements (SUBSCRIBERS st ∖ {[chat_key chat_id]}))));
                writable := true |} |}.
Proof.
  intros Hw Hin. unfold stop, save_subscribers.
  by rewrite bool_decide_eq_true_2, Hw.
Qed.

Lemma stop_absent (chat_id : Z) (st : bot) :
  chat_key chat_id ∉ SUBSCRIBERS st -> (stop chat_id st).1 = st.
Proof. intros Hout. unfold stop. by rewrite bool_decide_eq_false_2. Qed.

Lemma synced_written (X : gset hkey) :
  synced {| SUBSCRIBERS := X;
            fs := {| data_file := Some (Doc (VList (key_val <$> elements X)));
                     writable := true |} |}.
Proof.
  split; [|done]. cbn [fs SUBSCRIBERS].
  rewrite load_doc_of_keys. by rewrite list_to_set_elements_L.
Qed.

Lemma step_keeps_synced (st : bot) (c : command) : synced st -> synced (step st c).
Proof.
  intros [Hload Hw]. destruct c as [a name|b]; cbn [step].
  - rewrite (start_state a name st Hw). apply synced_written.
  - destruct (decide (chat_key b ∈ SUBSCRIBERS st)) as [Hin|Hout].
    + rewrite (stop_state b st Hw Hin). apply synced_written.
    + by rewrite (stop_absent b st Hout).
Qed.

(** X6. Starting from a state whose file holds the in-memory set and can be
    written, any sequence of subscribe and unsubscribe commands ends in
    such a state again: restarting the bot on the file it left reloads
    exactly the set it had. *)
Theorem run_keeps_registry_synced (cmds : list command) (st : bot) :
  synced st ->
  synced (run cmds st) /\
  boot (fs (run cmds st)) = Ok (run cmds st).
Proof.
  intros Hs.
  assert (synced (run cmds st)) as Hr.
  { unfold run. revert st Hs. induction cmds as [|c cmds IH]; intros st Hs; [done|].
    cbn [fold_left]. apply IH. by apply step_keeps_synced. }
  split; [exact Hr|].
  destruct Hr as [Hload _]. unfold boot. rewrite Hload. cbn [bind].
  by destruct (run cmds st).
Qed.

Lemma run_keeps_registry_synced_witness :
  synced bot0 /\
  boot (fs (run [CmdStart 1 None; CmdStart 2 None; CmdStop 1] bot0))
    = Ok (run [CmdStart 1 None; CmdStart 2 None; CmdStop 1] bot0).
Proof.
  assert (synced bot0) as Hs by (split; reflexivity).
  split; [exact Hs|].
  exact (proj2 (run_keeps_registry_synced
                  [CmdStart 1 None; CmdStart 2 None; CmdStop 1] bot0 Hs)).
Defined.

Lemma chat_key_inj (a b : Z) : chat_key a = chat_key b -> a = b.
Proof.
  intros H.
  assert (Q2Qc (inject_Z a) = Q2Qc (inject_Z b)) as Hq
    by (unfold chat_key in H; congruence).
  apply Q2Qc_eq_iff in Hq. unfold Qeq in Hq. simpl in Hq. lia.
Qed.

(** X7. Commands of two different chats commute: with a writable file,
    running them in either order leaves the same set of subscribers, and
    the file left behind reads back as the same set. *)
Theorem commands_of_distinct_chats_commute (c1 c2 : command) (st : bot) :
  command_id c1 <> command_id c2 ->
  writable (fs st) = true ->
  SUBSCRIBERS (step (step st c1) c2) = SUBSCRIBERS (step (step st c2) c1) /\
  load_subscribers (fs (step (step st c1) c2))
    = load_subscribers (fs (step (step st c2) c1)).
Proof.
  intros Hne Hw.
  assert (chat_key (command_id c1) <> chat_key (command_id c2)) as Hk.
  { intros H. by apply Hne, chat_key_inj. }
  assert (forall X Y : gset hkey, X = Y ->
            forall d d', save_subscribers X (fs st) = Ok d ->
                         save_subscribers Y (fs st) = Ok d' ->
                         load_subscribers d = load_subscribers d') as Hsame.
  { intros X Y -> d d' H1 H2. congruence. }
  destruct c1 as [a na|a], c2 as [b nb|b]; cbn [step command_id] in *.
  - rewrite (start_state a na st Hw), (start_state b nb st Hw).
    rewrite !start_state by done. cbn [SUBSCRIBERS fs].
    assert ({[chat_key b]} ∪ ({[chat_key a]} ∪ SUBSCRIBERS st)
            = {[chat_key a]} ∪ ({[chat_key b]} ∪ SUBSCRIBERS st)) as -> by set_solver.
    done.
  - rewrite (start_state a na st Hw).
    destruct (decide (chat_key b ∈ SUBSCRIBERS st)) as [Hin|Hout].
    + rewrite (stop_state b st Hw Hin).
      rewrite stop_state by (cbn; first [done | set_solver]).
      rewrite start_state by done. cbn [SUBSCRIBERS fs].
      assert (({[chat_key a]} ∪ SUBSCRIBERS st) ∖ {[chat_key b]}
              = {[chat_key a]} ∪ SUBSCRIBERS st ∖ {[chat_key b]}) as -> by set_solver.
      done.
    + rewrite (stop_absent b st Hout).
      rewrite stop_absent by (cbn; set_solver).
      by rewrite (start_state a na st Hw).
  - rewrite (start_state b nb st Hw).
    destruct (decide (chat_key a ∈ SUBSCRIBERS st)) as [Hin|Hout].
    + rewrite (stop_state a st Hw Hin).
      rewrite stop_state by (cbn; first [done | set_solver]).
      rewrite start_state by done. cbn [SUBSCRIBERS fs].
      assert (({[chat_key b]} ∪ SUBSCRIBERS st) ∖ {[chat_key a]}
              = {[chat_key b]} ∪ SUBSCRIBERS st ∖ {[chat_key a]}) as -> by set_solver.
      done.
    + rewrite (stop_absent a st Hout).
      rewrite stop_absent by (cbn; set_solver).
      by rewrite (start_state b nb st Hw).
  - destruct (decide (chat_key a ∈ SUBSCRIBERS st)) as [Ha|Ha],
             (decide (chat_key b ∈ SUBSCRIBERS st)) as [Hb|Hb].
    + rewrite (stop_state a st Hw Ha), (stop_state b st Hw Hb).
      rewrite !stop_state by (cbn; first [done | set_solver]). cbn [SUBSCRIBERS fs].
      assert (SUBSCRIBERS st ∖ {[chat_key a]} ∖ {[chat_key b]}
              = SUBSCRIBERS st ∖ {[chat_key b]} ∖ {[chat_key a]}) as -> by set_solver.
      done.
    + rewrite (stop_state a st Hw Ha), (stop_absent b st Hb).
      rewrite stop_absent by (cbn; set_solver).
      by rewrite (stop_state a st Hw Ha).
    + rewrite (stop_absent a st Ha), (stop_state b st Hw Hb).
      by rewrite stop_absent by (cbn; set_solver).
    + by rewrite (stop_absent a st Ha), (stop_absent b st Hb), (stop_absent a st Ha).
Qed.

Lemma commands_of_distinct_chats_commute_witness :
  command_id (CmdStart 1 None) <> command_id (CmdStop 2) /\
  writable (fs bot2) = true /\
  SUBSCRIBERS (step (step bot2 (CmdStart 1 None)) (CmdStop 2))
    = SUBSCRIBERS (step (step bot2 (CmdStop 2)) (CmdStart 1 None)) /\
  load_subscribers (fs (step (step bot2 (CmdStart 1 None)) (CmdStop 2)))
    = load_subscribers (fs (step (step bot2 (CmdStop 2)) (CmdStart 1 None))).
Proof.
  assert (command_id (CmdStart 1 None) <> command_id (CmdStop 2)) as Hne by (simpl; lia).
  split; [exact Hne|]. split; [reflexivity|].
  exact (commands_of_distinct_chats_commute (CmdStart 1 None) (CmdStop 2) bot2 Hne eq_refl).
Defined.

(** ** The spot adapter *)

Lemma get_coingecko_ethfi_unfold (w : world) :
  get_coingecko_ethfi w = (let* arr := spot_answer w in spot_record arr).
Proof.
  unfold get_coingecko_ethfi, spot_answer, spot_record.
  destruct (coingecko_markets w) as [r|]; [|done]. cbn [bind].
  destruct (raise_for_status r); [|done]. cbn [bind].
  by destruct (json r).
Qed.

(** X8. Only the first record of the spot answer counts: the records after
    it never change what [get_coingecko_ethfi] returns, and what it returns
    is either the empty dict or a dict with exactly the six keys price,
    mcap, vol24, chg1h, chg24h and chg7d. *)
Theorem spot_uses_first_record_only (w w' : world) (x : pyval) (rest rest' : list pyval) :
  spot_answer w = Ok (VList (x :: rest)) ->
  spot_answer w' = Ok (VList (x :: rest')) ->
  get_coingecko_ethfi w = get_coingecko_ethfi w' /\
  (forall cg, get_coingecko_ethfi w = Ok cg ->
     exists price mcap vol24 chg1h chg24h chg7d,
       cg = VDict [("price", price); ("mcap", mcap); ("vol24", vol24);
                   ("chg1h", chg1h); ("chg24h", chg24h); ("chg7d", chg7d)]).
Proof.
  intros H H'. rewrite !get_coingecko_ethfi_unfold, H, H'. cbn [bind].
  split; [reflexivity|].
  unfold spot_record. cbn [truthy negb py_first bind].
  destruct x; cbn [py_get bind]; try discriminate.
  intros cg [= <-]. by eexists _, _, _, _, _, _.
Qed.

Lemma spot_uses_first_record_only_witness :
  spot_answer world_missing_keys = Ok (VList [VDict [("current_price", VNum (15 # 10))]]) /\
  spot_answer world_two_records
    = Ok (VList [VDict [("current_price", VNum (15 # 10))];
                 VDict [("current_price", VNum 99)]]) /\
  get_coingecko_ethfi world_missing_keys = get_coingecko_ethfi world_two_records /\
  get_coingecko_ethfi world_two_records
  = Ok (VDict [("price", VNum (15 # 10)); ("mcap", VNone); ("vol24", VNone);
               ("chg1h", VNone); ("chg24h", VNone); ("chg7d", VNone)]).
Proof.
  split; [reflexivity|]. split; [reflexivity|]. split; [|reflexivity].
  exact (proj1 (spot_uses_first_record_only world_missing_keys world_two_records
                  _ _ _ eq_refl eq_refl)).
Defined.

(** X9. A spot answer that is not an array of objects is not degraded but
    raised: a non-empty object gives [KeyError], a non-zero number or
    [true] gives [TypeError], a non-empty string or an array whose first
    entry is not an object gives [AttributeError]; [format_report] then
    fails with the same exception. *)
Theorem spot_malformed_answer_raises (py_repr : pyval -> string) (w : world) (arr : pyval) :
  spot_answer w = Ok arr ->
  truthy arr = true ->
  (is_dict arr = true -> get_coingecko_ethfi w = Raise KeyError) /\
  (is_number arr = true -> get_coingecko_ethfi w = Raise TypeError) /\
  ((exists s, arr = VStr s) -> get_coingecko_ethfi w = Raise AttributeError) /\
  (forall x rest, arr = VList (x :: rest) -> is_dict x = false ->
     get_coingecko_ethfi w = Raise AttributeError) /\
  (forall e, get_coingecko_ethfi w = Raise e -> format_report py_repr w = Raise e).
Proof.
  intros H Ht. rewrite get_coingecko_ethfi_unfold, H. cbn [bind].
  unfold spot_record. rewrite Ht. cbn [negb].
  split; [|split; [|split; [|split]]].
  - by destruct arr.
  - destruct arr as [|b|q| | |]; try done.
  - intros [s ->]. by destruct s.
  - intros x rest -> Hx. by destruct x.
  - intros e He. unfold format_report.
    rewrite get_coingecko_ethfi_unfold, H. cbn [bind].
    unfold spot_record. rewrite Ht. cbn [negb]. by rewrite He.
Qed.

Lemma spot_malformed_answer_raises_witness :
  spot_answer world_spot_error_object = Ok (VDict [("error", VStr "rate limited")]) /\
  truthy (VDict [("error", VStr "rate limited")]) = true /\
  get_coingecko_ethfi world_spot_error_object = Raise KeyError /\
  format_report repr0 world_spot_error_object = Raise KeyError.
Proof.
  destruct (spot_malformed_answer_raises repr0 world_spot_error_object
              (VDict [("error", VStr "rate limited")]) eq_refl eq_refl)
    as (Hk & _ & _ & _ & Hf).
  split; [reflexivity|]. split; [reflexivity|].
  split; [exact (Hk eq_refl)|]. exact (Hf KeyError (Hk eq_refl)).
Defined.

(** ** The HTTP status *)

(** X10. The futures adapters never look at the HTTP status and never
    raise on an answer that parses: an error object (any object without
    the keys they read) served for all four futures calls gives every
    funding field absent, a current open interest of 0 and no delta or
    percent-change. *)
Theorem binance_error_object_degrades (w : world) (d1 d2 d3 d4 : list (string * pyval))
    (s1 s2 s3 s4 : bool) :
  binance_fundingRate w = Ok {| status_ok := s1; body := Some (VDict d1) |} ->
  binance_premiumIndex w = Ok {| status_ok := s2; body := Some (VDict d2) |} ->
  binance_openInterest w = Ok {| status_ok := s3; body := Some (VDict d3) |} ->
  binance_openInterestHist w = Ok {| status_ok := s4; body := Some (VDict d4) |} ->
  assoc d2 "lastFundingRate" = None ->
  assoc d3 "openInterest" = None ->
  get_binance_funding_latest w = Ok (funding_record None None None) /\
  get_binance_oi_change w = Ok (oi_record 0 None None).
Proof.
  intros H1 H2 H3 H4 Hk2 Hk3. split.
  - unfold get_binance_funding_latest, get_json. rewrite H1, H2.
    cbn [bind json body last_settled is_list andb].
    unfold predicted_funding. cbn [is_dict has_key andb]. by rewrite Hk2.
  - rewrite (get_binance_oi_change_shape w (VDict d3) (VDict d4)).
    + unfold current_oi. cbn [py_get bind]. unfold dict_get. rewrite Hk3.
      reflexivity.
    + unfold get_json. by rewrite H3.
    + unfold get_json. by rewrite H4.
Qed.

Lemma binance_error_object_degrades_witness :
  get_binance_funding_latest world_binance_error = Ok (funding_record None None None) /\
  get_binance_oi_change world_binance_error = Ok (oi_record 0 None None).
Proof.
  exact (binance_error_object_degrades world_binance_error _ _ _ _ _ _ _ _
           eq_refl eq_refl eq_refl eq_refl eq_refl eq_refl).
Defined.

Lemma get_llama_tvl_unfold (w : world) :
  get_llama_tvl w = (let* data := tvl_answer w in tvl_of data).
Proof.
  unfold get_llama_tvl, tvl_answer, tvl_of.
  destruct (llama_protocol w) as [r|]; [|done]. cbn [bind].
  destruct (raise_for_status r); [|done]. cbn [bind].
  by destruct (json r).
Qed.

(** X11. The spot and TVL adapters check the status before the body: with a
    failing status they raise [HTTPError] whatever the body holds. For the
    spot source the whole report fails with it; for the TVL source the
    report goes on with the TVL absent. *)
Theorem failing_status_raises (py_repr : pyval -> string) (w : world) :
  (forall b, coingecko_markets w = Ok {| status_ok := false; body := b |} ->
     get_coingecko_ethfi w = Raise HTTPError /\
     format_report py_repr w = Raise HTTPError) /\
  (forall b, llama_protocol w = Ok {| status_ok := false; body := b |} ->
     get_llama_tvl w = Raise HTTPError /\
     format_report py_repr w = format_report_with_tvl py_repr w VNone).
Proof.
  split.
  - intros b H.
    assert (get_coingecko_ethfi w = Raise HTTPError) as Hr.
    { unfold get_coingecko_ethfi. by rewrite H. }
    split; [exact Hr|]. unfold format_report. by rewrite Hr.
  - intros b H.
    assert (get_llama_tvl w = Raise HTTPError) as Hr.
    { unfold get_llama_tvl. by rewrite H. }
    split; [exact Hr|]. by rewrite format_report_tvl, Hr.
Qed.

Lemma failing_status_raises_witness :
  get_coingecko_ethfi world_bad_status = Raise HTTPError /\
  format_report repr0 world_bad_status = Raise HTTPError /\
  get_llama_tvl world_bad_status = Raise HTTPError.
Proof.
  destruct (failing_status_raises repr0 world_bad_status) as [Hs Ht].
  destruct (Hs _ eq_refl) as [H1 H2]. destruct (Ht _ eq_refl) as [H3 _].
  by repeat split.
Defined.

(** ** The funding adapter *)



(** ** The open-interest adapter, continued *)

(** X14. Whatever the two futures answers hold, a result of
    [get_binance_oi_change] is a dict with a numeric [oi] and with the
    delta and the percent-change either both present or both absent. *)
Theorem oi_change_result_shape (w : world) (r : pyval) :
  get_binance_oi_change w = Ok r ->
  exists curr delta pct,
    r = oi_record curr delta pct /\ (delta = None <-> pct = None).
Proof.
  unfold get_binance_oi_change.
  destruct (get_json (binance_openInterest w)) as [oi_latest|]; [|done]. cbn [bind].
  destruct (get_json (binance_openInterestHist w)) as [hist|]; [|done]. cbn [bind].
  rewrite oi_delta_pct_total. cbn [bind].
  unfold oi_fields. destruct (oldest_oi hist) as [p|].
  - destruct (num_lt 0 p); intros [= <-].
    + by exists (current_oi oi_latest), (Some (fsub (current_oi oi_latest) p)),
        (Some (fmul (Qred (fsub (current_oi oi_latest) p / p)) 100)).
    + by exists (current_oi oi_latest), None, None.
  - intros [= <-]. by exists (current_oi oi_latest), None, None.
Qed.

Lemma oi_change_result_shape_witness :
  get_binance_oi_change world0
    = Ok (oi_record (2101 # 2) (Some (101 # 2)) (Some (101 # 20))) /\
  exists curr delta pct,
    oi_record (2101 # 2) (Some (101 # 2)) (Some (101 # 20)) = oi_record curr delta pct /\
    (delta = None <-> pct = None).
Proof.
  split; [reflexivity|].
  exact (oi_change_result_shape world0 _ eq_refl).
Defined.

(** ** The TVL adapter *)

Lemma py_sum_not_number (vs : list pyval) (acc : Q) :
  forallb is_number vs = false -> py_sum acc vs = Raise TypeError.
Proof.
  revert acc. induction vs as [|v vs IH]; intros acc H; [discriminate|].
  cbn [forallb] in H. cbn [py_sum]. unfold is_number in H.
  destruct (as_num v) as [q|]; [|done].
  apply IH. exact H.
Qed.

(** X15. [get_llama_tvl] never returns [None], a string or a container:
    whenever it returns, the value is a number. *)
Theorem tvl_is_a_number (w : world) (v : pyval) :
  get_llama_tvl w = Ok v -> is_number v = true.
Proof.
  rewrite get_llama_tvl_unfold.
  destruct (tvl_answer w) as [data|]; [|done]. cbn [bind]. unfold tvl_of.
  destruct (py_get data "tvl" (VNum 0)) as [tvl|]; [|done]. cbn [bind].
  destruct (is_number tvl) eqn:E; [by intros [= <-]|].
  destruct (py_get data "currentChainTvls" (VDict [])) as [cur|]; [|done]. cbn [bind].
  destruct cur; try (by intros [= <-]).
  destruct (py_sum 0 (dict_values d)); [|done]. by intros [= <-].
Qed.

Lemma tvl_is_a_number_witness :
  get_llama_tvl world0 = Ok (VNum 5250000000) /\ is_number (VNum 5250000000) = true.
Proof.
  split; [reflexivity|].
  exact (tvl_is_a_number world0 (VNum 5250000000) eq_refl).
Defined.

(** X16. The per-chain map is a fallback for a total that is there but is
    not a number. When the answer has no [tvl] key at all the result is 0,
    whatever the per-chain map holds; a numeric [tvl] is returned as it is;
    otherwise the per-chain values are summed: with no per-chain map, or
    one that is not an object, the result is 0, and a per-chain value that
    is not a number makes the fetch raise. An answer that is not an object
    raises [AttributeError]. *)
Theorem tvl_precedence (w : world) (data : pyval) :
  tvl_answer w = Ok data ->
  (forall d, data = VDict d -> assoc d "tvl" = None ->
     get_llama_tvl w = Ok (VNum 0)) /\
  (forall d t, data = VDict d -> assoc d "tvl" = Some t -> is_number t = true ->
     get_llama_tvl w = Ok t) /\
  (forall d t, data = VDict d ->
     assoc d "tvl" = Some t -> is_number t = false ->
     assoc d "currentChainTvls" = None ->
     get_llama_tvl w = Ok (VNum 0)) /\
  (forall d t cur, data = VDict d ->
     assoc d "tvl" = Some t -> is_number t = false ->
     assoc d "currentChainTvls" = Some cur -> is_dict cur = false ->
     get_llama_tvl w = Ok (VNum 0)) /\
  (forall d t chains, data = VDict d ->
     assoc d "tvl" = Some t -> is_number t = false ->
     assoc d "currentChainTvls" = Some (VDict chains) ->
     forallb is_number (dict_values chains) = false ->
     exists e, get_llama_tvl w = Raise e) /\
  (is_dict data = false -> get_llama_tvl w = Raise AttributeError).
Proof.
  intros H. rewrite get_llama_tvl_unfold, H. cbn [bind]. unfold tvl_of.
  split; [|split; [|split; [|split; [|split]]]].
  - intros d -> Hk. cbn [py_get bind]. unfold dict_get. by rewrite Hk.
  - intros d t -> Hk Ht. cbn [py_get bind]. unfold dict_get. by rewrite Hk, Ht.
  - intros d t -> Hk Ht Hc. cbn [py_get bind]. unfold dict_get.
    by rewrite Hk, Ht, Hc.
  - intros d t cur -> Hk Ht Hc Hd. cbn [py_get bind]. unfold dict_get.
    rewrite Hk, Ht, Hc. by destruct cur.
  - intros d t chains -> Hk Ht Hc Hbad. cbn [py_get bind]. unfold dict_get.
    rewrite Hk, Ht, Hc. exists TypeError. by rewrite (py_sum_not_number _ 0 Hbad).
  - intros Hd. by destruct data.
Qed.

Lemma tvl_precedence_witness :
  tvl_answer world_tvl_no_total
    = Ok (VDict [("currentChainTvls", VDict [("Ethereum", VNum 5000000000)])]) /\
  get_llama_tvl world_tvl_no_total = Ok (VNum 0) /\
  tvl_answer world0
    = Ok (VDict [("tvl", VList []);
                 ("currentChainTvls",
                  VDict [("Ethereum", VNum 5000000000); ("Arbitrum", VNum 250000000)])]) /\
  is_number (VList []) = false.
Proof.
  split; [reflexivity|]. split.
  - exact (proj1 (tvl_precedence world_tvl_no_total _ eq_refl) _ eq_refl eq_refl).
  - split; reflexivity.
Defined.

(** ** The quick signal, continued *)

Ltac bool_to_prop :=
  repeat match goal with
  | H : num_lt _ _ = true |- _ => apply num_lt_iff in H
  | H : num_lt _ _ = false |- _ => apply num_lt_false_iff in H
  | H : num_le _ _ = true |- _ => apply num_le_iff in H
  | H : num_le _ _ = false |- _ => apply num_le_false_iff in H
  end.

Ltac case_compare :=
  repeat match goal with
  | |- context [num_lt ?a ?b] => destruct (num_lt a b) eqn:?
  | |- context [num_le ?a ?b] => destruct (num_le a b) eqn:?
  end.

(** X17. The three non-neutral branches exclude one another, so the order
    of the chain never decides: each label is chosen exactly on its own
    condition. *)
Theorem signal_branches_are_exclusive (predicted oi_pct : option Q) :
  quick_signal (opt_num predicted) (opt_num oi_pct)
    = Ok (signal_label (classify predicted oi_pct), reasons_of predicted oi_pct) /\
  (classify predicted oi_pct = Bullish <->
     exists f, predicted = Some f /\ (f < 0)%Q /\ (0 <= default 0%Q oi_pct)%Q) /\
  (classify predicted oi_pct = Caution <->
     exists f, predicted = Some f /\ (0 < f)%Q /\ (3 < default 0%Q oi_pct)%Q) /\
  (classify predicted oi_pct = PullbackRisk <->
     exists f, predicted = Some f /\ (0 < f)%Q /\ (default 0%Q oi_pct < 0)%Q).
Proof.
  split; [apply quick_signal_classifies|].
  unfold classify, present_and.
  destruct predicted as [f|].
  - set (pct := default 0%Q oi_pct).
    repeat split.
    all: try (intros (f' & [= <-] & H1 & H2); revert H1 H2).
    all: case_compare; cbn [andb]; bool_to_prop; intros; try discriminate;
      try (exfalso; lra); try reflexivity.
    all: exists f; repeat split; done.
  - repeat split; try discriminate; by intros (f & ? & _).
Qed.

(** X18. A non-neutral signal never comes with the "no bias" fallback line:
    Bullish always lists the funding reason, Caution the rising open
    interest and PullbackRisk the falling open interest; an empty list of
    reasons only occurs with Neutral. *)
Theorem signal_comes_with_its_reason (predicted oi_pct : option Q) :
  quick_signal (opt_num predicted) (opt_num oi_pct)
    = Ok (signal_label (classify predicted oi_pct), reasons_of predicted oi_pct) /\
  (classify predicted oi_pct = Bullish ->
     "Funding ≤ 0 (Short đông hơn)" ∈ reasons_of predicted oi_pct) /\
  (classify predicted oi_pct = Caution ->
     "OI ↑ (mở thêm vị thế)" ∈ reasons_of predicted oi_pct) /\
  (classify predicted oi_pct = PullbackRisk ->
     "OI ↓ (đóng vị thế)" ∈ reasons_of predicted oi_pct) /\
  (reasons_of predicted oi_pct = [] -> classify predicted oi_pct = Neutral).
Proof.
  split; [apply quick_signal_classifies|].
  unfold classify, reasons_of, present_and.
  destruct predicted as [f|], oi_pct as [p|]; cbn [default from_option id].
  all: repeat split.
  all: case_compare; cbn [andb app]; bool_to_prop; intros; try discriminate;
    try (exfalso; lra); try reflexivity.
  all: apply list_elem_of_In; cbn [In]; tauto.
Qed.

Lemma signal_branches_are_exclusive_witness :
  (exists f, Some (-1 # 1000) = Some f /\ (f < 0)%Q /\ (0 <= default 0%Q (Some 5%Q))%Q) /\
  classify (Some (-1 # 1000)) (Some 5%Q) = Bullish.
Proof.
  assert (exists f, Some (-1 # 1000) = Some f /\ (f < 0)%Q /\ (0 <= default 0%Q (Some 5%Q))%Q)
    as Hc by (exists (-1 # 1000); repeat split; done).
  split; [exact Hc|].
  exact (proj2 (proj1 (proj2 (signal_branches_are_exclusive (Some (-1 # 1000)) (Some 5%Q)))) Hc).
Defined.

Lemma signal_comes_with_its_reason_witness :
  classify (Some (2 # 1000)) (Some (-1)%Q) = PullbackRisk /\
  "OI ↓ (đóng vị thế)" ∈ reasons_of (Some (2 # 1000)) (Some (-1)%Q).
Proof.
  split; [reflexivity|].
  exact (proj1 (proj2 (proj2 (proj2
           (signal_comes_with_its_reason (Some (2 # 1000)) (Some (-1)%Q))))) eq_refl).
Defined.

(** ** The ETA estimate, continued *)

Lemma fabs_opp (c : Q) : fabs (- c) = fabs c.
Proof. unfold fabs. apply Qred_complete, Qabs_opp. Qed.

Lemma num_is_zero_opp (c : Q) : num_is_zero (- c) = num_is_zero c.
Proof. apply eq_true_iff_eq. rewrite !num_is_zero_iff. split; lra. Qed.

(** X19. Only the size of the 24h price change enters the estimate, not its
    direction: a fall of c percent gives the same ETA as a rise of c
    percent. *)
Theorem eta_ignores_direction (price vol24 : option Q) (c : Q) :
  eta_to_target (opt_num price) (opt_num vol24) (VNum c)
  = eta_to_target (opt_num price) (opt_num vol24) (VNum (- c)).
Proof.
  assert (py_abs (py_or (VNum (- c)) (VNum 0)) = py_abs (py_or (VNum c) (VNum 0))) as H.
  { unfold py_or, py_abs. cbn [truthy]. rewrite num_is_zero_opp.
    destruct (num_is_zero c); cbn [negb as_num]; [reflexivity|]. by rewrite fabs_opp. }
  unfold eta_to_target. by rewrite H.
Qed.

(** X22. The ETA block swallows every type error: a price that is not a
    number gives the unknown placeholder, and so does, for a price strictly
    between 0 and the target, a volume or a price change that counts as
    true without being a number (a non-empty string, array or object). *)
Theorem eta_unknown_on_non_numbers (price vol24 chg24h : pyval) :
  (as_num price = None -> eta_to_target price vol24 chg24h = "—") /\
  (forall p, price = VNum p -> (0 < p)%Q -> (p < target)%Q ->
     truthy vol24 = true -> as_num vol24 = None ->
     eta_to_target price vol24 chg24h = "—") /\
  (forall p v, price = VNum p -> (0 < p)%Q -> (p < target)%Q ->
     vol24 = opt_num v ->
     truthy chg24h = true -> as_num chg24h = None ->
     eta_to_target price vol24 chg24h = "—").
Proof.
  assert (forall p, (0 < p)%Q -> (p < target)%Q ->
            num_is_zero p = false /\ num_lt 0 p = true
            /\ num_le (fsub (18 # 10) p) 0 = false) as Hrange.
  { intros p Hp Ht. split; [|split].
    - apply not_true_iff_false. intros H%num_is_zero_iff. lra.
    - by apply num_lt_iff.
    - apply num_le_false_iff. unfold fsub, target in *. rewrite Qred_correct. lra. }
  split; [|split].
  - intros Hn. unfold eta_to_target, and_then, py_gt, py_cmp. rewrite Hn.
    cbn [bind]. by destruct (truthy price).
  - intros p -> Hp Ht Htr Hn.
    destruct (Hrange p Hp Ht) as (Hz & Hlt & Hgap).
    unfold eta_to_target, and_then, py_gt, py_cmp.
    cbn [truthy as_num bind py_float]. rewrite Hz, Hlt. cbn [negb bind].
    rewrite Hgap. unfold py_or, py_div. by rewrite Htr, Hn.
  - intros p v -> Hp Ht -> Htr Hn.
    destruct (Hrange p Hp Ht) as (Hz & Hlt & Hgap).
    unfold eta_to_target, and_then, py_gt, py_cmp.
    cbn [truthy as_num bind py_float]. rewrite Hz, Hlt. cbn [negb bind].
    rewrite Hgap.
    destruct (py_or_opt_num v) as (vq & -> & _).
    unfold py_div. cbn [as_num]. rewrite fdiv_nonzero by done. cbn [bind].
    unfold py_or at 1, py_abs. by rewrite Htr, Hn.
Qed.

Lemma eta_unknown_on_non_numbers_witness :
  as_num (VStr "1.5") = None /\
  eta_to_target (VStr "1.5") (VNum 70000000) (VNum 3) = "—" /\
  eta_to_target (VNum (15 # 10)) (VStr "70000000") (VNum 3) = "—" /\
  eta_to_target (VNum (15 # 10)) (VNum 70000000) (VStr "3") = "—".
Proof.
  assert (0 < 15 # 10)%Q as Hp by done.
  assert (15 # 10 < target)%Q as Ht by done.
  split; [reflexivity|]. split; [|split].
  - exact (proj1 (eta_unknown_on_non_numbers (VStr "1.5") (VNum 70000000) (VNum 3)) eq_refl).
  - exact (proj1 (proj2 (eta_unknown_on_non_numbers
             (VNum (15 # 10)) (VStr "70000000") (VNum 3)))
             (15 # 10) eq_refl Hp Ht eq_refl eq_refl).
  - exact (proj2 (proj2 (eta_unknown_on_non_numbers
             (VNum (15 # 10)) (VNum 70000000) (VStr "3")))
             (15 # 10) (Some 70000000%Q) eq_refl Hp Ht eq_refl eq_refl eq_refl).
Defined.

(** ** The report compiler, continued *)

(** X24. A spot price that arrives as a non-empty string fails the whole
    report with [ValueError]: the ETA block swallows the type error, but
    the price field of the message is formatted outside any [try]. *)
Theorem string_price_fails_report (py_repr : pyval -> string) (w : world)
    (d : list (string * pyval)) (rest : list pyval) (s : string) (fr pi oi oih : pyval) :
  spot_answer w = Ok (VList (VDict d :: rest)) ->
  assoc d "current_price" = Some (VStr s) ->
  s <> "" ->
  get_json (binance_fundingRate w) = Ok fr ->
  get_json (binance_premiumIndex w) = Ok pi ->
  get_json (binance_openInterest w) = Ok oi ->
  get_json (binance_openInterestHist w) = Ok oih ->
  format_report py_repr w = Raise ValueError.
Proof.
  intros Hs Hp Hne Hfr Hpi Hoi Hoih. unfold format_report.
  rewrite get_coingecko_ethfi_unfold, Hs. cbn [bind].
  unfold spot_record. cbn [truthy negb py_first bind py_get].
  assert (dict_get d "current_price" VNone = VStr s) as ->
    by (unfold dict_get; by rewrite Hp).
  generalize (dict_get d "market_cap" VNone) as mcap.
  generalize (dict_get d "total_volume" VNone) as vol24.
  generalize (dict_get d "price_change_percentage_1h_in_currency" VNone) as chg1h.
  generalize (dict_get d "price_change_percentage_24h_in_currency" VNone) as chg24h.
  generalize (dict_get d "price_change_percentage_7d_in_currency" VNone) as chg7d.
  intros chg7d chg24h chg1h vol24 mcap.
  destruct (get_binance_funding_latest_shape w fr pi Hfr Hpi) as (lf & lt & ->).
  rewrite (get_binance_oi_change_shape w oi oih Hoi Hoih). cbn [bind].
  unfold py_or at 1. cbn [truthy].
  unfold compose_report, oi_record.
  cbn [bind py_get dict_get assoc String.eqb Ascii.eqb Bool.eqb].
  rewrite quick_signal_classifies. cbn [bind].
  unfold render. unfold py_or at 1. cbn [truthy].
  apply String.eqb_neq in Hne. rewrite Hne. reflexivity.
Qed.

Lemma string_price_fails_report_witness :
  spot_answer world_string_price = Ok (VList [VDict [("current_price", VStr "1.5")]]) /\
  "1.5" <> "" /\
  format_report repr0 world_string_price = Raise ValueError.
Proof.
  assert ("1.5" <> "") as Hne by discriminate.
  split; [reflexivity|]. split; [exact Hne|].
  exact (string_price_fails_report repr0 world_string_price _ _ "1.5" _ _ _ _
           eq_refl eq_refl Hne eq_refl eq_refl eq_refl eq_refl).
Defined.

(** ** The scheduled broadcast, continued *)

Section BroadcastMore.

Variable py_repr : pyval -> string.
Variable deliver : hkey -> string -> result unit.

(** The sends of a tick, in every case. *)
Lemma sends_send_broadcast (w : world) (st : bot) :
  sends (send_broadcast py_repr deliver w st)
  = match format_report py_repr w with
    | Ok msg => (fun chat_id => (chat_id, msg)) <$> elements (SUBSCRIBERS st)
    | Raise _ => []
    end.
Proof.
  unfold send_broadcast. destruct (bool_decide _) eqn:E.
  - apply bool_decide_eq_true_1 in E. rewrite E, elements_empty.
    by destruct (format_report py_repr w).
  - destruct (format_report py_repr w) as [msg|e]; [|done].
    cbn [sends omap]. apply loop_sends.
Qed.

Lemma recipients_send_broadcast (w : world) (st : bot) :
  recipients (send_broadcast py_repr deliver w st)
  = match format_report py_repr w with
    | Ok _ => elements (SUBSCRIBERS st)
    | Raise _ => []
    end.
Proof.
  unfold recipients. rewrite sends_send_broadcast.
  destruct (format_report py_repr w); [|done].
  rewrite <- list_fmap_compose. apply list_fmap_id.
Qed.

Lemma loop_sleeps (msg : string) (snapshot : list hkey) :
  length (List.filter is_sleep (snapshot ≫= send_one deliver msg))
  = length (List.filter (delivered deliver msg) snapshot).
Proof.
  induction snapshot as [|a l IH]; [done|].
  rewrite bind_cons, List.filter_app, length_app, IH.
  cbn [List.filter]. unfold send_one, delivered.
  by destruct (deliver a msg) as [[]|e].
Qed.

Lemma loop_warnings (msg : string) (snapshot : list hkey) :
  length (List.filter is_warning (snapshot ≫= send_one deliver msg))
  = length (List.filter (fun c => negb (delivered deliver msg c)) snapshot).
Proof.
  induction snapshot as [|a l IH]; [done|].
  rewrite bind_cons, List.filter_app, length_app, IH.
  cbn [List.filter]. unfold send_one, delivered.
  by destruct (deliver a msg) as [[]|e].
Qed.

Lemma filter_partition_length {A} (f : A -> bool) (l : list A) :
  (length (List.filter f l) + length (List.filter (fun x => negb (f x)) l))%nat = length l.
Proof.
  induction l as [|a l IH]; [done|].
  cbn [List.filter]. destruct (f a); cbn [negb length]; lia.
Qed.

End BroadcastMore.

(** X25. In one tick nobody is served twice and nobody is left out: when
    the report compiles, the recipients of the tick are the subscribers,
    each exactly once; when it does not, there is no recipient. *)
Theorem broadcast_serves_each_subscriber_once (py_repr : pyval -> string)
    (deliver : hkey -> string -> result unit) (w : world) (st : bot) :
  NoDup (recipients (send_broadcast py_repr deliver w st)) /\
  (forall msg, format_report py_repr w = Ok msg ->
     forall chat_id,
       chat_id ∈ recipients (send_broadcast py_repr deliver w st)
       <-> chat_id ∈ SUBSCRIBERS st) /\
  (forall e, format_report py_repr w = Raise e ->
     recipients (send_broadcast py_repr deliver w st) = []).
Proof.
  rewrite recipients_send_broadcast.
  split; [|split].
  - destruct (format_report py_repr w); [apply NoDup_elements | constructor].
  - intros msg -> chat_id. apply elem_of_elements.
  - by intros e ->.
Qed.

Lemma broadcast_serves_each_subscriber_once_witness :
  format_report repr0 world0 = Ok report0 /\
  (chat_key 1001 ∈ recipients (send_broadcast repr0 deliver_1001_down world0 bot2)
   <-> chat_key 1001 ∈ SUBSCRIBERS bot2) /\
  format_report repr0 world_spot_down = Raise ConnectionError /\
  recipients (send_broadcast repr0 deliver_all world_spot_down bot2) = [].
Proof.
  assert (format_report repr0 world0 = Ok report0) as Hmsg by (vm_compute; reflexivity).
  assert (format_report repr0 world_spot_down = Raise ConnectionError) as Hdown
    by (vm_compute; reflexivity).
  split; [exact Hmsg|]. split; [|split; [exact Hdown|]].
  - exact (proj1 (proj2 (broadcast_serves_each_subscriber_once
             repr0 deliver_1001_down world0 bot2)) report0 Hmsg (chat_key 1001)).
  - exact (proj2 (proj2 (broadcast_serves_each_subscriber_once
             repr0 deliver_all world_spot_down bot2)) ConnectionError Hdown).
Defined.

(** X26. Every send of a tick ends in exactly one of two ways: a pause
    after a delivery that went through, a warning after one that raised.
    When the report compiles, the pauses count the deliveries that went
    through, the warnings those that failed, and together they are as many
    as there are subscribers. *)
Theorem broadcast_accounts_for_every_send (py_repr : pyval -> string)
    (deliver : hkey -> string -> result unit) (w : world) (st : bot) (msg : string) :
  format_report py_repr w = Ok msg ->
  let trace := send_broadcast py_repr deliver w st in
  length (List.filter is_sleep trace)
    = length (List.filter (delivered deliver msg) (elements (SUBSCRIBERS st))) /\
  length (List.filter is_warning trace)
    = length (List.filter (fun c => negb (delivered deliver msg c))
                (elements (SUBSCRIBERS st))) /\
  (length (List.filter is_sleep trace) + length (List.filter is_warning trace))%nat
    = size (SUBSCRIBERS st).
Proof.
  intros Hmsg trace.
  assert (length (List.filter is_sleep trace)
          = length (List.filter (delivered deliver msg) (elements (SUBSCRIBERS st)))) as Hs.
  { unfold trace, send_broadcast. destruct (bool_decide _) eqn:E.
    - apply bool_decide_eq_true_1 in E. by rewrite E, elements_empty.
    - rewrite Hmsg. cbn [List.filter is_sleep]. apply loop_sleeps. }
  assert (length (List.filter is_warning trace)
          = length (List.filter (fun c => negb (delivered deliver msg c))
                      (elements (SUBSCRIBERS st)))) as Hw.
  { unfold trace, send_broadcast. destruct (bool_decide _) eqn:E.
    - apply bool_decide_eq_true_1 in E. by rewrite E, elements_empty.
    - rewrite Hmsg. cbn [List.filter is_warning]. apply loop_warnings. }
  split; [exact Hs|]. split; [exact Hw|].
  rewrite Hs, Hw, filter_partition_length. reflexivity.
Qed.

Lemma broadcast_accounts_for_every_send_witness :
  format_report repr0 world0 = Ok report0 /\
  length (List.filter is_sleep (send_broadcast repr0 deliver_1001_down world0 bot2)) = 1%nat /\
  length (List.filter is_warning (send_broadcast repr0 deliver_1001_down world0 bot2)) = 1%nat.
Proof.
  assert (format_report repr0 world0 = Ok report0) as Hmsg by (vm_compute; reflexivity).
  assert (elements (SUBSCRIBERS bot2) = [chat_key 1001; chat_key 1002]) as Hel
    by (vm_compute; reflexivity).
  destruct (broadcast_accounts_for_every_send repr0 deliver_1001_down world0 bot2 report0 Hmsg)
    as (Hs & Hw & _).
  split; [exact Hmsg|]. split.
  - rewrite Hs, Hel. reflexivity.
  - rewrite Hw, Hel. reflexivity.
Defined.

(** X27. The registry decides who is served next: after [stop], whatever
    the outcome of its save, no later tick sends anything to that chat;
    after [start], the next tick whose report compiles sends it to that
    chat. *)
Theorem registry_decides_recipients (py_repr : pyval -> string)
    (deliver : hkey -> string -> result unit) (w : world) (st : bot) (chat_id : Z) :
  (chat_key chat_id ∉ recipients (send_broadcast py_repr deliver w (stop chat_id st).1)) /\
  (forall name msg, format_report py_repr w = Ok msg ->
     (chat_key chat_id, msg)
       ∈ sends (send_broadcast py_repr deliver w (start chat_id name st).1)).
Proof.
  split.
  - rewrite recipients_send_broadcast.
    destruct (format_report py_repr w); [|apply not_elem_of_nil].
    rewrite elem_of_elements. unfold stop. destruct (bool_decide _) eqn:E.
    + destruct (save_subscribers _ _); simpl; set_solver.
    + by apply bool_decide_eq_false_1 in E.
  - intros name msg Hmsg. rewrite sends_send_broadcast, Hmsg.
    apply (list_elem_of_fmap_2 (fun c => (c, msg))).
    apply elem_of_elements. unfold start.
    destruct (save_subscribers _ _); simpl; set_solver.
Qed.

Lemma registry_decides_recipients_witness :
  format_report repr0 world0 = Ok report0 /\
  (chat_key 42, report0) ∈ sends (send_broadcast repr0 deliver_all world0 (start 42 None bot0).1).
Proof.
  assert (format_report repr0 world0 = Ok report0) as Hmsg by (vm_compute; reflexivity).
  split; [exact Hmsg|].
  exact (proj2 (registry_decides_recipients repr0 deliver_all world0 bot0 42) None report0 Hmsg).
Defined.

(** * The arithmetic in binary64: properties *)

Section Binary64Facts.

Import Binary64.

(** ** Rounding never loses a sign *)

Lemma digits2_size (m : positive) : digits2_pos m = Pos.size m.
Proof. induction m; simpl; congruence. Qed.

Lemma size_bounds (m : positive) :
  (2 ^ (Zpos (Pos.size m) - 1) <= Zpos m < 2 ^ Zpos (Pos.size m))%Z.
Proof.
  induction m as [m IH|m IH|].
  - cbn [Pos.size]. rewrite Pos2Z.inj_succ.
    replace (Z.succ (Zpos (Pos.size m)) - 1)%Z with (Z.succ (Zpos (Pos.size m) - 1))%Z by lia.
    rewrite !Z.pow_succ_r by lia. lia.
  - cbn [Pos.size]. rewrite Pos2Z.inj_succ.
    replace (Z.succ (Zpos (Pos.size m)) - 1)%Z with (Z.succ (Zpos (Pos.size m) - 1))%Z by lia.
    rewrite !Z.pow_succ_r by lia. lia.
  - cbn. lia.
Qed.

Lemma shr_1_m (mrs : shr_record) :
  (0 <= shr_m mrs)%Z -> shr_m (shr_1 mrs) = Z.div2 (shr_m mrs).
Proof.
  destruct mrs as [m r s]. simpl. intros H.
  destruct m as [|[p|p|]|p]; simpl; try reflexivity; lia.
Qed.

Lemma div2_nonneg z : (0 <= z)%Z -> (0 <= Z.div2 z)%Z.
Proof. intros. rewrite Z.div2_div. apply Z.div_pos; lia. Qed.

Lemma iter_shr_1_m (p : positive) : forall mrs : shr_record,
  (0 <= shr_m mrs)%Z ->
  shr_m (SpecFloat.iter_pos shr_1 p mrs) = Z.shiftr (shr_m mrs) (Zpos p).
Proof.
  induction p as [p IH|p IH|]; intros mrs H; cbn [SpecFloat.iter_pos].
  - assert (H1 : (0 <= shr_m (shr_1 mrs))%Z)
      by (rewrite shr_1_m by assumption; auto using div2_nonneg).
    assert (H2 : (0 <= shr_m (SpecFloat.iter_pos shr_1 p (shr_1 mrs)))%Z)
      by (rewrite IH by assumption; apply Z.shiftr_nonneg; assumption).
    rewrite IH by assumption. rewrite IH by assumption.
    rewrite shr_1_m by assumption.
    rewrite Z.div2_spec, !Z.shiftr_shiftr by lia.
    f_equal; lia.
  - assert (H2 : (0 <= shr_m (SpecFloat.iter_pos shr_1 p mrs))%Z)
      by (rewrite IH by assumption; apply Z.shiftr_nonneg; assumption).
    rewrite IH by assumption. rewrite IH by assumption.
    rewrite Z.shiftr_shiftr by lia. f_equal; lia.
  - rewrite shr_1_m by assumption. apply Z.div2_spec.
Qed.

Lemma shr_record_of_loc_m m l : shr_m (shr_record_of_loc m l) = m.
Proof. destruct l as [|[]]; reflexivity. Qed.

(** A positive mantissa at an exponent not below [emin] survives the shift
    to the rounding position. *)
Lemma shr_fexp_pos (m : positive) (e : Z) (l : location) :
  (emin <= e)%Z ->
  exists mrs e', shr_fexp prec emax (Zpos m) e l = (mrs, e')
    /\ (0 < shr_m mrs)%Z /\ (emin <= e')%Z.
Proof.
  intros He. unfold shr_fexp, shr. cbn [Zdigits2]. rewrite digits2_size.
  pose proof (size_bounds m) as [Hlo Hhi].
  set (d := Zpos (Pos.size m)) in *.
  destruct (fexp prec emax (d + e) - e)%Z as [|k|k] eqn:Hk.
  - eexists _, _. split; [reflexivity|]. rewrite shr_record_of_loc_m. lia.
  - eexists _, _. split; [reflexivity|].
    rewrite iter_shr_1_m by (rewrite shr_record_of_loc_m; lia).
    rewrite shr_record_of_loc_m.
    unfold fexp, FloatOps.emin, SpecFloat.emin, prec, emax in *.
    assert (Hd : Zpos k = (d - 53)%Z) by lia.
    split; [|lia].
    rewrite Z.shiftr_div_pow2 by lia.
    apply Z.div_str_pos. split; [apply Z.pow_pos_nonneg; lia|].
    etransitivity; [|exact Hlo].
    apply Z.pow_le_mono_r; lia.
  - eexists _, _. split; [reflexivity|]. rewrite shr_record_of_loc_m. lia.
Qed.

Lemma round_nearest_even_pos m l : (0 < m)%Z -> (0 < round_nearest_even m l)%Z.
Proof. destruct l as [|[]]; simpl; try destruct (Z.even m); lia. Qed.

Lemma binary_round_aux_nonzero sx (m : positive) e l :
  (emin <= e)%Z -> signed_nonzero sx (binary_round_aux prec emax sx (Zpos m) e l).
Proof.
  intros He. unfold binary_round_aux.
  destruct (shr_fexp_pos m e l He) as (mrs & e' & -> & Hm & He').
  pose proof (round_nearest_even_pos (shr_m mrs) (loc_of_shr_record mrs) Hm) as Hr.
  destruct (round_nearest_even (shr_m mrs) (loc_of_shr_record mrs)) as [|m1|m1]; try lia.
  destruct (shr_fexp_pos m1 e' loc_Exact He') as (mrs2 & e2 & -> & Hm2 & He2).
  destruct (shr_m mrs2); try lia.
  destruct (Z.leb e2 (emax - prec)); reflexivity.
Qed.

Lemma shl_align_exp m e e' : (emin <= e)%Z -> (emin <= e')%Z ->
  (emin <= snd (shl_align m e e'))%Z.
Proof. unfold shl_align. destruct (e' - e)%Z; simpl; lia. Qed.

Lemma binary_round_nonzero sx (m : positive) e :
  (emin <= e)%Z -> signed_nonzero sx (binary_round prec emax sx m e).
Proof.
  intros He. unfold binary_round.
  pose proof (shl_align_exp m e (fexp prec emax (Zpos (digits2_pos m) + e)) He) as H.
  destruct (shl_align _ _ _) as [mz ez]. apply binary_round_aux_nonzero.
  apply H. unfold fexp, FloatOps.emin, SpecFloat.emin, prec, emax. lia.
Qed.
Lemma valid_finite s m e :
  valid_binary (S754_finite s m e) = true ->
  (emin <= e <= 971)%Z /\ (Zpos (Pos.size m) <= 53)%Z /\
  ((emin < e)%Z -> Zpos (Pos.size m) = 53%Z).
Proof.
  unfold valid_binary, SpecFloat.valid_binary, bounded, canonical_mantissa.
  rewrite digits2_size. intros H. apply andb_prop in H as [H1 H2].
  apply Z.eqb_eq in H1. apply Z.leb_le in H2.
  unfold fexp, FloatOps.emin, SpecFloat.emin, prec, emax in *. lia.
Qed.

Lemma shl_align_fst m e e' :
  (e' <= e)%Z -> Zpos (fst (shl_align m e e')) = (Zpos m * 2 ^ (e - e'))%Z.
Proof.
  intros H. unfold shl_align.
  destruct (e' - e)%Z as [|d|d] eqn:Hd; try lia.
  - replace (e - e')%Z with 0%Z by lia. simpl. lia.
  - cbn [fst]. replace (e - e')%Z with (Zpos d) by lia.
    change (Pos.iter xO m d) with (shift_pos d m).
    rewrite shift_pos_correct, Zpower_pos_nat, Zpower_nat_Z, positive_nat_Z. lia.
Qed.

(** Two valid positive floats compare as their mantissas aligned to the
    smaller exponent. *)
Lemma SFcompare_aligned mx ex my ey :
  valid_binary (S754_finite false mx ex) = true ->
  valid_binary (S754_finite false my ey) = true ->
  SFcompare (S754_finite false mx ex) (S754_finite false my ey)
  = Some (Z.compare (Zpos mx * 2 ^ (ex - Z.min ex ey)) (Zpos my * 2 ^ (ey - Z.min ex ey))).
Proof.
  intros Vx Vy.
  apply valid_finite in Vx as (Hex & Hdx & Hnx).
  apply valid_finite in Vy as (Hey & Hdy & Hny).
  pose proof (size_bounds mx) as [Hxl Hxh].
  pose proof (size_bounds my) as [Hyl Hyh].
  assert (H53 : forall m : positive, (Zpos (Pos.size m) <= 53)%Z ->
            (Zpos m < 2 ^ Zpos (Pos.size m))%Z -> (Zpos m < 2 ^ 53)%Z).
  { intros m Hd Hm. eapply Z.lt_le_trans; [exact Hm|]. apply Z.pow_le_mono_r; lia. }
  pose proof (H53 mx Hdx Hxh) as Hx53. pose proof (H53 my Hdy Hyh) as Hy53.
  cbn [SFcompare]. f_equal.
  destruct (Z.compare_spec ex ey) as [Heq|Hlt|Hgt].
  - subst ey. rewrite Z.min_id, Z.sub_diag, !Z.mul_1_r.
    rewrite Pos.compare_cont_spec. cbn [Z.compare].
    destruct (mx ?= my)%positive; reflexivity.
  - rewrite Z.min_l by lia. rewrite Z.sub_diag, Z.mul_1_r.
    symmetry. apply Z.compare_lt_iff.
    rewrite Hny in Hyl by lia.
    assert (2 ^ 1 <= 2 ^ (ey - ex))%Z by (apply Z.pow_le_mono_r; lia).
    change (2 ^ (53 - 1))%Z with 4503599627370496%Z in Hyl.
    change (2 ^ 53)%Z with 9007199254740992%Z in Hx53.
    change (2 ^ 1)%Z with 2%Z in H. nia.
  - rewrite Z.min_r by lia. rewrite Z.sub_diag, Z.mul_1_r.
    symmetry. apply Z.compare_gt_iff.
    rewrite Hnx in Hxl by lia.
    assert (2 ^ 1 <= 2 ^ (ex - ey))%Z by (apply Z.pow_le_mono_r; lia).
    change (2 ^ (53 - 1))%Z with 4503599627370496%Z in Hxl.
    change (2 ^ 53)%Z with 9007199254740992%Z in Hy53.
    change (2 ^ 1)%Z with 2%Z in H. nia.
Qed.

Lemma SFleb_signed_nonzero sx x :
  signed_nonzero sx x -> SFleb x (S754_zero false) = sx.
Proof.
  destruct x as [s|s| |s m e]; simpl; intros H; try contradiction; subst;
    destruct sx; reflexivity.
Qed.

(** The sign of a difference of two positive floats is the sign of their
    comparison: subtraction never rounds a non-zero difference to zero. *)
Lemma SFsub_le_zero mx ex my ey :
  valid_binary (S754_finite false mx ex) = true ->
  valid_binary (S754_finite false my ey) = true ->
  SFleb (SF64sub (S754_finite false mx ex) (S754_finite false my ey)) (S754_zero false)
  = SFleb (S754_finite false mx ex) (S754_finite false my ey).
Proof.
  intros Vx Vy. unfold SFleb at 2. rewrite (SFcompare_aligned _ _ _ _ Vx Vy).
  apply valid_finite in Vx as (Hex & _). apply valid_finite in Vy as (Hey & _).
  unfold SF64sub, SFsub. cbn [cond_Zopp].
  rewrite !shl_align_fst by lia.
  set (a := (Zpos mx * 2 ^ (ex - Z.min ex ey))%Z).
  set (b := (Zpos my * 2 ^ (ey - Z.min ex ey))%Z).
  assert (He : (emin <= Z.min ex ey)%Z) by lia.
  unfold binary_normalize.
  destruct (Z.compare_spec a b) as [Heq|Hlt|Hgt].
  - replace (a - b)%Z with 0%Z by lia. reflexivity.
  - destruct (a - b)%Z as [|d|d] eqn:Hd; try lia.
    apply (SFleb_signed_nonzero true), binary_round_nonzero, He.
  - destruct (a - b)%Z as [|d|d] eqn:Hd; try lia.
    apply (SFleb_signed_nonzero false), binary_round_nonzero, He.
Qed.

(** [1.8 - p <= 0] is [1.8 <= p], for every float [p]. *)
Lemma gap_le_zero (p : float) :
  ((1.8 - p <=? 0) = (target <=? p))%float.
Proof.
  unfold target. rewrite !FloatAxioms.leb_spec, FloatAxioms.sub_spec.
  pose proof (Prim2SF_valid p) as Vp.
  pose proof (Prim2SF_valid 1.8) as Vt.
  change (Prim2SF 0) with (S754_zero false).
  change (Prim2SF 1.8) with (S754_finite false 8106479329266893 (-52)) in *.
  destruct (Prim2SF p) as [s|s| |s m e].
  - destruct s; reflexivity.
  - destruct s; reflexivity.
  - reflexivity.
  - destruct s.
    + cbn [SFleb SFcompare].
      unfold SF64sub, SFsub. cbn [cond_Zopp].
      apply valid_finite in Vp as (Hey & _).
      set (ez := Z.min (-52) e).
      assert (He : (emin <= ez)%Z)
        by (unfold FloatOps.emin, SpecFloat.emin, prec, emax in *; lia).
      unfold binary_normalize.
      destruct (_ - _)%Z as [|d|d] eqn:Hd; try lia.
      apply (SFleb_signed_nonzero false), binary_round_nonzero, He.
    + apply SFsub_le_zero; assumption.
Qed.

(** ** Order against zero *)

Lemma eqb_zero_spec (x : float) :
  (x =? 0)%float = match Prim2SF x with S754_zero _ => true | _ => false end.
Proof.
  rewrite FloatAxioms.eqb_spec. change (Prim2SF 0) with (S754_zero false).
  destruct (Prim2SF x) as [s|s| |s m e]; try destruct s; reflexivity.
Qed.

Lemma ltb_zero_spec (x : float) :
  (0 <? x)%float
  = match Prim2SF x with
    | S754_finite false _ _ | S754_infinity false => true
    | _ => false
    end.
Proof.
  rewrite FloatAxioms.ltb_spec. change (Prim2SF 0) with (S754_zero false).
  destruct (Prim2SF x) as [s|s| |s m e]; try destruct s; reflexivity.
Qed.

Lemma leb_zero_spec (x : float) :
  (x <=? 0)%float
  = match Prim2SF x with
    | S754_zero _ | S754_finite true _ _ | S754_infinity true => true
    | _ => false
    end.
Proof.
  rewrite FloatAxioms.leb_spec. change (Prim2SF 0) with (S754_zero false).
  destruct (Prim2SF x) as [s|s| |s m e]; try destruct s; reflexivity.
Qed.

(** [p > 0] against the [int] 0 is the float comparison. *)
Lemma num_lt_zero (p : float) : num_lt (NInt 0) (NFloat p) = (0 <? p)%float.
Proof.
  unfold num_lt, float_cmp_int. rewrite ltb_zero_spec.
  destruct (Prim2SF p) as [s|s| |s m e]; try (destruct s; reflexivity); try reflexivity.
  rewrite Z.mul_0_l.
  assert (H2 : (0 < 2 ^ e)%Z \/ (e < 0)%Z).
  { destruct (Z.le_gt_cases 0 e); [left; apply Z.pow_pos_nonneg; lia | right; lia]. }
  destruct s; cbn [cond_Zopp]; destruct (0 <=? e)%Z eqn:He; try reflexivity.
  - apply Z.leb_le in He. destruct H2 as [H2|]; [|lia].
    assert (- Z.pos m * 2 ^ e < 0)%Z as ->%Z.compare_lt_iff by nia. reflexivity.
  - apply Z.leb_le in He. destruct H2 as [H2|]; [|lia].
    assert (0 < Z.pos m * 2 ^ e)%Z as ->%Z.compare_gt_iff by nia. reflexivity.
Qed.

Lemma abs_eqb_zero (c : float) : (abs c =? 0)%float = (c =? 0)%float.
Proof.
  rewrite !eqb_zero_spec, FloatAxioms.abs_spec. by destruct (Prim2SF c).
Qed.

Lemma positive_ltb (x : float) : (0 <? x)%float = true <-> is_positive x.
Proof.
  rewrite ltb_zero_spec. unfold is_positive.
  destruct (Prim2SF x) as [s|s| |s m e]; try destruct s; by split.
Qed.

Lemma positive_nonzero (x : float) : is_positive x -> (x =? 0)%float = false.
Proof.
  rewrite eqb_zero_spec. unfold is_positive.
  by destruct (Prim2SF x) as [s|s| |s m e].
Qed.

Lemma positive_nonneg (x : float) : is_positive x -> nonneg x.
Proof.
  unfold is_positive, nonneg.
  destruct (Prim2SF x) as [s|s| |s m e]; try destruct s; done.
Qed.

Lemma above_positive (k x : float) : is_positive k -> (k <? x)%float = true -> is_positive x.
Proof.
  rewrite FloatAxioms.ltb_spec. unfold is_positive.
  destruct (Prim2SF k) as [s|s| |s m e], (Prim2SF x) as [s'|s'| |s' m' e'];
    try destruct s; try destruct s'; try done.
Qed.

Lemma not_le_zero_nonneg (x : float) : (x <=? 0)%float = false -> nonneg x.
Proof.
  rewrite leb_zero_spec. unfold nonneg.
  destruct (Prim2SF x) as [s|s| |s m e]; try destruct s; done.
Qed.

Lemma binary_round_aux_sign sx mx ex lx :
  match binary_round_aux prec emax sx mx ex lx with
  | S754_nan => True
  | S754_zero s | S754_infinity s | S754_finite s _ _ => s = sx
  end.
Proof.
  unfold binary_round_aux.
  destruct (shr_fexp prec emax mx ex lx) as [mrs' e'].
  destruct (shr_fexp prec emax _ e' loc_Exact) as [mrs'' e''].
  destruct (shr_m mrs''); [done| |done].
  by destruct (Z.leb e'' (emax - prec)).
Qed.

Lemma nonneg_div (x y : float) : nonneg x -> nonneg y -> nonneg (x / y).
Proof.
  unfold nonneg. rewrite FloatAxioms.div_spec. unfold SF64div, SFdiv.
  destruct (Prim2SF x) as [s|s| |s m e], (Prim2SF y) as [s'|s'| |s' m' e'];
    try done; intros -> ->; try done.
  destruct (SFdiv_core_binary _ _ _ _ _ _) as [[mz ez] lz].
  apply (binary_round_aux_sign (xorb false false)).
Qed.

Lemma nonneg_mul (x y : float) : nonneg x -> nonneg y -> nonneg (x * y).
Proof.
  unfold nonneg. rewrite FloatAxioms.mul_spec. unfold SF64mul, SFmul.
  destruct (Prim2SF x) as [s|s| |s m e], (Prim2SF y) as [s'|s'| |s' m' e'];
    try done; intros -> ->; try done.
  apply (binary_round_aux_sign (xorb false false)).
Qed.

Lemma not_finite_div (x y : float) : not_finite x -> not_finite (x / y).
Proof.
  unfold not_finite. rewrite FloatAxioms.div_spec. unfold SF64div, SFdiv.
  by destruct (Prim2SF x) as [s|s| |s m e], (Prim2SF y) as [s'|s'| |s' m' e'].
Qed.

Lemma div_zero_not_finite (x d : float) : (d =? 0)%float = true -> not_finite (x / d).
Proof.
  rewrite eqb_zero_spec. unfold not_finite. rewrite FloatAxioms.div_spec. unfold SF64div, SFdiv.
  by destruct (Prim2SF x) as [s|s| |s m e], (Prim2SF d) as [s'|s'| |s' m' e'].
Qed.

Lemma not_finite_mul (x y : float) :
  not_finite x -> is_positive y -> not_finite (x * y).
Proof.
  unfold not_finite, is_positive. rewrite FloatAxioms.mul_spec. unfold SF64mul, SFmul.
  destruct (Prim2SF x) as [s|s| |s m e], (Prim2SF y) as [s'|s'| |s' m' e'];
    try done; by destruct s'.
Qed.

Lemma not_finite_sub_nan (x p : float) : Prim2SF p = S754_nan -> not_finite (x - p).
Proof.
  intros H. unfold not_finite. rewrite FloatAxioms.sub_spec, H. unfold SF64sub, SFsub.
  by destruct (Prim2SF x).
Qed.

Lemma not_finite_floor (x : float) (width : Z) (unit : string) :
  not_finite x -> floored_range x width unit = "—".
Proof.
  unfold not_finite, floored_range, floor. by destruct (Prim2SF x).
Qed.

(** ** Conversions keep the sign *)

Lemma binary_round_sign sx m e :
  match binary_round prec emax sx m e with
  | S754_nan => True
  | S754_zero s | S754_infinity s | S754_finite s _ _ => s = sx
  end.
Proof.
  unfold binary_round. destruct (shl_align _ _ _) as [mz ez].
  apply binary_round_aux_sign.
Qed.

Lemma nonneg_SF2Prim_finite (m : positive) (e : Z) :
  nonneg (SF2Prim (S754_finite false m e)).
Proof.
  unfold nonneg, SF2Prim. rewrite Z_ldexp_spec, of_uint63_spec.
  pose proof (Uint63.to_Z_bounded (Uint63.of_Z (Z.pos m))) as [Hlo _].
  unfold binary_normalize.
  destruct (Uint63.to_Z (Uint63.of_Z (Z.pos m))) as [|q|q]; [done| |lia].
  pose proof (binary_round_sign false q 0) as H.
  destruct (binary_round prec emax false q 0) as [s|s| |s m' e']; cbn [SFldexp]; try done.
  subst s. apply (binary_round_sign false).
Qed.

Lemma nonneg_SF2Prim (x : spec_float) :
  match x with
  | S754_nan => True
  | S754_zero s | S754_infinity s | S754_finite s _ _ => s = false
  end -> nonneg (SF2Prim x).
Proof.
  destruct x as [s|s| |s m e]; try (intros ->; by vm_compute); [by vm_compute|].
  intros ->. apply nonneg_SF2Prim_finite.
Qed.

(** The float of a natural number is not negative. *)
Lemma nonneg_float_of_Z (z : Z) : (0 <= z)%Z -> nonneg (float_of_Z z).
Proof.
  intros Hz. unfold float_of_Z. apply nonneg_SF2Prim. unfold binary_normalize.
  destruct z as [|q|q]; [done| |lia].
  apply (binary_round_sign false).
Qed.

Lemma float_of_int_nonneg (z : Z) (p : float) :
  (0 <= z)%Z -> float_of_int z = Ok p -> nonneg p.
Proof.
  unfold float_of_int. intros Hz.
  destruct (is_infinity (float_of_Z z)); [discriminate|].
  intros [= <-]. by apply nonneg_float_of_Z.
Qed.

(** The conversion of an [int] overflows from [2^1024 - 2^970] on; just
    below, it gives the largest finite float. *)
Lemma float_of_int_limit :
  float_of_int (2 ^ 1024 - 2 ^ 970) = Raise OverflowError /\
  float_of_int (2 ^ 1024 - 2 ^ 970 - 1) = Ok (SF2Prim (S754_finite false (2 ^ 53 - 1) 971)) /\
  float_of_int (- (2 ^ 1024 - 2 ^ 970)) = Raise OverflowError.
Proof. repeat split; vm_compute; reflexivity. Qed.

(** ** The clamps *)

Lemma as_num_val (n : num) : as_num (val (Some n)) = Some n.
Proof. by destruct n. Qed.

Lemma py_min_num (d : num) (hi : float) :
  py_min (val (Some d)) (VFloat hi)
  = Ok (val (Some (if num_lt (NFloat hi) d then NFloat hi else d))).
Proof.
  unfold py_min, py_lt. rewrite as_num_val. cbn [as_num bind].
  by destruct (num_lt (NFloat hi) d).
Qed.

Lemma py_max_num (lo : float) (m : num) :
  py_max (VFloat lo) (val (Some m))
  = Ok (val (Some (if num_lt (NFloat lo) m then m else NFloat lo))).
Proof.
  unfold py_max, py_gt, py_lt. rewrite as_num_val. cbn [as_num bind].
  by destruct (num_lt (NFloat lo) m).
Qed.

(** [max(lo, min(x, hi))] is the clamp, for bounds in order. *)
Lemma max_min_clamp (x : num) (lo hi : float) :
  (lo <? hi)%float = true ->
  (if num_lt (NFloat lo) (if num_lt (NFloat hi) x then NFloat hi else x)
   then (if num_lt (NFloat hi) x then NFloat hi else x) else NFloat lo)
  = clamp x lo hi.
Proof.
  intros H. unfold clamp. destruct (num_lt (NFloat hi) x); [|done].
  cbn [num_lt]. by rewrite H.
Qed.

Lemma clamp_float (x lo hi : float) :
  clamp (NFloat x) lo hi
  = NFloat (if (hi <? x)%float then hi else if (lo <? x)%float then x else lo).
Proof. unfold clamp. cbn [num_lt]. by destruct (hi <? x)%float, (lo <? x)%float. Qed.

Lemma clamp_float_positive (x lo hi : float) :
  is_positive lo -> is_positive hi -> is_positive (num_val (clamp (NFloat x) lo hi)).
Proof.
  intros Hlo Hhi. rewrite clamp_float. cbn [num_val].
  destruct (hi <? x)%float; [done|].
  destruct (lo <? x)%float eqn:E; [|done].
  by apply (above_positive lo).
Qed.

(** An integer that the clamp to [1.5, 8] lets through is one of 2 .. 8. *)
Lemma clamp_int_range (d : num) (a : Z) :
  clamp d 1.5 8 = NInt a -> (2 <= a <= 8)%Z.
Proof.
  unfold clamp.
  destruct (num_lt (NFloat 8) d) eqn:E8; [discriminate|].
  destruct (num_lt (NFloat 1.5) d) eqn:E15; [|discriminate].
  intros ->. revert E8 E15. unfold num_lt, float_cmp_int.
  change (Prim2SF 8) with (S754_finite false 4503599627370496 (-49)).
  change (Prim2SF 1.5) with (S754_finite false 6755399441055744 (-52)).
  cbn [cond_Zopp].
  change (0 <=? -49)%Z with false. change (0 <=? -52)%Z with false.
  change (2 ^ (- (-49)))%Z with 562949953421312%Z.
  change (2 ^ (- (-52)))%Z with 4503599627370496%Z.
  destruct (Z.compare_spec 4503599627370496 (a * 562949953421312));
    destruct (Z.compare_spec 6755399441055744 (a * 4503599627370496));
    intros; try discriminate; lia.
Qed.

Lemma clamp_daily_converts (d : num) :
  num_float (clamp d 1.5 8) = Ok (num_val (clamp d 1.5 8))
  /\ nonneg (num_val (clamp d 1.5 8)).
Proof.
  destruct (clamp d 1.5 8) as [a|f] eqn:E.
  - apply clamp_int_range in E.
    assert (a = 2 \/ a = 3 \/ a = 4 \/ a = 5 \/ a = 6 \/ a = 7 \/ a = 8)%Z
      as [->|[->|[->|[->|[->|[->| ->]]]]]] by lia; by vm_compute.
  - split; [done|]. cbn [num_val]. revert E. unfold clamp.
    destruct (num_lt (NFloat 8) d); [intros [= <-]; by vm_compute|].
    destruct (num_lt (NFloat 1.5) d) eqn:E15; [|intros [= <-]; by vm_compute].
    intros ->. cbn [num_lt] in E15.
    apply positive_nonneg, (above_positive 1.5); [by vm_compute | done].
Qed.

(** ** Flooring what is not negative *)

Lemma text_of_floor (x : float) (width : Z) (unit : string) :
  nonneg x ->
  match
    (let* lo := int_of_float x in
     let* lo' := int_of_float x in
     Ok ("≈ " ++ pretty lo ++ "–" ++ pretty (lo' + width)%Z ++ " " ++ unit ++ " (ước tính)"))
  with
  | Ok s => s
  | Raise _ => "—"
  end = floored_range x width unit.
Proof.
  unfold nonneg, floored_range, floor, int_of_float, range_text.
  destruct (Prim2SF x) as [s|s| |s m e]; try done.
  by intros ->.
Qed.

(** ** The ETA estimate *)

Lemma hours_text_floor (days : float) :
  nonneg (days * 24) ->
  match hours_text days with Ok s => s | Raise _ => "—" end
  = floored_range (days * 24) 6 "giờ".
Proof. exact (text_of_floor (days * 24) 6 "giờ"). Qed.

Lemma days_text_floor (days : float) :
  nonneg days ->
  match days_text days with Ok s => s | Raise _ => "—" end
  = floored_range days 4 "ngày".
Proof. exact (text_of_floor days 4 "ngày"). Qed.

(** A volume that counts as false is clamped like a volume of 0. *)
Lemma clamp_zero_ratio (v : float) :
  (v =? 0)%float = true -> clamp (NFloat (v / 70000000)) 0.3 2 = NFloat 0.3.
Proof.
  rewrite eqb_zero_spec. intros Hv. rewrite clamp_float.
  rewrite !FloatAxioms.ltb_spec, FloatAxioms.div_spec.
  change (Prim2SF 70000000) with (S754_finite false 4697620480000000 (-26)).
  change (Prim2SF 2) with (S754_finite false 4503599627370496 (-51)).
  change (Prim2SF 0.3) with (S754_finite false 5404319552844595 (-54)).
  destruct (Prim2SF v) as [s|s| |s m e]; try discriminate.
  by destruct s.
Qed.

(** The volume factor: the clamped ratio, or the overflow of the quotient
    of an integer volume. *)
Lemma vol_factor_code {A} (vol24 : option num) (k : pyval -> result A) :
  (let* vol_factor := py_div (py_or (val vol24) (VInt 0)) (VInt 70000000) in
   let* m := py_min (VFloat vol_factor) (VFloat 2) in
   bind (py_max (VFloat 0.3) m) k)
  = match volume_ratio vol24 with
    | Some ratio => k (VFloat (num_val (clamp (NFloat ratio) 0.3 2)))
    | None => Raise OverflowError
    end.
Proof.
  assert (Hfl : forall x : float,
    (let* m := py_min (VFloat x) (VFloat 2) in bind (py_max (VFloat 0.3) m) k)
    = k (VFloat (num_val (clamp (NFloat x) 0.3 2)))).
  { intros x. rewrite (py_min_num (NFloat x)). cbn [bind]. rewrite py_max_num. cbn [bind].
    rewrite (max_min_clamp (NFloat x) 0.3 2) by reflexivity. by rewrite clamp_float. }
  assert (Hint : forall z : Z,
    (let* vol_factor := int_true_div z 70000000 in
     let* m := py_min (VFloat vol_factor) (VFloat 2) in
     bind (py_max (VFloat 0.3) m) k)
    = match int_true_div z 70000000 with
      | Ok f => k (VFloat (num_val (clamp (NFloat f) 0.3 2)))
      | Raise _ => Raise OverflowError
      end).
  { intros z. unfold int_true_div. change (70000000 =? 0)%Z with false. cbn iota.
    destruct (is_infinity _); [done|]. cbn [bind]. apply Hfl. }
  unfold volume_ratio, py_or.
  destruct vol24 as [[z|v]|]; cbn [val truthy default from_option id].
  - destruct (Z.eqb_spec z 0) as [->|Hz]; cbn [negb].
    + change (py_div (VInt 0) (VInt 70000000)) with (int_true_div 0 70000000).
      rewrite Hint. by destruct (int_true_div 0 70000000).
    + change (py_div (VInt z) (VInt 70000000)) with (int_true_div z 70000000).
      rewrite Hint. by destruct (int_true_div z 70000000).
  - destruct (v =? 0)%float eqn:E; cbn [negb].
    + change (py_div (VInt 0) (VInt 70000000)) with (Ok 0%float). cbn [bind].
      rewrite Hfl, (clamp_zero_ratio v E). reflexivity.
    + unfold py_div. cbn [as_num num_float bind].
      change (float_of_int 70000000) with (Ok 70000000%float). cbn [bind].
      unfold fdiv. change (70000000 =? 0)%float with false. cbn [bind].
      apply Hfl.
  - change (py_div (VInt 0) (VInt 70000000)) with (int_true_div 0 70000000).
    rewrite Hint. by destruct (int_true_div 0 70000000).
Qed.

Lemma py_div_by_float (c : num) (y : float) :
  py_div (val (Some c)) (VFloat y) = let* fx := num_float c in fdiv fx y.
Proof. by destruct c. Qed.

(** The daily percent: the size of the change, or 3.0. *)
Lemma daily_pct_code (chg24h : option num) :
  exists a, py_abs (py_or (val chg24h) (VInt 0)) = Ok a
    /\ py_or a (VFloat 3) = val (Some (daily_pct_of chg24h)).
Proof.
  unfold daily_pct_of, py_or.
  destruct chg24h as [[z|c]|]; cbn [val truthy default from_option id num_abs num_is_zero].
  - destruct (Z.eqb_spec z 0) as [->|Hz]; cbn [negb py_abs as_num].
    + exists (VInt 0). done.
    + exists (VInt (Z.abs z)). split; [done|]. cbn [truthy].
      destruct (Z.eqb_spec (Z.abs z) 0) as [H0|H0]; [lia | done].
  - rewrite abs_eqb_zero.
    destruct (c =? 0)%float eqn:E; cbn [negb py_abs as_num].
    + exists (VInt 0). done.
    + exists (VFloat (abs c)). split; [done|]. cbn [truthy]. by rewrite abs_eqb_zero, E.
  - exists (VInt 0). done.
Qed.

Lemma daily_move_code {A} (chg24h : option num) (k : float -> result A) :
  (let* a := py_abs (py_or (val chg24h) (VInt 0)) in
   let daily_pct := py_or a (VFloat 3) in
   let* m := py_min daily_pct (VFloat 8) in
   let* c := py_max (VFloat 1.5) m in
   bind (py_div c (VFloat 100)) k)
  = k (num_val (clamp (daily_pct_of chg24h) 1.5 8) / 100)%float.
Proof.
  destruct (daily_pct_code chg24h) as (a & -> & Hd). cbn [bind]. cbn zeta. rewrite Hd.
  rewrite py_min_num. cbn [bind]. rewrite py_max_num. cbn [bind].
  rewrite (max_min_clamp (daily_pct_of chg24h) 1.5 8) by reflexivity.
  destruct (clamp_daily_converts (daily_pct_of chg24h)) as [Hc _].
  rewrite py_div_by_float.
  rewrite Hc. cbn [bind]. unfold fdiv. by change (100 =? 0)%float with false.
Qed.

Lemma is_positive_consts :
  is_positive 0.3 /\ is_positive 2 /\ is_positive 100 /\ is_positive 24.
Proof. by vm_compute. Qed.

(** From a price that passed [price and price > 0] and converts to a float
    that is not negative, the block computes the rest of the
    specification's case analysis. *)
Lemma eta_positive_price (price : pyval) (p : float) (vol24 chg24h : option num) :
  and_then (Ok (truthy price)) (py_gt price (VInt 0)) = Ok true ->
  py_float price = Ok p ->
  nonneg p ->
  eta_to_target price (val vol24) (val chg24h)
  = if (target <=? p)%float then "Đã ≥ $1.8"
    else
      match volume_ratio vol24 with
      | None => "—"
      | Some ratio =>
          let days := eta_days p ratio chg24h in
          if (days <? 1)%float then floored_range (days * 24)%float 6 "giờ"
          else floored_range days 4 "ngày"
      end.
Proof.
  destruct is_positive_consts as (P03 & P2 & P100 & P24).
  intros Hgo Hpf Hp. unfold eta_to_target. rewrite Hgo, Hpf. cbn [bind].
  rewrite gap_le_zero.
  destruct (target <=? p)%float eqn:Ht; [reflexivity|].
  assert (Hgap : nonneg (1.8 - p)).
  { apply not_le_zero_nonneg. by rewrite gap_le_zero. }
  rewrite vol_factor_code.
  destruct (volume_ratio vol24) as [ratio|]; [|reflexivity].
  rewrite daily_move_code.
  set (dm := (num_val (clamp (daily_pct_of chg24h) 1.5 8) / 100)%float).
  set (vf := num_val (clamp (NFloat ratio) 0.3 2)).
  assert (Hvf : is_positive vf) by (by apply clamp_float_positive).
  assert (Hdm : nonneg dm).
  { apply nonneg_div; [apply clamp_daily_converts | by apply positive_nonneg]. }
  assert (Hdays : eta_days p ratio chg24h = ((1.8 - p) / p / dm / vf)%float)
    by reflexivity.
  cbn zeta. rewrite Hdays.
  set (days := ((1.8 - p) / p / dm / vf)%float).
  assert (Hnn : nonneg days).
  { unfold days.
    apply nonneg_div; [apply nonneg_div; [apply nonneg_div|]|];
      [exact Hgap | exact Hp | exact Hdm | by apply positive_nonneg]. }
  assert (Hzero : forall x d : float, (d =? 0)%float = true ->
            not_finite (x / d / vf) /\ not_finite (x / d / dm / vf)).
  { intros x d Hd. split; [apply not_finite_div | do 2 apply not_finite_div];
      by apply div_zero_not_finite. }
  assert (Hplace : not_finite days ->
            (if (days <? 1)%float then floored_range (days * 24) 6 "giờ"
             else floored_range days 4 "ngày") = "—").
  { intros Hnf. rewrite !not_finite_floor; [by destruct (_ <? _)%float | done |].
    by apply not_finite_mul. }
  unfold fdiv at 1. destruct (p =? 0)%float eqn:Ep.
  { cbn [bind]. symmetry. apply Hplace. by apply (Hzero (1.8 - p)%float p). }
  cbn [bind]. unfold fdiv at 1. destruct (dm =? 0)%float eqn:Edm.
  { cbn [bind]. symmetry. apply Hplace. by apply (Hzero ((1.8 - p) / p)%float dm). }
  cbn [bind]. unfold py_div. cbn [as_num num_float bind].
  unfold fdiv. rewrite (positive_nonzero vf Hvf). cbn [bind].
  fold days. destruct (days <? 1)%float.
  - apply hours_text_floor, nonneg_mul; [done | by apply positive_nonneg].
  - by apply days_text_floor.
Qed.

Lemma num_le_zero (p : float) : num_le (NFloat p) (NInt 0) = (p <=? 0)%float.
Proof.
  unfold num_le, float_cmp_int. rewrite leb_zero_spec.
  destruct (Prim2SF p) as [s|s| |s m e]; try (destruct s; reflexivity); try reflexivity.
  rewrite Z.mul_0_l.
  assert (H2 : (0 < 2 ^ e)%Z \/ (e < 0)%Z).
  { destruct (Z.le_gt_cases 0 e); [left; apply Z.pow_pos_nonneg; lia | right; lia]. }
  destruct s; cbn [cond_Zopp]; destruct (0 <=? e)%Z eqn:He; try reflexivity.
  - apply Z.leb_le in He. destruct H2 as [H2|]; [|lia].
    assert (- Z.pos m * 2 ^ e < 0)%Z as ->%Z.compare_lt_iff by nia. reflexivity.
  - apply Z.leb_le in He. destruct H2 as [H2|]; [|lia].
    assert (0 < Z.pos m * 2 ^ e)%Z as ->%Z.compare_gt_iff by nia. reflexivity.
Qed.

(** The block computes the specification's case analysis, on every price,
    volume and change that is a number or absent. *)
Lemma eta_to_target_numbers (price vol24 chg24h : option num) :
  eta_to_target (val price) (val vol24) (val chg24h) = eta_spec price vol24 chg24h.
Proof.
  destruct price as [[z|p]|]; [| |reflexivity]; unfold eta_spec.
  - (* an integer price *)
    unfold to_float. cbn [num_le num_float val].
    destruct (Z.leb_spec z 0) as [Hz|Hz].
    + unfold eta_to_target, and_then, py_gt, py_lt. cbn [val truthy as_num bind num_lt].
      destruct (Z.eqb_spec z 0); cbn [negb]; [done|].
      by assert ((0 <? z)%Z = false) as -> by lia.
    + assert (Hgo : and_then (Ok (truthy (VInt z))) (py_gt (VInt z) (VInt 0)) = Ok true).
      { unfold and_then, py_gt, py_lt. cbn [truthy as_num bind num_lt].
        destruct (Z.eqb_spec z 0); [lia|]. cbn [negb].
        by assert ((0 <? z)%Z = true) as -> by lia. }
      destruct (float_of_int z) as [p|e] eqn:Ep.
      * apply (eta_positive_price (VInt z) p); [done | done |].
        apply (float_of_int_nonneg z); [lia | done].
      * unfold eta_to_target. cbn [val]. rewrite Hgo. cbn [bind py_float].
        by rewrite Ep.
  - (* a float price *)
    rewrite num_le_zero. unfold to_float. cbn [num_float val].
    destruct (p <=? 0)%float eqn:Hle.
    + unfold eta_to_target, and_then, py_gt, py_lt. cbn [val truthy as_num bind].
      rewrite num_lt_zero.
      assert ((0 <? p)%float = false) as ->.
      { revert Hle. rewrite leb_zero_spec, ltb_zero_spec.
        destruct (Prim2SF p) as [s|s| |s m e]; try destruct s; done. }
      by destruct (negb _).
    + destruct (0 <? p)%float eqn:Hlt.
      * apply (eta_positive_price (VFloat p) p); [|done|].
        -- unfold and_then, py_gt, py_lt. cbn [truthy as_num bind].
           rewrite num_lt_zero, Hlt.
           apply positive_ltb in Hlt. by rewrite (positive_nonzero p Hlt).
        -- by apply positive_nonneg, positive_ltb.
      * (* NaN *)
        assert (Hnan : Prim2SF p = S754_nan).
        { revert Hle Hlt. rewrite leb_zero_spec, ltb_zero_spec.
          destruct (Prim2SF p) as [s|s| |s m e]; try destruct s; done. }
        assert ((target <=? p)%float = false) as ->.
        { rewrite FloatAxioms.leb_spec, Hnan. by destruct (Prim2SF target). }
        unfold eta_to_target, and_then, py_gt, py_lt. cbn [val truthy as_num bind].
        rewrite num_lt_zero, Hlt.
        assert (Hrest : "—" = match volume_ratio vol24 with
                  | Some ratio =>
                      let days := eta_days p ratio chg24h in
                      if (days <? 1)%float then floored_range (days * 24)%float 6 "giờ"
                      else floored_range days 4 "ngày"
                  | None => "—"
                  end).
        { destruct (volume_ratio vol24) as [ratio|]; [|reflexivity].
          assert (not_finite (eta_days p ratio chg24h)) as Hnf
            by (unfold eta_days; do 3 apply not_finite_div; by apply not_finite_sub_nan).
          cbn zeta.
          rewrite !not_finite_floor
            by (done || (apply not_finite_mul; [done | by vm_compute])).
          by destruct (eta_days p ratio chg24h <? 1)%float. }
        by destruct (negb (p =? 0)%float).
Qed.

(** C3, as the code has it, in binary64. On a price, a 24h volume and a
    24h change that are numbers or absent, the ETA text is the
    specification's case analysis: the unknown placeholder for a missing or
    non-positive price, "already reached" when the price as a float is at
    least the target 1.8, and otherwise the floored hour range (below one
    day) or day range of [eta_days], every operation rounded as the code
    rounds it. The text is the unknown placeholder as well when an integer
    price or the quotient of an integer volume is too large for a float,
    and when the value to floor is infinite or NaN. At price 1.5, volume
    70M and a 3% daily change the estimate is 6.666666666666668 days,
    rendered 6-10 days. *)
Theorem eta_estimate_matches_spec :
  (forall price vol24 chg24h : option num,
      eta_to_target (val price) (val vol24) (val chg24h)
      = eta_spec price vol24 chg24h) /\
  volume_ratio (Some (NInt 70000000)) = Some 1%float /\
  eta_days 1.5 1 (Some (NFloat 3)) = 6.6666666666666679%float /\
  floor (eta_days 1.5 1 (Some (NFloat 3))) = Some 6%Z /\
  eta_to_target (VFloat 1.5) (VInt 70000000) (VFloat 3) = "≈ 6–10 ngày (ước tính)" /\
  eta_to_target (VFloat 1.5) (VFloat 70000000) (VInt 3) = "≈ 6–10 ngày (ước tính)" /\
  eta_to_target (VFloat 1.79) (VInt 700000000) (VFloat 9) = "≈ 0–6 giờ (ước tính)" /\
  eta_to_target (VFloat 0.4) (VInt 70000000) (VFloat 5) = "≈ 69–73 ngày (ước tính)" /\
  eta_to_target VNone (VInt 70000000) (VFloat 3) = "—" /\
  eta_to_target (VFloat 0) (VInt 70000000) (VFloat 3) = "—" /\
  eta_to_target (VFloat 1.8) (VInt 70000000) (VFloat 3) = "Đã ≥ $1.8" /\
  eta_to_target (VInt 2) (VInt 70000000) (VFloat 3) = "Đã ≥ $1.8".
Proof.
  split; [exact eta_to_target_numbers|].
  repeat split; vm_compute; reflexivity.
Qed.

(** C3 as stated fails for a price so small that the estimate overflows:
    the price lies strictly between 0 and the target, the number of days
    is infinite, [int] raises on it and the block leaves the placeholder
    instead of a range. It fails likewise for an integer price above the
    target that is too large for a float, where the placeholder stands
    instead of "already reached", and for an integer volume whose quotient
    is too large for a float. *)
Lemma eta_overflow_counterexample :
  (0 <? 1e-307)%float = true /\
  (1e-307 <? target)%float = true /\
  eta_days 1e-307 1 (Some (NFloat 3)) = infinity /\
  int_of_float infinity = Raise OverflowError /\
  eta_to_target (VFloat 1e-307) (VInt 70000000) (VFloat 3) = "—" /\
  num_lt (NFloat target) (NInt (10 ^ 400)) = true /\
  py_float (VInt (10 ^ 400)) = Raise OverflowError /\
  eta_to_target (VInt (10 ^ 400)) (VInt 70000000) (VFloat 3) = "—" /\
  py_div (VInt (10 ^ 318)) (VInt 70000000) = Raise OverflowError /\
  eta_to_target (VFloat 1.5) (VInt (10 ^ 318)) (VFloat 3) = "—".
Proof. repeat split; vm_compute; reflexivity. Qed.

(** ** The open-interest change *)

Lemma usable_positive (p : float) : usable (Some p) = (0 <? p)%float.
Proof.
  unfold usable. rewrite num_lt_zero.
  destruct (0 <? p)%float eqn:E; [|by rewrite andb_false_r].
  apply positive_ltb in E. by rewrite (positive_nonzero p E).
Qed.

(** The guarded division always goes through. *)
Lemma oi_delta_pct_guarded (curr p : float) :
  oi_delta_pct curr (Some p)
  = Ok (if (0 <? p)%float
        then (Some (curr - p), Some ((curr - p) / p * 100))%float
        else (None, None)).
Proof.
  unfold oi_delta_pct. rewrite usable_positive.
  destruct (0 <? p)%float eqn:E; [|done].
  apply positive_ltb in E. unfold fdiv. by rewrite (positive_nonzero p E).
Qed.

(** C9, as the code has it, in binary64. With fewer than 24 history points
    (or a history that is not a list) the delta and the percent-change are
    absent; with at least 24 points whose oldest one converts to a strictly
    positive float, the delta is the float difference of the current open
    interest and that float, and the percent-change is the delta divided by
    it and multiplied by 100.0, each operation rounded once. *)
Theorem oi_change_from_oldest_point (w : world) (oi_latest hist : pyval) :
  get_json (binance_openInterest w) = Ok oi_latest ->
  get_json (binance_openInterestHist w) = Ok hist ->
  (is_list hist = false \/ (list_len hist < 24)%nat ->
   get_binance_oi_change w = Ok (oi_record (current_oi oi_latest) None None)) /\
  (forall p,
      is_list hist = true -> (24 <= list_len hist)%nat ->
      oldest_point hist = Ok p -> (0 <? p)%float = true ->
      get_binance_oi_change w
      = Ok (oi_record (current_oi oi_latest)
              (Some (current_oi oi_latest - p)%float)
              (Some ((current_oi oi_latest - p) / p * 100)%float))).
Proof.
  intros H1 H2. unfold get_binance_oi_change. rewrite H1, H2. cbn [bind].
  split.
  - intros Hshort.
    assert (oldest_oi hist = None) as ->; [|done].
    unfold oldest_oi. destruct (is_list hist); [|done].
    destruct Hshort as [|Hlen]; [done|]. by apply Nat.leb_gt in Hlen as ->.
  - intros p Hl Hn Hp Hpos.
    assert (oldest_oi hist = Some p) as ->.
    { unfold oldest_oi. rewrite Hl, Hp. by apply Nat.leb_le in Hn as ->. }
    rewrite oi_delta_pct_guarded, Hpos. reflexivity.
Qed.

Lemma oi_change_from_oldest_point_witness :
  get_json (binance_openInterest world0) = Ok (VDict [("openInterest", VStr "1050.5")]) /\
  get_json (binance_openInterestHist world0) = Ok (hist24 (VStr "1000")) /\
  is_list (hist24 (VStr "1000")) = true /\
  (24 <= list_len (hist24 (VStr "1000")))%nat /\
  oldest_point (hist24 (VStr "1000")) = Ok 1000%float /\
  (0 <? 1000)%float = true /\
  get_binance_oi_change world0
    = Ok (oi_record 1050.5 (Some 50.5%float) (Some 5.0500000000000007%float)) /\
  (list_len (VList (repeat (VDict [("sumOpenInterest", VStr "5")]) 23)) < 24)%nat /\
  get_binance_oi_change world_short_history = Ok (oi_record 100 None None).
Proof.
  assert (24 <= list_len (hist24 (VStr "1000")))%nat as Hlen by (simpl; lia).
  assert (list_len (VList (repeat (VDict [("sumOpenInterest", VStr "5")]) 23)) < 24)%nat
    as Hshort by (simpl; lia).
  split; [reflexivity|]. split; [reflexivity|]. split; [reflexivity|].
  split; [exact Hlen|]. split; [reflexivity|]. split; [reflexivity|].
  split; [|split; [exact Hshort|]].
  - exact (proj2 (oi_change_from_oldest_point world0
             (VDict [("openInterest", VStr "1050.5")]) (hist24 (VStr "1000"))
             eq_refl eq_refl) 1000%float eq_refl Hlen eq_refl eq_refl).
  - exact (proj1 (oi_change_from_oldest_point world_short_history
             (VDict [("openInterest", VStr "100")])
             (VList (repeat (VDict [("sumOpenInterest", VStr "5")]) 23))
             eq_refl eq_refl) (or_intror Hshort)).
Defined.

(** C9 as stated fails on a history that is long enough but whose oldest
    point holds 0: the delta is left absent instead of being the current
    value minus 0. *)
Lemma oi_change_zero_oldest_counterexample :
  is_list (hist24 (VStr "0.00000000")) = true /\
  list_len (hist24 (VStr "0.00000000")) = 24%nat /\
  oldest_point (hist24 (VStr "0.00000000")) = Ok 0%float /\
  get_binance_oi_change world_zero_oldest = Ok (oi_record 100 None None) /\
  (forall delta pct,
      get_binance_oi_change world_zero_oldest <> Ok (oi_record 100 (Some delta) pct)).
Proof.
  assert (get_binance_oi_change world_zero_oldest = Ok (oi_record 100 None None)) as H
    by (vm_compute; reflexivity).
  split; [reflexivity|]. split; [reflexivity|]. split; [vm_compute; reflexivity|].
  split; [exact H|].
  intros delta pct. rewrite H. discriminate.
Qed.

(** ** The shape of the ETA text *)

Lemma eta_days_nonneg (p ratio : float) (chg24h : option num) :
  nonneg p -> (target <=? p)%float = false -> nonneg (eta_days p ratio chg24h).
Proof.
  intros Hp Ht. unfold eta_days.
  apply nonneg_div; [apply nonneg_div; [apply nonneg_div|]|].
  - apply not_le_zero_nonneg. by rewrite gap_le_zero.
  - exact Hp.
  - apply nonneg_div; [apply clamp_daily_converts | by vm_compute].
  - apply positive_nonneg, clamp_float_positive; by vm_compute.
Qed.

Lemma floor_nonneg (x : float) (lo : Z) : nonneg x -> floor x = Some lo -> (0 <= lo)%Z.
Proof.
  unfold nonneg, floor.
  destruct (Prim2SF x) as [s|s| |s m e]; try discriminate.
  - intros _ [= <-]. lia.
  - intros -> [= <-]. cbn [cond_Zopp]. apply Z.shiftl_nonneg. lia.
Qed.

Lemma floored_range_shape (x : float) (width : Z) (unit : string) :
  nonneg x ->
  floored_range x width unit = "—"
  \/ exists lo : Z, (0 <= lo)%Z /\ floored_range x width unit = range_text lo width unit.
Proof.
  intros Hx. unfold floored_range.
  destruct (floor x) as [lo|] eqn:E; [right | by left].
  exists lo. split; [by apply (floor_nonneg x) | done].
Qed.

(** X20. Whatever numbers the price, the volume and the change are, the
    ETA text is the unknown placeholder, "already reached", or a range of
    hours (6 wide) or of days (4 wide) whose lower bound is an integer that
    is not negative. *)
Theorem eta_range_lower_bound_nonneg (price vol24 chg24h : option num) :
  let text := eta_to_target (val price) (val vol24) (val chg24h) in
  text = "—" \/ text = "Đã ≥ $1.8"
  \/ exists lo : Z, (0 <= lo)%Z
       /\ (text = range_text lo 6 "giờ" \/ text = range_text lo 4 "ngày").
Proof.
  cbn zeta. rewrite eta_to_target_numbers. unfold eta_spec.
  destruct price as [price|]; [|by left].
  destruct (num_le price (NInt 0)) eqn:Hle; [by left|].
  destruct (to_float price) as [p|] eqn:Hp; [|by left].
  assert (Hnn : nonneg p).
  { revert Hp. unfold to_float. destruct price as [z|f]; cbn [num_float].
    - destruct (float_of_int z) as [q|] eqn:Eq; [|discriminate].
      intros [= <-]. apply (float_of_int_nonneg z); [|done].
      cbn [num_le] in Hle. lia.
    - intros [= <-]. apply not_le_zero_nonneg. by rewrite <- num_le_zero. }
  destruct (target <=? p)%float eqn:Ht; [right; by left|].
  destruct (volume_ratio vol24) as [ratio|]; [|by left].
  pose proof (eta_days_nonneg p ratio chg24h Hnn Ht) as Hd.
  cbn zeta. destruct (eta_days p ratio chg24h <? 1)%float.
  - destruct (floored_range_shape (eta_days p ratio chg24h * 24) 6 "giờ")
      as [->|(lo & Hlo & ->)]; [apply nonneg_mul; [done | by vm_compute] | by left |].
    right; right. exists lo. split; [done | by left].
  - destruct (floored_range_shape (eta_days p ratio chg24h) 4 "ngày")
      as [->|(lo & Hlo & ->)]; [done | by left |].
    right; right. exists lo. split; [done | by right].
Qed.

(** ** The sign of the open-interest change *)

Lemma positive_not_negative (x : float) : is_positive x -> is_negative x -> False.
Proof.
  unfold is_positive, is_negative.
  destruct (Prim2SF x) as [s|s| |s m e]; try destruct s; done.
Qed.

Lemma negative_ltb (x : float) : (x <? 0)%float = true <-> is_negative x.
Proof.
  rewrite FloatAxioms.ltb_spec. change (Prim2SF 0) with (S754_zero false).
  unfold is_negative.
  destruct (Prim2SF x) as [s|s| |s m e]; try destruct s; by split.
Qed.

(** A product or a quotient by a positive float has the sign of the other
    operand. *)
Lemma mul_sign (x y : float) :
  is_positive y ->
  (is_positive (x * y) -> is_positive x) /\ (is_negative (x * y) -> is_negative x).
Proof.
  unfold is_positive, is_negative. rewrite FloatAxioms.mul_spec. unfold SF64mul, SFmul.
  destruct (Prim2SF x) as [s|s| |s m e], (Prim2SF y) as [s'|s'| |s' m' e'];
    try destruct s'; try done; intros _; try (destruct s; done).
  pose proof (binary_round_aux_sign (xorb s false) (Z.pos (m * m')) (e + e') loc_Exact) as H.
  destruct (binary_round_aux _ _ _ _ _ _) as [r|r| |r mr er];
    try subst r; destruct s; done.
Qed.

Lemma div_sign (x y : float) :
  is_positive y ->
  (is_positive (x / y) -> is_positive x) /\ (is_negative (x / y) -> is_negative x).
Proof.
  unfold is_positive, is_negative. rewrite FloatAxioms.div_spec. unfold SF64div, SFdiv.
  destruct (Prim2SF x) as [s|s| |s m e], (Prim2SF y) as [s'|s'| |s' m' e'];
    try destruct s'; try done; intros _; try (destruct s; done).
  destruct (SFdiv_core_binary _ _ _ _ _ _) as [[mz ez] lz].
  pose proof (binary_round_aux_sign (xorb s false) mz ez lz) as H.
  destruct (binary_round_aux _ _ _ _ _ _) as [r|r| |r mr er];
    try subst r; destruct s; done.
Qed.

(** The difference of two positive floats is above zero only when the
    first is the larger one, and below zero only when it is the smaller. *)
Lemma SFsub_sign mx ex my ey :
  valid_binary (S754_finite false mx ex) = true ->
  valid_binary (S754_finite false my ey) = true ->
  (signed_nonzero false (SF64sub (S754_finite false mx ex) (S754_finite false my ey)) ->
   SFltb (S754_finite false my ey) (S754_finite false mx ex) = true) /\
  (signed_nonzero true (SF64sub (S754_finite false mx ex) (S754_finite false my ey)) ->
   SFltb (S754_finite false mx ex) (S754_finite false my ey) = true).
Proof.
  intros Vx Vy. unfold SFltb.
  rewrite (SFcompare_aligned _ _ _ _ Vx Vy), (SFcompare_aligned _ _ _ _ Vy Vx).
  rewrite (Z.min_comm ey ex).
  apply valid_finite in Vx as (Hex & _). apply valid_finite in Vy as (Hey & _).
  unfold SF64sub, SFsub. cbn [cond_Zopp].
  rewrite !shl_align_fst by lia.
  set (a := (Zpos mx * 2 ^ (ex - Z.min ex ey))%Z).
  set (b := (Zpos my * 2 ^ (ey - Z.min ex ey))%Z).
  assert (He : (emin <= Z.min ex ey)%Z) by lia.
  unfold binary_normalize.
  destruct (Z.compare_spec a b) as [Heq|Hlt|Hgt].
  - replace (a - b)%Z with 0%Z by lia. by split.
  - assert ((b ?= a)%Z = Gt) as -> by (by apply Z.compare_gt_iff).
    destruct (a - b)%Z as [|d|d] eqn:Hd; try lia.
    pose proof (binary_round_nonzero true d _ He) as H.
    split; [|done]. intros H'.
    destruct (binary_round _ _ _ _ _) as [r|r| |r mr er]; cbn in H, H'; try done; congruence.
  - assert ((b ?= a)%Z = Lt) as -> by (by apply Z.compare_lt_iff).
    destruct (a - b)%Z as [|d|d] eqn:Hd; try lia.
    pose proof (binary_round_nonzero false d _ He) as H.
    split; [done|]. intros H'.
    destruct (binary_round _ _ _ _ _) as [r|r| |r mr er]; cbn in H, H'; try done; congruence.
Qed.

Lemma sub_sign (curr p : float) :
  is_positive p ->
  (is_positive (curr - p) -> (p <? curr)%float = true) /\
  (is_negative (curr - p) -> (curr <? p)%float = true).
Proof.
  unfold is_positive, is_negative.
  rewrite !FloatAxioms.ltb_spec, FloatAxioms.sub_spec.
  pose proof (Prim2SF_valid curr) as Vc. pose proof (Prim2SF_valid p) as Vp.
  destruct (Prim2SF curr) as [s|s| |s m e], (Prim2SF p) as [s'|s'| |s' m' e'];
    try destruct s'; try done; intros _; try (destruct s; done).
  destruct s.
  - (* a negative current value *)
    unfold SF64sub, SFsub. cbn [cond_Zopp]. unfold binary_normalize.
    destruct (_ - _)%Z as [|d|d] eqn:Hd; try lia.
    pose proof (binary_round_sign true d (Z.min e e')) as H.
    by destruct (binary_round _ _ _ _ _) as [r|r| |r mr er]; try subst r.
  - destruct (SFsub_sign m e m' e' Vc Vp) as [Hpos Hneg]. split.
    + intros H. apply Hpos.
      by destruct (SF64sub _ _) as [r|r| |r mr er]; try destruct r.
    + intros H. apply Hneg.
      by destruct (SF64sub _ _) as [r|r| |r mr er]; try destruct r.
Qed.

(** X13. When the open-interest delta and percent-change are computed, the
    oldest value is a strictly positive float, the delta is the float
    difference of the current and the oldest value and the percent-change
    is the delta divided by the oldest value and multiplied by 100.0; the
    percent-change is above zero only when the current value is above the
    oldest one, and below zero only when it is below. *)
Theorem oi_percent_sign (curr : float) (past : option float) (delta pct : float) :
  oi_delta_pct curr past = Ok (Some delta, Some pct) ->
  exists p : float,
    past = Some p /\ (0 <? p)%float = true /\
    delta = (curr - p)%float /\ pct = (delta / p * 100)%float /\
    ((0 <? pct)%float = true -> (p <? curr)%float = true) /\
    ((pct <? 0)%float = true -> (curr <? p)%float = true).
Proof.
  destruct past as [p|]; [|discriminate].
  rewrite oi_delta_pct_guarded.
  destruct (0 <? p)%float eqn:Hp; [|discriminate].
  intros [= <- <-]. exists p.
  apply positive_ltb in Hp as Hpos.
  assert (H100 : is_positive 100) by (by vm_compute).
  destruct (mul_sign ((curr - p) / p) 100 H100) as [M1 M2].
  destruct (div_sign (curr - p) p Hpos) as [D1 D2].
  destruct (sub_sign curr p Hpos) as [S1 S2].
  repeat split; try done.
  - intros H%positive_ltb. auto.
  - intros H%negative_ltb. auto.
Qed.

Lemma oi_percent_sign_witness :
  oi_delta_pct 1050.5 (Some 1000%float) = Ok (Some 50.5%float, Some 5.0500000000000007%float) /\
  (0 <? 5.0500000000000007)%float = true /\
  (1000 <? 1050.5)%float = true /\
  oi_delta_pct 950 (Some 1000%float) = Ok (Some (-50)%float, Some (-5)%float) /\
  (950 <? 1000)%float = true.
Proof.
  assert (H1 : oi_delta_pct 1050.5 (Some 1000%float)
               = Ok (Some 50.5%float, Some 5.0500000000000007%float))
    by (vm_compute; reflexivity).
  assert (H2 : oi_delta_pct 950 (Some 1000%float) = Ok (Some (-50)%float, Some (-5)%float))
    by (vm_compute; reflexivity).
  split; [exact H1|]. split; [reflexivity|].
  split.
  - destruct (oi_percent_sign _ _ _ _ H1) as (p & [= <-] & _ & _ & _ & Hup & _).
    exact (Hup eq_refl).
  - split; [exact H2|].
    destruct (oi_percent_sign _ _ _ _ H2) as (p & [= <-] & _ & _ & _ & _ & Hdown).
    exact (Hdown eq_refl).
Defined.

End Binary64Facts.
